(** * Model acquisition pipeline of the ComfyUI download CLI

    A shallow embedding of the reference parsing, classification, segment
    detection, download and provenance functions of [civitai_integration.py],
    [huggingface_integration.py], [download_models.py] and
    [download_models_advanced.py], followed by the properties of these
    functions.

    Conventions of the embedding.
    - A Python [str] is a [string]; the characters are the ASCII ones, so
      [str.lower] changes the letters [A]..[Z] only and [\d] is [0]..[9].
    - A Python [int] is a [Z]: no wrap-around, and [int(s)] has no limit on
      the number of digits.
    - A [dict] with string keys is a [gmap string _]; where the source relies
      on insertion order it is an association list.
    - A function that can raise returns a [result]; a function whose
      operations cannot raise returns its value directly.
    - The file system is a finite map from the paths of files to their
      contents; directories are not modelled, and creating one succeeds.
    - The remote services and the library calls ([requests], [huggingface_hub],
      [json], [hashlib]) are arguments of the functions that use them. *)

From Stdlib Require Import ZArith NArith List Ascii String Bool Lia.
From Stdlib Require Import Sorting.Sorted Sorting.Permutation.
From Stdlib Require Import Floats.PrimFloat.
From Stdlib Require Floats.FloatOps Floats.SpecFloat.
From Stdlib Require DecimalString.
From stdpp Require Import base option gmap strings list fin_maps.

(** ** Python strings *)

Module PyStr.

Definition is_ascii_upper (c : ascii) : bool :=
  let n := N_of_ascii c in ((65 <=? n) && (n <=? 90))%N.

(** [c.lower()] for one character. *)
Definition lower_char (c : ascii) : ascii :=
  if is_ascii_upper c then ascii_of_N (N_of_ascii c + 32) else c.

(** [s.lower()] *)
Fixpoint lower (s : string) : string :=
  match s with
  | EmptyString => EmptyString
  | String c s' => String (lower_char c) (lower s')
  end.

(** [s.startswith(p)] *)
Fixpoint startswith (p s : string) : bool :=
  match p, s with
  | EmptyString, _ => true
  | String _ _, EmptyString => false
  | String a p', String b s' => Ascii.eqb a b && startswith p' s'
  end.

(** [sub in s] *)
Fixpoint contains (sub s : string) : bool :=
  startswith sub s ||
  match s with
  | EmptyString => false
  | String _ s' => contains sub s'
  end.

(** [any(k in s for k in keys)] *)
Definition any_in (keys : list string) (s : string) : bool :=
  existsb (fun k => contains k s) keys.

(** [s.endswith(p)] *)
Fixpoint endswith (p s : string) : bool :=
  String.eqb p s ||
  match s with
  | EmptyString => false
  | String _ s' => endswith p s'
  end.

(** [c.isspace()] on the ASCII range: tab, line feed, vertical tab, form
    feed, carriage return, the four separators 0x1c..0x1f and the space. *)
Definition isspace (c : ascii) : bool :=
  let n := N_of_ascii c in
  (((9 <=? n) && (n <=? 13)) || ((28 <=? n) && (n <=? 31)) || (n =? 32))%N.

(** [s.lstrip()] and [s.lstrip(chars)] through a character predicate. *)
Fixpoint lstrip_by (p : ascii -> bool) (s : string) : string :=
  match s with
  | EmptyString => EmptyString
  | String c s' => if p c then lstrip_by p s' else s
  end.

(** [s.rstrip()] and [s.rstrip(chars)] through a character predicate. *)
Fixpoint rstrip_by (p : ascii -> bool) (s : string) : string :=
  match s with
  | EmptyString => EmptyString
  | String c s' =>
      match rstrip_by p s' with
      | EmptyString => if p c then EmptyString else String c EmptyString
      | r => String c r
      end
  end.

(** [s.strip()] *)
Definition strip (s : string) : string :=
  rstrip_by isspace (lstrip_by isspace s).

(** [s.rstrip('/')] *)
Definition rstrip_slash (s : string) : string :=
  rstrip_by (Ascii.eqb "/") s.

(** [s.split('/')[-1]]: the text after the last slash. *)
Fixpoint last_segment (s : string) : string :=
  match s with
  | EmptyString => EmptyString
  | String c s' =>
      if contains "/" s' then last_segment s'
      else if Ascii.eqb c "/" then s' else s
  end.

Definition is_digit (c : ascii) : bool :=
  let n := N_of_ascii c in ((48 <=? n) && (n <=? 57))%N.

(** [int(s)] for a string of decimal digits (the only use in the sources:
    the text of a [\d+] group). *)
Fixpoint int_acc (acc : Z) (s : string) : Z :=
  match s with
  | EmptyString => acc
  | String c s' => int_acc (10 * acc + (Z.of_N (N_of_ascii c) - 48)) s'
  end.

Definition int (s : string) : Z := int_acc 0 s.

(** [all(p(c) for c in s)] *)
Fixpoint all_chars (p : ascii -> bool) (s : string) : bool :=
  match s with
  | EmptyString => true
  | String c s' => p c && all_chars p s'
  end.

(** [s.find(sub)]: the offset of the first occurrence, [None] for [-1]. *)
Fixpoint find (sub s : string) : option nat :=
  if startswith sub s then Some O
  else
    match s with
    | EmptyString => None
    | String _ s' => S <$> find sub s'
    end.

End PyStr.

(** ** Exceptions *)

Inductive exn : Type :=
| ValueError (msg : string)
| KeyError (key : string)
| IndexError
| TypeError
| AttributeError
| OSError.

Inductive result (A : Type) : Type :=
| Ok (a : A)
| Raise (e : exn).

Arguments Ok {A} a.
Arguments Raise {A} e.

#[global] Instance result_ret : MRet result := fun _ a => Ok a.
#[global] Instance result_bind : MBind result :=
  fun _ _ f r => match r with Ok a => f a | Raise e => Raise e end.

(** ** Regular expressions ([re.search], [re.match])

  The fragment of [re] the sources use: literal text, a character class
  repeated greedily ([c*], [c+], [c{n}]), concatenation, a greedy optional
  non-capturing group, numbered capturing groups and [$].  The matcher is
  the backtracking one: a continuation receives the rest of the subject and
  the groups captured so far, and the first success in priority order is
  the match. *)

Module Re.

Inductive regex : Type :=
| Lit (l : string)
| Star (p : ascii -> bool)
| Plus (p : ascii -> bool)
| Count (n : nat) (p : ascii -> bool)
| Cat (r1 r2 : regex)
| Opt (r : regex)
| Group (i : nat) (r : regex)
| Eol.

Abbreviation groups := (gmap nat string).

(** The rest of [s] after the literal [l], when [s] starts with it. *)
Fixpoint eat (l s : string) : option string :=
  match l, s with
  | EmptyString, _ => Some s
  | String _ _, EmptyString => None
  | String a l', String b s' => if Ascii.eqb a b then eat l' s' else None
  end.

(** Greedy repetition: the longest run first, then shorter ones. *)
Fixpoint star {A} (p : ascii -> bool) (s : string) (k : string -> option A)
  : option A :=
  match s with
  | EmptyString => k s
  | String c s' =>
      if p c then
        match star p s' k with
        | Some r => Some r
        | None => k s
        end
      else k s
  end.

Definition plus {A} (p : ascii -> bool) (s : string) (k : string -> option A)
  : option A :=
  match s with
  | EmptyString => None
  | String c s' => if p c then star p s' k else None
  end.

Fixpoint count {A} (n : nat) (p : ascii -> bool) (s : string)
  (k : string -> option A) : option A :=
  match n with
  | O => k s
  | S n' =>
      match s with
      | EmptyString => None
      | String c s' => if p c then count n' p s' k else None
      end
  end.

(** The first [n] characters of [s]. *)
Fixpoint take (n : nat) (s : string) : string :=
  match n, s with
  | S n', String c s' => String c (take n' s')
  | _, _ => EmptyString
  end.

(** The text consumed between the subject [s] and its suffix [s']. *)
Definition consumed (s s' : string) : string :=
  take (String.length s - String.length s') s.

Definition newline : ascii := "010"%char.

Fixpoint exec (r : regex) (s : string) (g : groups)
  (k : string -> groups -> option groups) : option groups :=
  match r with
  | Lit l =>
      match eat l s with
      | Some s' => k s' g
      | None => None
      end
  | Star p => star p s (fun s' => k s' g)
  | Plus p => plus p s (fun s' => k s' g)
  | Count n p => count n p s (fun s' => k s' g)
  | Cat r1 r2 => exec r1 s g (fun s' g' => exec r2 s' g' k)
  | Opt r1 =>
      match exec r1 s g k with
      | Some g' => Some g'
      | None => k s g
      end
  | Group i r1 => exec r1 s g (fun s' g' => k s' (<[i := consumed s s']> g'))
  | Eol =>
      match s with
      | EmptyString => k s g
      | String c EmptyString => if Ascii.eqb c newline then k s g else None
      | _ => None
      end
  end.

Definition accept : string -> groups -> option groups := fun _ g => Some g.

(** [re.match(r, s)]: a match at the start of [s]. *)
Definition re_match (r : regex) (s : string) : option groups :=
  exec r s ∅ accept.

(** [re.search(r, s)]: the leftmost match. *)
Fixpoint search (r : regex) (s : string) : option groups :=
  match exec r s ∅ accept with
  | Some g => Some g
  | None =>
      match s with
      | EmptyString => None
      | String _ s' => search r s'
      end
  end.

(** The class [p] cannot take the first character of [s]. *)
Definition stops_at (p : ascii -> bool) (s : string) : bool :=
  match s with
  | EmptyString => true
  | String c _ => negb (p c)
  end.

(** Character classes. *)
Definition digit : ascii -> bool := PyStr.is_digit.               (* \d *)
Definition dot (c : ascii) : bool := negb (Ascii.eqb c newline).  (* . *)
Definition none_of (cs : string) (c : ascii) : bool :=            (* [^cs] *)
  negb (PyStr.contains (String c EmptyString) cs).

End Re.

Declare Scope regex_scope.
Delimit Scope regex_scope with re.
Infix "⋅" := Re.Cat (at level 41, right associativity) : regex_scope.

(** ** JSON values, as [response.json()] and [json.load] return them *)

#[warnings="-register-all"]
Inductive json : Type :=
| JNull
| JBool (b : bool)
| JInt (n : Z)
| JFloat (x : PrimFloat.float)
| JStr (s : string)
| JList (l : list json)
| JObj (fields : list (string * json)).

Module PyDict.

(** [key in d] and [d[key]] on the fields of an object. *)
Fixpoint lookup (key : string) (fields : list (string * json)) : option json :=
  match fields with
  | [] => None
  | (k, v) :: rest => if String.eqb k key then Some v else lookup key rest
  end.

(** [v.get(key, default)]: [AttributeError] unless [v] is an object. *)
Definition get (v : json) (key : string) (default : json) : result json :=
  match v with
  | JObj fields =>
      Ok (match lookup key fields with Some x => x | None => default end)
  | _ => Raise AttributeError
  end.

Fixpoint repeat_string (n : nat) (s : string) : string :=
  match n with
  | O => EmptyString
  | S n' => s +:+ repeat_string n' s
  end.

(** [v * 1024]: numbers are multiplied ([True] and [False] count as 1 and
    0), strings and lists are repeated, [None] and objects raise. *)
Definition mul_1024 (v : json) : result json :=
  match v with
  | JInt n => Ok (JInt (n * 1024))
  | JBool b => Ok (JInt ((if b then 1 else 0) * 1024))
  | JFloat x => Ok (JFloat (PrimFloat.mul x 1024%float))
  | JStr s => Ok (JStr (repeat_string 1024 s))
  | JList l => Ok (JList (concat (replicate 1024 l)))
  | JNull | JObj _ => Raise TypeError
  end.

(** [bool(v)]: the values that count as false are [None], [False], zero,
    and the empty string, list and object. *)
Definition truthy (v : json) : bool :=
  match v with
  | JNull => false
  | JBool b => b
  | JInt n => negb (n =? 0)%Z
  | JFloat x => negb (PrimFloat.eqb x 0%float)
  | JStr s => negb (String.eqb s "")
  | JList l => match l with [] => false | _ :: _ => true end
  | JObj fields => match fields with [] => false | _ :: _ => true end
  end.

(** [v[0]]: the first item of a list or the first character of a string;
    an object has no key [0], and the other values cannot be indexed. *)
Definition getitem0 (v : json) : result json :=
  match v with
  | JList (x :: _) => Ok x
  | JStr (String c _) => Ok (JStr (String c EmptyString))
  | JList [] | JStr EmptyString => Raise IndexError
  | JObj _ => Raise (KeyError "0")
  | JNull | JBool _ | JInt _ | JFloat _ => Raise TypeError
  end.

(** [v[key]] for a string [key]: only an object can be indexed by it. *)
Definition getitem (v : json) (key : string) : result json :=
  match v with
  | JObj fields =>
      match lookup key fields with
      | Some x => Ok x
      | None => Raise (KeyError key)
      end
  | _ => Raise TypeError
  end.

(** The single characters of a string. *)
Fixpoint chars (s : string) : list json :=
  match s with
  | EmptyString => []
  | String c s' => JStr (String c EmptyString) :: chars s'
  end.

(** What [for x in v] runs through: the items of a list, the characters of
    a string, the keys of an object; the other values cannot be iterated. *)
Definition iterate (v : json) : result (list json) :=
  match v with
  | JList l => Ok l
  | JStr s => Ok (chars s)
  | JObj fields => Ok (JStr <$> (fst <$> fields))
  | JNull | JBool _ | JInt _ | JFloat _ => Raise TypeError
  end.

(** [v == text] for a string [text]. *)
Definition eq_str (v : json) (text : string) : bool :=
  match v with
  | JStr s => String.eqb s text
  | _ => false
  end.

(** [text in v] for a string [text]: a substring of a string, an item of a
    list, a key of an object. *)
Definition contains (text : string) (v : json) : result bool :=
  match v with
  | JStr s => Ok (PyStr.contains text s)
  | JList l => Ok (existsb (fun x => eq_str x text) l)
  | JObj fields => Ok (existsb (fun kv => String.eqb (fst kv) text) fields)
  | JNull | JBool _ | JInt _ | JFloat _ => Raise TypeError
  end.

(** [str(v)]: the text itself, the decimal digits of an integer, the names
    of the constants; [repr] writes a float, a list and an object. *)
Definition str (repr : json -> string) (v : json) : string :=
  match v with
  | JStr s => s
  | JInt n => DecimalString.NilZero.string_of_int (Z.to_int n)
  | JBool true => "True"
  | JBool false => "False"
  | JNull => "None"
  | JFloat _ | JList _ | JObj _ => repr v
  end.

End PyDict.

(** ** The host application's directory configuration ([folder_paths]) *)

Module FolderPaths.

(** [folder_names_and_paths]: category name to (directories, extensions).
    The table belongs to the host application and is an argument of every
    function that consults it. *)
Abbreviation table := (gmap string (list string * list string)).

(** Modelled from the spec: [folder_paths.get_folder_paths] is the
    directory-configuration collaborator, a pure lookup from a category to
    its directories that raises for an unknown category name. *)
Definition get_folder_paths (cfg : table) (name : string)
  : result (list string) :=
  match cfg !! name with
  | Some (paths, _) => Ok paths
  | None => Raise (KeyError name)
  end.

End FolderPaths.

(** ** The file system and the operating system calls *)

Module Os.

(** Paths to file contents. *)
Abbreviation files := (gmap string string).

(** [os.path.join(a, b)] on POSIX. *)
Definition path_join (a b : string) : string :=
  if PyStr.startswith "/" b then b
  else if String.eqb a "" || PyStr.endswith "/" a then a +:+ b
  else a +:+ "/" +:+ b.

(** [os.path.basename(p)] *)
Definition basename (p : string) : string := PyStr.last_segment p.

(** [os.path.exists(p)] for a file. *)
Definition exists_ (fs : files) (p : string) : bool :=
  bool_decide (is_Some (fs !! p)).

(** [str(Path(p).stat().st_mtime)]: [stat] raises for a missing file; the
    text of the modification time of an existing one comes from [clock]. *)
Definition mtime_str (clock : string -> string) (fs : files) (p : string)
  : result string :=
  if exists_ fs p then Ok (clock p) else Raise OSError.

End Os.

(** ** Transfers

    How the transfer of what is behind a URL into a local file can end:
    with the whole content in the file; with an exception after the file
    was opened for writing, which leaves the part written so far; or with
    an exception before that, which leaves the file system alone. *)

Inductive fetch_result : Type :=
| Fetched (content : string)
| Broken (partial : string)
| Refused.

(** ** civitai_integration.py *)

Module CivitaiAPI.

Definition BASE_URL : string := "https://civitai.com/api/v1".

(** One call of [session.get(url, params=params)]. *)
Record request : Type := Request {
  url : string;
  params : gmap string json
}.

(** The transport: the decoded body of the response, or the exception of
    [session.get], [raise_for_status] or [response.json]. *)
Abbreviation transport := (request -> result json).


(** [get_model_info]: the request sent and the value returned, which is
    [None], written [JNull], when the request failed.  [repr] is the part
    of [str] that writes floats, lists and objects. *)
Definition get_model_info (send : transport) (repr : json -> string)
  (model_id : json) : list request * json :=
  let req :=
    Request (BASE_URL +:+ "/models/" +:+ PyDict.str repr model_id) ∅ in
  ([req], match send req with Ok v => v | Raise _ => JNull end).

Definition get_model_version_info (send : transport) (repr : json -> string)
  (version_id : json) : list request * json :=
  let req :=
    Request (BASE_URL +:+ "/model-versions/" +:+ PyDict.str repr version_id) ∅
  in
  ([req], match send req with Ok v => v | Raise _ => JNull end).

(** The loop of [get_download_url] over the files: the URL of the first
    file of the given name, [None] when the loop ends without one. *)
Fixpoint find_download_url (filename : string) (files : list json)
  : result (option json) :=
  match files with
  | [] => Ok None
  | file_info :: rest =>
      name ← PyDict.get file_info "name" JNull;
      if PyDict.eq_str name filename then
        url ← PyDict.get file_info "downloadUrl" JNull;
        Ok (Some url)
      else find_download_url filename rest
  end.

Definition get_download_url (send : transport) (repr : json -> string)
  (version_id : json) (filename : option string) : list request * json :=
  let '(reqs, version_info) := get_model_version_info send repr version_id in
  let returned : result json :=
    if negb (PyDict.truthy version_info) then Ok JNull else
    files ← PyDict.get version_info "files" (JList []);
    if negb (PyDict.truthy files) then Ok JNull else
    found ←
      match filename with
      | Some (String c f) =>
          items ← PyDict.iterate files;
          find_download_url (String c f) items
      | _ => Ok None
      end;
    match found with
    | Some url => Ok url
    | None =>
        first ← PyDict.getitem0 files;
        PyDict.get first "downloadUrl" JNull
    end in
  (reqs, match returned with Ok v => v | Raise _ => JNull end).

End CivitaiAPI.

Module CivitaiURLParser.

Import Re.

Record url_info : Type := UrlInfo {
  model_id : option Z;
  version_id : option Z;
  url_type : string
}.

(** The pattern "civitai\.com/models/(\d+)/[^/]+/versions/(\d+)". *)
Definition version_pattern : regex :=
  (Lit "civitai.com/models/" ⋅ Group 1 (Plus digit) ⋅ Lit "/" ⋅
   Plus (none_of "/") ⋅ Lit "/versions/" ⋅ Group 2 (Plus digit))%re.

(** The pattern (the blank after a star is not part of it)
    [civitai\.com/models/(\d+)(?:/[^/?]* )?(?:\?.* modelVersionId=(\d+))?]. *)
Definition model_pattern : regex :=
  (Lit "civitai.com/models/" ⋅ Group 1 (Plus digit) ⋅
   Opt (Lit "/" ⋅ Star (none_of "/?")) ⋅
   Opt (Lit "?" ⋅ Star dot ⋅ Lit "modelVersionId=" ⋅ Group 2 (Plus digit)))%re.

(** The pattern "civitai\.com/api/download/models/(\d+)". *)
Definition download_pattern : regex :=
  (Lit "civitai.com/api/download/models/" ⋅ Group 1 (Plus digit))%re.

(** [int(match.group(i))]; a group that took no part in the match is
    [None], on which [int] raises. *)
Definition int_group (m : groups) (i : nat) : option Z :=
  PyStr.int <$> m !! i.

(** [parse_civitai_url]; [None] is also what the [except] clause returns. *)
Definition parse_civitai_url (url : string) : option url_info :=
  let url := PyStr.rstrip_slash (PyStr.strip url) in
  match search version_pattern url with
  | Some m =>
      model_id ← int_group m 1;
      version_id ← int_group m 2;
      Some (UrlInfo (Some model_id) (Some version_id) "version")
  | None =>
  match search model_pattern url with
  | Some m =>
      model_id ← int_group m 1;
      let version_id :=
        match m !! 2 with
        | Some (String _ _) => int_group m 2
        | _ => None
        end in
      Some (UrlInfo (Some model_id) version_id "model")
  | None =>
  match search download_pattern url with
  | Some m =>
      version_id ← int_group m 1;
      Some (UrlInfo None (Some version_id) "download")
  | None => None
  end end end.

Definition is_civitai_url (url : string) : bool :=
  PyStr.contains "civitai.com" (PyStr.lower url).

End CivitaiURLParser.

Module CivitaiModelManager.

(** Civitai model type to ComfyUI directory category. *)
Definition MODEL_TYPE_MAPPING : gmap string string :=
  list_to_map [
    ("Checkpoint", "checkpoints");
    ("LORA", "loras");
    ("LoCon", "loras");
    ("TextualInversion", "embeddings");
    ("Hypernetwork", "hypernetworks");
    ("AestheticGradient", "embeddings");
    ("Controlnet", "controlnet");
    ("Poses", "controlnet");
    ("VAE", "vae");
    ("Upscaler", "upscale_models");
    ("MotionModule", "motion_modules");
    ("Wildcards", "wildcards");
    ("Other", "checkpoints")
  ].

Definition get_model_directory (cfg : FolderPaths.table) (model_type : string)
  : result string :=
  if bool_decide (cfg !! model_type = None) then
    Raise (ValueError ("Unknown model type: " +:+ model_type))
  else
    paths ← FolderPaths.get_folder_paths cfg model_type;
    match paths with
    | [] =>
        Raise (ValueError ("No directory configured for model type: "
                           +:+ model_type))
    | p :: _ => Ok p
    end.

Definition determine_model_type (civitai_type filename : string) : string :=
  match MODEL_TYPE_MAPPING !! civitai_type with
  | Some t => t
  | None =>
      let filename_lower := PyStr.lower filename in
      if PyStr.any_in ["lora"; "lycoris"] filename_lower then "loras"
      else if PyStr.any_in ["vae"] filename_lower then "vae"
      else if PyStr.any_in ["controlnet"; "control"] filename_lower
        then "controlnet"
      else if PyStr.any_in ["upscaler"; "upscale"; "esrgan"] filename_lower
        then "upscale_models"
      else if PyStr.any_in ["embedding"; "textual"] filename_lower
        then "embeddings"
      else if PyStr.any_in ["hypernetwork"] filename_lower
        then "hypernetworks"
      else "checkpoints"
  end.

(** The [metadata] dictionary of [_save_metadata]. *)
Definition metadata (clock : string -> string) (fs : Os.files)
  (file_path : string) (model_info version_info file_info : json)
  : result json :=
  civitai_model_id ← PyDict.get model_info "id" JNull;
  civitai_version_id ← PyDict.get version_info "id" JNull;
  model_name ← PyDict.get model_info "name" JNull;
  model_type ← PyDict.get model_info "type" JNull;
  version_name ← PyDict.get version_info "name" JNull;
  file_name ← PyDict.get file_info "name" JNull;
  file_size ← PyDict.get file_info "sizeKB" (JInt 0) ≫= PyDict.mul_1024;
  download_date ← Os.mtime_str clock fs file_path;
  description ← PyDict.get model_info "description" (JStr "");
  tags ← PyDict.get model_info "tags" (JList []);
  creator ← PyDict.get model_info "creator" (JObj []) ≫=
            (fun c => PyDict.get c "username" (JStr ""));
  nsfw ← PyDict.get model_info "nsfw" (JBool false);
  Ok (JObj [
    ("civitai_model_id", civitai_model_id);
    ("civitai_version_id", civitai_version_id);
    ("model_name", model_name);
    ("model_type", model_type);
    ("version_name", version_name);
    ("file_name", file_name);
    ("file_size", file_size);
    ("download_date", JStr download_date);
    ("description", description);
    ("tags", tags);
    ("creator", creator);
    ("nsfw", nsfw)
  ]).

Definition metadata_path (file_path : string) : string :=
  file_path +:+ ".civitai.json".

(** [_save_metadata]: the sidecar is written when the dictionary could be
    built; any exception is logged and swallowed.  [json_dump] is the text
    [json.dump(_, f, indent=2, ensure_ascii=False)] writes. *)
Definition _save_metadata (json_dump : json -> string)
  (clock : string -> string) (fs : Os.files) (file_path : string)
  (model_info version_info file_info : json) : Os.files :=
  match metadata clock fs file_path model_info version_info file_info with
  | Ok md => <[metadata_path file_path := json_dump md]> fs
  | Raise _ => fs
  end.

(** [get_model_metadata]; [json_load] is [json.load]. *)
Definition get_model_metadata (json_load : string -> result json)
  (fs : Os.files) (file_path : string) : option json :=
  match fs !! metadata_path file_path with
  | Some text =>
      match json_load text with
      | Ok md => Some md
      | Raise _ => None
      end
  | None => None
  end.

(** What the manager depends on: the directory table, the API key, the
    API transport, the transfer of a file ([requests.get] and the loop over
    the chunks, given the URL as the code passes it), and library calls. *)
Record env : Type := Env {
  cfg : FolderPaths.table;
  api_key : option string;
  send : CivitaiAPI.transport;
  fetch : json -> fetch_result;
  repr : json -> string;
  json_dump : json -> string;
  clock : string -> string
}.

(** A call that leaves the machine. *)
Inductive call : Type :=
| ApiGet (r : CivitaiAPI.request)
| Download (url : json).

(** The file system, and the calls made so far. *)
Record world : Type := World {
  fs : Os.files;
  calls : list call
}.

(** [_download_file]: any exception is logged and gives [False]. *)
Definition _download_file (fetch : json -> fetch_result) (fs : Os.files)
  (url : json) (destination : string) : Os.files * bool :=
  match fetch url with
  | Fetched content => (<[destination := content]> fs, true)
  | Broken partial => (<[destination := partial]> fs, false)
  | Refused => (fs, false)
  end.

(** The loop of [download_model] over the files: the first file of the
    given name, [None] when the loop ends without one. *)
Fixpoint find_target_file (filename : string) (files : list json)
  : result (option json) :=
  match files with
  | [] => Ok None
  | file_info :: rest =>
      name ← PyDict.get file_info "name" JNull;
      if PyDict.eq_str name filename then Ok (Some file_info)
      else find_target_file filename rest
  end.

(** [determine_model_type] on the values [download_model] hands it: a type
    that cannot be hashed raises in the membership test, a type that is no
    key of the mapping (the empty string stands for one that is no string)
    leads to [filename.lower()], which only a string has. *)
Definition determine_model_type_of (civitai_type filename : json)
  : result string :=
  match civitai_type with
  | JList _ | JObj _ => Raise TypeError
  | JStr t =>
      match filename with
      | JStr f => Ok (determine_model_type t f)
      | _ =>
          match MODEL_TYPE_MAPPING !! t with
          | Some category => Ok category
          | None => Raise AttributeError
          end
      end
  | JNull | JBool _ | JInt _ | JFloat _ =>
      match filename with
      | JStr f => Ok (determine_model_type "" f)
      | _ => Raise AttributeError
      end
  end.

(** What [download_model] settles between the API calls and the download:
    the URL to fetch, the destination and the file entry.  [Ok None] is a
    [return False]. *)
Definition prepare (e : env) (model_info version_info : json)
  (filename custom_dir : option string)
  : result (option (json * string * json)) :=
  civitai_type ← PyDict.get model_info "type" (JStr "Other");
  files ← PyDict.get version_info "files" (JList []);
  if negb (PyDict.truthy files) then Ok None else
  target_file ←
    match filename with
    | Some (String c f) =>
        items ← PyDict.iterate files;
        find_target_file (String c f) items
    | _ =>
        first ← PyDict.getitem0 files;
        Ok (Some first)
    end;
  match target_file with
  | None => Ok None
  | Some target_file =>
      if negb (PyDict.truthy target_file) then Ok None else
      model_dir ←
        match custom_dir with
        | Some (String c d) => Ok (String c d)
        | _ =>
            name ← PyDict.getitem target_file "name";
            comfyui_type ← determine_model_type_of civitai_type name;
            get_model_directory (cfg e) comfyui_type
        end;
      download_url ← PyDict.get target_file "downloadUrl" JNull;
      if negb (PyDict.truthy download_url) then Ok None else
      download_url ←
        match api_key e with
        | Some (String c k) =>
            PyDict.contains "?" download_url ≫= fun has_query : bool =>
            let separator : string := if has_query then "&" else "?" in
            Ok (JStr (PyDict.str (repr e) download_url +:+ separator
                      +:+ "token=" +:+ String c k))
        | _ => Ok download_url
        end;
      name ← PyDict.getitem target_file "name";
      match name with
      | JStr name =>
          Ok (Some (download_url, Os.path_join model_dir name, target_file))
      | _ => Raise TypeError
      end
  end.

(** The version [download_model] works with, and the calls made to get it:
    the given one, asked from the API, or the first of the model.  [Ok None]
    is a [return False]. *)
Definition select_version (e : env) (model_info : json)
  (version_id : option Z) : list CivitaiAPI.request * result (option json) :=
  match version_id with
  | Some (Zpos _ as v) | Some (Zneg _ as v) =>
      let '(reqs, version_info) :=
        CivitaiAPI.get_model_version_info (send e) (repr e) (JInt v) in
      (reqs, Ok (Some version_info))
  | _ =>
      ([],
       versions ← PyDict.get model_info "modelVersions" (JList []);
       if negb (PyDict.truthy versions) then Ok None else
       version_info ← PyDict.getitem0 versions;
       _ ← PyDict.getitem version_info "id";
       Ok (Some version_info))
  end.

(** [download_model]; an exception anywhere gives [False].  Creating the
    directory is taken to succeed. *)
Definition download_model (e : env) (w : world) (model_id : json)
  (version_id : option Z) (filename custom_dir : option string)
  : world * bool :=
  let '(reqs, model_info) :=
    CivitaiAPI.get_model_info (send e) (repr e) model_id in
  let w := World (fs w) (calls w ++ (ApiGet <$> reqs)) in
  if negb (PyDict.truthy model_info) then (w, false) else
  let '(reqs, version_info) := select_version e model_info version_id in
  let w := World (fs w) (calls w ++ (ApiGet <$> reqs)) in
  match version_info with
  | Raise _ | Ok None => (w, false)
  | Ok (Some version_info) =>
      if negb (PyDict.truthy version_info) then (w, false) else
      match prepare e model_info version_info filename custom_dir with
      | Raise _ | Ok None => (w, false)
      | Ok (Some (download_url, destination, target_file)) =>
          let '(fs', success) :=
            _download_file (fetch e) (fs w) download_url destination in
          let w := World fs' (calls w ++ [Download download_url]) in
          if success then
            (World (_save_metadata (json_dump e) (clock e) fs' destination
                      model_info version_info target_file)
               (calls w),
             true)
          else (w, false)
      end
  end.

(** [download_from_url]; an exception anywhere gives [False]. *)
Definition download_from_url (e : env) (w : world) (url : string)
  (custom_dir : option string) : world * bool :=
  match CivitaiURLParser.parse_civitai_url url with
  | None => (w, false)
  | Some url_info =>
      let model_id :=
        match CivitaiURLParser.model_id url_info with
        | Some n => JInt n
        | None => JNull
        end in
      let version_id := CivitaiURLParser.version_id url_info in
      (* The model of a download URL is asked from the API; [None] is a
         [return False]. *)
      let '(w, model_id) :=
        match version_id with
        | Some (Zpos _ as v) | Some (Zneg _ as v) =>
            if String.eqb (CivitaiURLParser.url_type url_info) "download"
               && negb (PyDict.truthy model_id) then
              let '(reqs, version_info) :=
                CivitaiAPI.get_model_version_info (send e) (repr e) (JInt v) in
              let w := World (fs w) (calls w ++ (ApiGet <$> reqs)) in
              if PyDict.truthy version_info then
                match PyDict.get version_info "modelId" JNull with
                | Ok model_id =>
                    if negb (PyDict.truthy model_id) then (w, None)
                    else (w, Some model_id)
                | Raise _ => (w, None)
                end
              else (w, None)
            else (w, Some model_id)
        | _ => (w, Some model_id)
        end in
      match model_id with
      | None => (w, false)
      | Some model_id =>
          if negb (PyDict.truthy model_id) then (w, false)
          else download_model e w model_id version_id None custom_dir
      end
  end.

End CivitaiModelManager.

(** ** huggingface_integration.py *)

(** A [dict] iterated in insertion order. *)
Module OrderedDict.

Section Ops.
Context {V : Type}.

(** [d.get(key)] *)
Fixpoint get (key : string) (d : list (string * V)) : option V :=
  match d with
  | [] => None
  | (k, v) :: rest => if String.eqb k key then Some v else get key rest
  end.

(** [d[key] = v]: an existing key keeps its place, a new one goes last. *)
Fixpoint set (key : string) (v : V) (d : list (string * V))
  : list (string * V) :=
  match d with
  | [] => [(key, v)]
  | (k, w) :: rest =>
      if String.eqb k key then (k, v) :: rest else (k, w) :: set key v rest
  end.

End Ops.

End OrderedDict.

Module HuggingFaceURLParser.

Import Re.

Record url_info : Type := UrlInfo {
  repo_id : string;
  namespace : string;
  repo_name : string;
  branch : string;
  file_path : option string;
  url_type : string
}.

(** The pattern (the blank after a star is not part of it)
    "huggingface\.co/([^/]+)/([^/]+)(?:/(?:tree|blob)/([^/]+)(?:/(.+))?)?"
    in three parts: the repository, the choice between tree and blob, and
    what follows the choice. *)
Definition repo_part : regex :=
  (Lit "huggingface.co/" ⋅ Group 1 (Plus (none_of "/")) ⋅ Lit "/" ⋅
   Group 2 (Plus (none_of "/")))%re.

Definition branch_part : regex :=
  (Lit "/" ⋅ Group 3 (Plus (none_of "/")) ⋅
   Opt (Lit "/" ⋅ Group 4 (Plus dot)))%re.

(** An alternation [r1|r2]: the first alternative, with all that follows,
    and then the second. *)
Definition either (r1 r2 : regex) (s : string) (g : groups)
  (k : string -> groups -> option groups) : option groups :=
  match exec r1 s g k with
  | Some m => Some m
  | None => exec r2 s g k
  end.

(** The whole pattern at the start of [s]: the repository, then the
    optional group, tried before the match without it. *)
Definition hf_exec (s : string) (g : groups)
  (k : string -> groups -> option groups) : option groups :=
  exec repo_part s g
    (fun s1 g1 =>
       match
         exec (Lit "/") s1 g1
           (fun s2 g2 =>
              either (Lit "tree") (Lit "blob") s2 g2
                (fun s3 g3 => exec branch_part s3 g3 k))
       with
       | Some m => Some m
       | None => k s1 g1
       end).

(** [re.search(hf_pattern, s)]: the leftmost match. *)
Fixpoint hf_search (s : string) : option groups :=
  match hf_exec s ∅ accept with
  | Some m => Some m
  | None =>
      match s with
      | EmptyString => None
      | String _ s' => hf_search s'
      end
  end.

(** [parse_hf_url]; [None] is also what the [except] clause returns. *)
Definition parse_hf_url (url : string) : option url_info :=
  let url := PyStr.rstrip_slash (PyStr.strip url) in
  match hf_search url with
  | Some m =>
      namespace ← m !! 1;
      repo_name ← m !! 2;
      let branch :=
        match m !! 3 with
        | Some (String c b) => String c b
        | _ => "main"
        end in
      Some (UrlInfo (namespace +:+ "/" +:+ repo_name) namespace repo_name
              branch (m !! 4) "model")
  | None => None
  end.

Definition is_huggingface_url (url : string) : bool :=
  PyStr.contains "huggingface.co" (PyStr.lower url).

End HuggingFaceURLParser.

Module HuggingFaceModelManager.

Import Re.

(** Repository-name patterns to ComfyUI directory categories, in the order
    the dictionary literal lists them. *)
Definition MODEL_TYPE_PATTERNS : list (string * string) := [
  ("stable-diffusion", "checkpoints");
  ("sd-", "checkpoints");
  ("diffusion", "checkpoints");
  ("checkpoint", "checkpoints");
  ("model", "checkpoints");
  ("lora", "loras");
  ("lora-", "loras");
  ("loras", "loras");
  ("vae", "vae");
  ("autoencoder", "vae");
  ("controlnet", "controlnet");
  ("control", "controlnet");
  ("embedding", "embeddings");
  ("textual-inversion", "embeddings");
  ("ti-", "embeddings");
  ("upscaler", "upscale_models");
  ("upscale", "upscale_models");
  ("esrgan", "upscale_models");
  ("real-esrgan", "upscale_models");
  ("hypernetwork", "hypernetworks");
  ("hyper", "hypernetworks")
].

Definition supported_extensions : list string :=
  [".ckpt"; ".pt"; ".pt2"; ".bin"; ".pth"; ".safetensors"; ".pkl"; ".sft";
   ".yaml"; ".json"].

(** The dictionary [get_repo_info] builds; [cardData] is the text
    [str(model_card)] of a card that is present and not empty. *)
Record repo_info : Type := RepoInfo {
  tags : list string;
  cardData : option string;
  lastModified : string;
  downloads : Z;
  likes : Z
}.

(** The first pattern, in dictionary order, that occurs in [text]. *)
Definition first_pattern (text : string) : option string :=
  snd <$> List.find (fun pm => PyStr.contains (fst pm) text) MODEL_TYPE_PATTERNS.

Fixpoint first_tag_pattern (tags : list string) : option string :=
  match tags with
  | [] => None
  | tag :: rest =>
      match first_pattern (PyStr.lower tag) with
      | Some t => Some t
      | None => first_tag_pattern rest
      end
  end.

Definition detect_model_type (repo_id : string) (info : option repo_info)
  : string :=
  let repo_name := PyStr.lower (PyStr.last_segment repo_id) in
  match first_pattern repo_name with
  | Some t => t
  | None =>
      match info with
      | Some info =>
          match first_tag_pattern (tags info) with
          | Some t => t
          | None =>
              match cardData info ≫= (fun c => first_pattern (PyStr.lower c)) with
              | Some t => t
              | None => "checkpoints"
              end
          end
      | None => "checkpoints"
      end
  end.

(** One entry of a group's ['files'] list. *)
Record segment_file : Type := SegmentFile {
  file : string;
  segment : Z;
  total : Z
}.

(** One value of the [segmented_models] dictionary. *)
Record segments_info : Type := SegmentsInfo {
  total_segments : Z;
  extension : string;
  files : list segment_file
}.

(** The pattern "(.+)-(\d{5})-of-(\d{5})\.([^.]+)$". *)
Definition segment_pattern : regex :=
  (Group 1 (Plus dot) ⋅ Lit "-" ⋅ Group 2 (Count 5 digit) ⋅ Lit "-of-" ⋅
   Group 3 (Count 5 digit) ⋅ Lit "." ⋅ Group 4 (Plus (none_of ".")) ⋅ Eol)%re.

(** The four groups of a match of [segment_pattern]. *)
Definition segment_match (file : string)
  : option (string * Z * Z * string) :=
  m ← re_match segment_pattern file;
  base_name ← m !! 1;
  segment_num ← m !! 2;
  total ← m !! 3;
  ext ← m !! 4;
  Some (base_name, PyStr.int segment_num, PyStr.int total, ext).

(** The body of the loop over [files] in [detect_segmented_models]. *)
Definition add_file (segmented_models : list (string * segments_info))
  (file : string) : list (string * segments_info) :=
  match segment_match file with
  | Some (base_name, segment_num, total_segments, extension) =>
      let entry :=
        match OrderedDict.get base_name segmented_models with
        | Some e => e
        | None => SegmentsInfo total_segments extension []
        end in
      OrderedDict.set base_name
        (SegmentsInfo (HuggingFaceModelManager.total_segments entry)
           (HuggingFaceModelManager.extension entry)
           (files entry ++ [SegmentFile file segment_num total_segments]))
        segmented_models
  | None => segmented_models
  end.

(** [list.sort(key=lambda x: x['segment'])]: a stable sort. *)
Fixpoint insert_by_segment (x : segment_file) (l : list segment_file)
  : list segment_file :=
  match l with
  | [] => [x]
  | y :: l' =>
      if (segment x <=? segment y)%Z then x :: y :: l'
      else y :: insert_by_segment x l'
  end.

Definition sort_by_segment (l : list segment_file) : list segment_file :=
  foldr insert_by_segment [] l.

Definition detect_segmented_models (files : list string)
  : list (string * segments_info) :=
  map (fun kv =>
         (fst kv,
          SegmentsInfo (total_segments (snd kv)) (extension (snd kv))
            (sort_by_segment (HuggingFaceModelManager.files (snd kv)))))
      (fold_left add_file files []).

(** [get_model_directory]: the first directory of the category; an unknown
    category is logged and replaced by ['checkpoints'].  Only the [KeyError]
    of the first lookup is caught. *)
Definition first_directory (cfg : FolderPaths.table) (model_type : string)
  : result string :=
  match cfg !! model_type with
  | None => Raise (KeyError model_type)
  | Some ([], _) => Raise IndexError
  | Some (p :: _, _) => Ok p
  end.

Definition get_model_directory (cfg : FolderPaths.table) (model_type : string)
  : result string :=
  match first_directory cfg model_type with
  | Raise (KeyError _) => first_directory cfg "checkpoints"
  | r => r
  end.

Definition get_file_destination_directory (cfg : FolderPaths.table)
  (filename base_model_dir repo_id : string) : result string :=
  let filename_lower := PyStr.lower filename in
  let repo_name := PyStr.last_segment repo_id in
  if PyStr.any_in ["vae"; "autoencoder"] filename_lower
     || PyStr.contains "/vae/" filename_lower then
    vae_dir ← get_model_directory cfg "vae";
    Ok (Os.path_join vae_dir repo_name)
  else if PyStr.any_in ["lora"; "loras"] filename_lower
     || PyStr.contains "/lora/" filename_lower then
    lora_dir ← get_model_directory cfg "loras";
    Ok (Os.path_join lora_dir repo_name)
  else if PyStr.any_in ["text_encoder"; "text_encoders"] filename_lower
     || PyStr.contains "/text_encoder" filename_lower then
    text_encoder_dir ← get_model_directory cfg "text_encoders";
    Ok (Os.path_join text_encoder_dir repo_name)
  else if PyStr.any_in ["unet"; "diffusion_pytorch_model"] filename_lower
     || PyStr.contains "/unet/" filename_lower then
    unet_dir ← get_model_directory cfg "diffusion_models";
    Ok (Os.path_join unet_dir repo_name)
  else if PyStr.any_in
            ["config"; "preprocessor"; "tokenizer"; "scheduler"; "model_index"]
            filename_lower then
    Ok (Os.path_join base_model_dir repo_name)
  else
    Ok (Os.path_join base_model_dir repo_name).

Definition is_main_model_file (filename : string) : bool :=
  let filename_lower := PyStr.lower filename in
  if negb (PyStr.any_in [".safetensors"; ".ckpt"; ".pt"; ".pth"] filename_lower)
  then false
  else if PyStr.any_in
            ["vae"; "lora"; "text_encoder"; "unet"; "config"; "preprocessor";
             "tokenizer"; "scheduler"] filename_lower
  then false
  else true.

(** What the manager depends on: the directory table, the hub and the two
    library calls of [save_model_metadata]. *)
Record env : Type := Env {
  cfg : FolderPaths.table;
  (** [get_repo_info(repo_id)]; [None] when the hub call raised. *)
  hub_repo_info : string -> option repo_info;
  (** [list_repo_files(repo_id, revision=branch)]; [[]] when it raised. *)
  hub_list_files : string -> string -> list string;
  (** [hf_hub_download(repo_id, filename, revision=branch)]: the content of
      the file it fetched, or [None] when it raised. *)
  hub_download : string -> string -> string -> option string;
  (** The text [json.dump(_, f, indent=2)] writes. *)
  json_dump : json -> string;
  (** The text of the modification time of a file. *)
  clock : string -> string
}.

(** The file system, and the names handed to [hf_hub_download] so far. *)
Record world : Type := World {
  fs : Os.files;
  attempts : list string
}.

(** [download_file]: the file is fetched into a temporary directory and
    moved over the destination.  Directories are not modelled, and the
    local [makedirs], [remove] and [rename] are taken to succeed. *)
Definition download_file (e : env) (w : world)
  (repo_id filename destination branch : string) : world * bool :=
  let attempted := attempts w ++ [filename] in
  match hub_download e repo_id filename branch with
  | Some content => (World (<[destination := content]> (fs w)) attempted, true)
  | None => (World (fs w) attempted, false)
  end.

(** The loop over the members in [download_segmented_model]; [None] is the
    [return False] inside the loop, otherwise the files downloaded. *)
Fixpoint download_segments (e : env) (repo_id dir branch : string)
  (members : list segment_file) (w : world) (downloaded_files : list string)
  : world * option (list string) :=
  match members with
  | [] => (w, Some downloaded_files)
  | file_info :: rest =>
      let destination := Os.path_join dir (file file_info) in
      match download_file e w repo_id (file file_info) destination branch with
      | (w', true) =>
          download_segments e repo_id dir branch rest w'
            (downloaded_files ++ [destination])
      | (w', false) => (w', None)
      end
  end.

Definition download_segmented_model (e : env) (w : world)
  (repo_id base_name : string) (info : segments_info)
  (destination_dir branch : string) : world * bool :=
  match get_file_destination_directory (cfg e) base_name destination_dir repo_id
  with
  | Raise _ => (w, false)
  | Ok segmented_destination_dir =>
      match download_segments e repo_id segmented_destination_dir branch
              (files info) w [] with
      | (w', Some downloaded_files) =>
          (w', bool_decide (Z.of_nat (length downloaded_files)
                            = total_segments info))
      | (w', None) => (w', false)
      end
  end.

Definition save_model_metadata (e : env) (fs : Os.files)
  (repo_id : string) (info : repo_info) (destination : string) : Os.files :=
  match Os.mtime_str (clock e) fs destination with
  | Ok downloaded_at =>
      let metadata := JObj [
        ("repo_id", JStr repo_id);
        ("source", JStr "huggingface");
        ("tags", JList (JStr <$> tags info));
        ("downloads", JInt (downloads info));
        ("likes", JInt (likes info));
        ("last_modified", JStr (lastModified info));
        ("downloaded_at", JStr downloaded_at)
      ] in
      <[destination +:+ ".huggingface.json" := json_dump e metadata]> fs
  | Raise _ => fs
  end.

(** The loop over the groups in [download_model]. *)
Fixpoint download_groups (e : env) (repo_id model_dir branch : string)
  (groups : list (string * segments_info)) (w : world) (success : bool)
  : world * bool :=
  match groups with
  | [] => (w, success)
  | (base_name, info) :: rest =>
      let '(w', ok) :=
        download_segmented_model e w repo_id base_name info model_dir branch in
      download_groups e repo_id model_dir branch rest w'
        (if ok then success else false)
  end.

(** The loop over [model_files] in [download_model].  An exception of
    [get_file_destination_directory] reaches the [except] clause of
    [download_model], which returns [False]. *)
Fixpoint download_files (e : env) (repo_id : string) (info : repo_info)
  (model_dir branch : string) (model_files : list string) (w : world)
  (success downloaded_main_model : bool) : world * bool :=
  match model_files with
  | [] => (w, success)
  | model_file :: rest =>
      match get_file_destination_directory (cfg e) model_file model_dir repo_id
      with
      | Raise _ => (w, false)
      | Ok file_destination_dir =>
          let destination :=
            Os.path_join file_destination_dir (Os.basename model_file) in
          match download_file e w repo_id model_file destination branch with
          | (w', true) =>
              if negb downloaded_main_model && is_main_model_file model_file
              then
                download_files e repo_id info model_dir branch rest
                  (World (save_model_metadata e (fs w') repo_id info destination)
                     (attempts w'))
                  success true
              else
                download_files e repo_id info model_dir branch rest w'
                  success downloaded_main_model
          | (w', false) =>
              download_files e repo_id info model_dir branch rest w'
                false downloaded_main_model
          end
      end
  end.

(** The files [download_model] downloads one by one when there is no segment
    group: those ending in a supported extension. *)
Definition model_files_of (files : list string) : list string :=
  List.filter
    (fun f => existsb (fun ext => PyStr.endswith ext (PyStr.lower f))
                supported_extensions)
    files.

Definition download_model (e : env) (w : world)
  (repo_id branch : string) (custom_dir : option string) : world * bool :=
  match hub_repo_info e repo_id with
  | None => (w, false)
  | Some info =>
      let model_type := detect_model_type repo_id (Some info) in
      let model_dir :=
        match custom_dir with
        | Some (String c d) => Ok (String c d)
        | _ => get_model_directory (cfg e) model_type
        end in
      match model_dir with
      | Raise _ => (w, false)
      | Ok model_dir =>
          match hub_list_files e repo_id branch with
          | [] => (w, false)
          | files =>
              match detect_segmented_models files with
              | [] =>
                  match model_files_of files with
                  | [] => (w, false)
                  | model_files =>
                      download_files e repo_id info model_dir branch
                        model_files w true false
                  end
              | segmented_models =>
                  download_groups e repo_id model_dir branch
                    segmented_models w true
              end
          end
      end
  end.

(** [download_from_url]; an exception anywhere gives [False]. *)
Definition download_from_url (e : env) (w : world) (url : string)
  (custom_dir : option string) : world * bool :=
  match HuggingFaceURLParser.parse_hf_url url with
  | None => (w, false)
  | Some url_info =>
      let repo_id := HuggingFaceURLParser.repo_id url_info in
      let branch := HuggingFaceURLParser.branch url_info in
      download_model e w repo_id branch custom_dir
  end.

End HuggingFaceModelManager.

(** ** download_models.py and download_models_advanced.py *)

(** [hashlib.sha256(data).hexdigest()]: the digest function is the
    library's and an argument of the functions that hash; [hexdigest] writes
    each byte of a digest as two lowercase hexadecimal digits. *)
Module Hashlib.

Definition hex_digit (n : N) : ascii :=
  if (n <? 10)%N then ascii_of_N (48 + n) else ascii_of_N (87 + n).

Definition hex_byte (b : ascii) : string :=
  let n := N_of_ascii b in
  String (hex_digit (n / 16)) (String (hex_digit (n mod 16)) EmptyString).

Fixpoint hexdigest (digest : list ascii) : string :=
  match digest with
  | [] => EmptyString
  | b :: rest => hex_byte b +:+ hexdigest rest
  end.

End Hashlib.

(** ** SHA-256 (FIPS 180-4)

    The digest function behind [hashlib.sha256], to run [verify_file_hash]
    in the examples; the properties below hold for any digest function. *)

Module Sha256.

Local Open Scope N_scope.

Definition word (n : N) : N := n mod 2 ^ 32.

Definition rotr (k x : N) : N :=
  word (N.lor (N.shiftr x k) (N.shiftl x (32 - k))).

Definition lnot32 (x : N) : N := 2 ^ 32 - 1 - x.

(** The largest [r] with [r^3 <= n], by bisection on the bits of [r]. *)
Fixpoint cube_root_bits (bits : nat) (n r : N) : N :=
  match bits with
  | O => r
  | S b =>
      let r' := r + 2 ^ N.of_nat b in
      cube_root_bits b n (if r' * r' * r' <=? n then r' else r)
  end.

Definition cube_root (n : N) : N := cube_root_bits 40 n 0.

Definition primes : list N :=
  [2; 3; 5; 7; 11; 13; 17; 19; 23; 29; 31; 37; 41; 43; 47; 53; 59; 61; 67; 71;
   73; 79; 83; 89; 97; 101; 103; 107; 109; 113; 127; 131; 137; 139; 149; 151;
   157; 163; 167; 173; 179; 181; 191; 193; 197; 199; 211; 223; 227; 229; 233;
   239; 241; 251; 257; 263; 269; 271; 277; 281; 283; 293; 307; 311].

(** The first 32 bits of the fractional parts of the square roots of the
    first 8 primes, and of the cube roots of the first 64. *)
Definition initial_hash : list N :=
  Eval vm_compute in map (fun p => word (N.sqrt (p * 2 ^ 64))) (take 8 primes).

Definition round_constants : list N :=
  Eval vm_compute in map (fun p => word (cube_root (p * 2 ^ 96))) primes.

Definition byte_of (c : ascii) : N := N_of_ascii c.

Fixpoint bytes_of (s : string) : list N :=
  match s with
  | EmptyString => []
  | String c s' => byte_of c :: bytes_of s'
  end.

(** Big-endian bytes of [x], [n] of them. *)
Fixpoint big_endian (n : nat) (x : N) : list N :=
  match n with
  | O => []
  | S n' => (x / 256 ^ N.of_nat n') mod 256 :: big_endian n' x
  end.

(** The message, a 1 bit, zeros up to 56 modulo 64, and the bit length. *)
Definition pad (message : list N) : list N :=
  let len := N.of_nat (length message) in
  let zeros := N.to_nat ((55 + 64 - len mod 64) mod 64) in
  message ++ [128] ++ replicate zeros 0 ++ big_endian 8 (8 * len).

Fixpoint words_of (fuel : nat) (bytes : list N) : list N :=
  match fuel, bytes with
  | S fuel', a :: b :: c :: d :: rest =>
      (((a * 256 + b) * 256 + c) * 256 + d) :: words_of fuel' rest
  | _, _ => []
  end.

Definition small_sigma0 (x : N) : N :=
  N.lxor (N.lxor (rotr 7 x) (rotr 18 x)) (N.shiftr x 3).
Definition small_sigma1 (x : N) : N :=
  N.lxor (N.lxor (rotr 17 x) (rotr 19 x)) (N.shiftr x 10).
Definition big_sigma0 (x : N) : N :=
  N.lxor (N.lxor (rotr 2 x) (rotr 13 x)) (rotr 22 x).
Definition big_sigma1 (x : N) : N :=
  N.lxor (N.lxor (rotr 6 x) (rotr 11 x)) (rotr 25 x).
Definition ch (x y z : N) : N :=
  N.lxor (N.land x y) (N.land (lnot32 x) z).
Definition maj (x y z : N) : N :=
  N.lxor (N.lxor (N.land x y) (N.land x z)) (N.land y z).

(** The message schedule, latest word first: [w] holds W[t-1], W[t-2], ... *)
Fixpoint schedule (n : nat) (w : list N) : list N :=
  match n with
  | O => w
  | S n' =>
      match w with
      | w1 :: w2 :: _ :: _ :: _ :: _ :: w7 :: _ :: _ :: _ :: _ :: _ :: _ :: _
          :: w15 :: w16 :: _ =>
          schedule n' (word (small_sigma1 w2 + w7 + small_sigma0 w15 + w16) :: w)
      | _ => w
      end
  end.

Definition round (state : list N) (kw : N * N) : list N :=
  match state with
  | [a; b; c; d; e; f; g; h] =>
      let t1 := h + big_sigma1 e + ch e f g + fst kw + snd kw in
      let t2 := big_sigma0 a + maj a b c in
      [word (t1 + t2); a; b; c; word (d + t1); e; f; g]
  | _ => state
  end.

Definition compress (hash block : list N) : list N :=
  let w := rev (schedule 48 (rev block)) in
  let final := fold_left round (combine round_constants w) hash in
  map (fun xy => word (fst xy + snd xy)) (combine hash final).

Fixpoint blocks (fuel : nat) (words : list N) (hash : list N) : list N :=
  match fuel, words with
  | S fuel', _ :: _ => blocks fuel' (drop 16 words) (compress hash (take 16 words))
  | _, _ => hash
  end.

(** [hashlib.sha256(data).digest()] *)
Definition sha256 (data : string) : list ascii :=
  let bytes := pad (bytes_of data) in
  let words := words_of (length bytes) bytes in
  let hash := blocks (length words) words initial_hash in
  map ascii_of_N (flat_map (big_endian 4) hash).

End Sha256.

Module ModelDownloader.

(** [verify_file_hash]: [False] also when the file cannot be read. *)
Definition verify_file_hash (sha256 : string -> list ascii) (fs : Os.files)
  (file_path expected_hash : string) : bool :=
  match fs !! file_path with
  | Some data =>
      let file_hash := Hashlib.hexdigest (sha256 data) in
      String.eqb (PyStr.lower file_hash) (PyStr.lower expected_hash)
  | None => false
  end.

(** [download_file]: [urlretrieve] fetches [url] into [destination], then
    the hash is verified when one is expected.  [fetch] is the transfer;
    creating the directory of the destination is taken to succeed. *)
Definition download_file (sha256 : string -> list ascii)
  (fetch : string -> fetch_result) (fs : Os.files)
  (url destination : string) (expected_hash : option string)
  : Os.files * bool :=
  match fetch url with
  | Fetched content =>
      let fs' := <[destination := content]> fs in
      match expected_hash with
      | Some (String c h) =>
          if negb (verify_file_hash sha256 fs' destination (String c h))
          then (fs', false)
          else (fs', true)
      | _ => (fs', true)
      end
  | Broken partial => (<[destination := partial]> fs, false)
  | Refused => (fs, false)
  end.

End ModelDownloader.

Module AdvancedModelDownloader.

(** [verify_file_hash], the same text as in [ModelDownloader]. *)
Definition verify_file_hash (sha256 : string -> list ascii) (fs : Os.files)
  (file_path expected_hash : string) : bool :=
  match fs !! file_path with
  | Some data =>
      let file_hash := Hashlib.hexdigest (sha256 data) in
      String.eqb (PyStr.lower file_hash) (PyStr.lower expected_hash)
  | None => false
  end.

(** The end of [_download_with_requests] and [_download_with_urllib]
    after the transfer: the hash is verified when one is expected and the
    configuration does not turn verification off. *)
Definition verified (sha256 : string -> list ascii)
  (config : list (string * json)) (fs : Os.files)
  (destination : string) (expected_hash : option string) : bool :=
  match expected_hash with
  | Some (String c h) =>
      if PyDict.truthy
           (default (JBool true) (PyDict.lookup "verify_hashes" config))
      then
        if negb (verify_file_hash sha256 fs destination (String c h))
        then false
        else true
      else true
  | _ => true
  end.

(** [_download_with_requests]; [get] is [requests.get] with the timeout of
    the configuration, followed by the loop that writes the chunks. *)
Definition _download_with_requests (sha256 : string -> list ascii)
  (get : json -> string -> fetch_result) (config : list (string * json))
  (fs : Os.files) (url destination : string) (expected_hash : option string)
  : Os.files * bool :=
  let timeout :=
    default (JInt 300) (PyDict.lookup "download_timeout" config) in
  match get timeout url with
  | Fetched content =>
      let fs' := <[destination := content]> fs in
      (fs', verified sha256 config fs' destination expected_hash)
  | Broken partial => (<[destination := partial]> fs, false)
  | Refused => (fs, false)
  end.

(** [_download_with_urllib]; [retrieve] is [urlretrieve]. *)
Definition _download_with_urllib (sha256 : string -> list ascii)
  (retrieve : string -> fetch_result) (config : list (string * json))
  (fs : Os.files) (url destination : string) (expected_hash : option string)
  : Os.files * bool :=
  match retrieve url with
  | Fetched content =>
      let fs' := <[destination := content]> fs in
      (fs', verified sha256 config fs' destination expected_hash)
  | Broken partial => (<[destination := partial]> fs, false)
  | Refused => (fs, false)
  end.

(** [download_file_with_progress]; [requests_available] says whether the
    [requests] library could be imported. *)
Definition download_file_with_progress (sha256 : string -> list ascii)
  (requests_available : bool) (get : json -> string -> fetch_result)
  (retrieve : string -> fetch_result) (config : list (string * json))
  (fs : Os.files) (url destination : string) (expected_hash : option string)
  : Os.files * bool :=
  if requests_available
  then _download_with_requests sha256 get config fs url destination
         expected_hash
  else _download_with_urllib sha256 retrieve config fs url destination
         expected_hash.

(** [get_model_directory] for the model type of a batch entry, which is
    any JSON value: the membership test raises for a value that cannot be
    hashed, and a value that is no string is no key of the table.
    [model_types] are the keys of the table in the order the class holds
    them, for the message. *)
Definition get_model_directory (cfg : FolderPaths.table)
  (model_types : list string) (repr : json -> string) (model_type : json)
  : result string :=
  let unknown :=
    Raise (ValueError ("Unknown model type: " +:+ PyDict.str repr model_type
                       +:+ ". Available types: "
                       +:+ String.concat ", " model_types)) in
  match model_type with
  | JList _ | JObj _ => Raise TypeError
  | JStr t =>
      match cfg !! t with
      | None => unknown
      | Some ([], _) =>
          Raise (ValueError ("No directory configured for model type: " +:+ t))
      | Some (p :: _, _) => Ok p
      end
  | JNull | JBool _ | JInt _ | JFloat _ => unknown
  end.

Definition supported_extensions : list string :=
  [".ckpt"; ".pt"; ".pt2"; ".bin"; ".pth"; ".safetensors"; ".pkl"; ".sft";
   ".yaml"].

Section Hub.

(** Whether [huggingface_hub] could be imported. *)
Variable hf_available : bool.

(** [list_repo_files(repo_id, repo_type="model")]; [None] when it raised. *)
Variable list_repo_files : string -> option (list string).

(** [hf_hub_download(repo_id, filename, local_dir=model_dir)]: the path it
    returns and the content it stored there, or [None] when it raised. *)
Variable hf_hub_download : string -> string -> string -> option (string * string).

Variable cfg : FolderPaths.table.
Variable model_types : list string.
Variable repr : json -> string.

(** The loop of [download_from_huggingface] over [model_files].
    [extract_model_metadata] reads the size and the time of the file that
    was just stored and guards what else it does, so it adds no failure. *)
Fixpoint download_files (repo_id model_dir : string)
  (model_files : list string) (w : HuggingFaceModelManager.world)
  (success : bool) : HuggingFaceModelManager.world * bool :=
  match model_files with
  | [] => (w, success)
  | file :: rest =>
      let attempted := HuggingFaceModelManager.attempts w ++ [file] in
      match hf_hub_download repo_id file model_dir with
      | Some (downloaded_path, content) =>
          download_files repo_id model_dir rest
            (HuggingFaceModelManager.World
               (<[downloaded_path := content]> (HuggingFaceModelManager.fs w))
               attempted)
            success
      | None =>
          download_files repo_id model_dir rest
            (HuggingFaceModelManager.World (HuggingFaceModelManager.fs w)
               attempted)
            false
      end
  end.

Definition download_from_huggingface (w : HuggingFaceModelManager.world)
  (repo_id model_type : string) (filename : option string)
  : HuggingFaceModelManager.world * bool :=
  if negb hf_available then (w, false) else
  match get_model_directory cfg model_types repr (JStr model_type) with
  | Raise _ => (w, false)
  | Ok model_dir =>
      match list_repo_files repo_id with
      | None => (w, false)
      | Some repo_files =>
          let model_files :=
            List.filter
              (fun f => existsb (fun ext => PyStr.endswith ext f)
                          supported_extensions)
              repo_files in
          match model_files with
          | [] => (w, false)
          | _ :: _ =>
              match filename with
              | Some (String c name) =>
                  if negb (bool_decide (String c name ∈ repo_files))
                  then (w, false)
                  else download_files repo_id model_dir [String c name] w true
              | _ => download_files repo_id model_dir model_files w true
              end
          end
      end
  end.

End Hub.

Section Batch.

(** The state of the machine and of the world, and the two downloads of
    the class, neither of which raises: [download_from_huggingface] with a
    repository, a model type and a file name, [download_file_with_progress]
    with a URL, a destination and an expected hash. *)
Context {W : Type}.
Variable via_hub : W -> json -> json -> json -> W * bool.
Variable via_url : W -> json -> string -> json -> W * bool.

(** [os.path.basename(urlparse(url).path)] as [os.path.join] accepts it. *)
Variable url_basename : json -> result string.

Variable cfg : FolderPaths.table.
Variable model_types : list string.
Variable repr : json -> string.
Variable config : list (string * json).

(** One turn of the loop of [batch_download]: the state after it and
    whether the entry counts as a success. *)
Definition batch_entry (w : W) (download : json) : result (W * bool) :=
  _ ← PyDict.get download "name" (JStr "unnamed");
  model_type ←
    PyDict.get download "model_type"
      (default (JStr "checkpoints")
         (PyDict.lookup "default_model_type" config));
  source ← PyDict.get download "source" JNull;
  if PyDict.eq_str source "huggingface" then
    repo_id ← PyDict.get download "repo_id" JNull;
    filename ← PyDict.get download "filename" JNull;
    Ok (via_hub w repo_id model_type filename)
  else if PyDict.eq_str source "url" then
    url ← PyDict.get download "url" JNull;
    filename ← PyDict.get download "filename" JNull;
    expected_hash ← PyDict.get download "hash" JNull;
    model_dir ← get_model_directory cfg model_types repr model_type;
    name ←
      (if PyDict.truthy filename then
         match filename with
         | JStr name => Ok name
         | _ => Raise TypeError
         end
       else url_basename url);
    Ok (via_url w url (Os.path_join model_dir name) expected_hash)
  else Ok (w, false).

(** The loop: [None] when an entry raised. *)
Fixpoint batch_loop (downloads : list json) (w : W) (success_count : nat)
  : W * option nat :=
  match downloads with
  | [] => (w, Some success_count)
  | download :: rest =>
      match batch_entry w download with
      | Ok (w', true) => batch_loop rest w' (S success_count)
      | Ok (w', false) => batch_loop rest w' success_count
      | Raise _ => (w, None)
      end
  end.

(** [batch_download]; [read_config] is what opening and loading the
    configuration file gives. *)
Definition batch_download (read_config : result json) (w : W) : W * bool :=
  match read_config with
  | Raise _ => (w, false)
  | Ok config_file =>
      match PyDict.get config_file "downloads" (JList []) with
      | Raise _ => (w, false)
      | Ok downloads =>
          if negb (PyDict.truthy downloads) then (w, false) else
          match PyDict.iterate downloads with
          | Raise _ => (w, false)
          | Ok items =>
              match batch_loop items w 0 with
              | (w', Some success_count) =>
                  (w', bool_decide (success_count = length items))
              | (w', None) => (w', false)
              end
          end
      end
  end.

End Batch.

End AdvancedModelDownloader.

(** ** Vocabulary of the properties *)

Module Spec.

(** The directory categories a Civitai download can be filed under. *)
Definition categories : list string :=
  ["checkpoints"; "loras"; "embeddings"; "hypernetworks"; "controlnet"; "vae";
   "upscale_models"; "motion_modules"; "wildcards"].

(** The keyword groups of the filename fallback, in the order they are
    tried, each with its category. *)
Definition keyword_groups : list (list string * string) :=
  [(["lora"; "lycoris"], "loras");
   (["vae"], "vae");
   (["controlnet"; "control"], "controlnet");
   (["upscaler"; "upscale"; "esrgan"], "upscale_models");
   (["embedding"; "textual"], "embeddings");
   (["hypernetwork"], "hypernetworks")].

(** First match wins; no match is a checkpoint. *)
Definition first_match_category (name : string) : string :=
  match List.find (fun g => PyStr.any_in (fst g) name) keyword_groups with
  | Some g => snd g
  | None => "checkpoints"
  end.

(** Two characters that are equal, or the two cases of one letter. *)
Definition same_letter (a b : ascii) : bool :=
  Ascii.eqb a b
  || (PyStr.is_ascii_upper a && (N_of_ascii b =? N_of_ascii a + 32)%N)
  || (PyStr.is_ascii_upper b && (N_of_ascii a =? N_of_ascii b + 32)%N).

(** Two strings that are equal up to letter case. *)
Fixpoint equal_up_to_case (s t : string) : bool :=
  match s, t with
  | EmptyString, EmptyString => true
  | String a s', String b t' => same_letter a b && equal_up_to_case s' t'
  | _, _ => false
  end.


(** A path segment: at least one character, no slash. *)
Definition is_slug (s : string) : bool :=
  PyStr.all_chars (fun c => negb (Ascii.eqb c "/")) s && negb (String.eqb s "").

(** The URL [prefix]civitai.com/models/[id]/[slug]/versions/[vid]. *)
Definition version_url (prefix id slug vid : string) : string :=
  prefix +:+ "civitai.com/models/" +:+ id +:+ "/" +:+ slug +:+ "/versions/"
    +:+ vid.


(** The members of the group of base name [b] among [names], in the order
    of [names]. *)
Definition members_in_order (b : string) (names : list string)
  : list HuggingFaceModelManager.segment_file :=
  omap (fun f =>
          match HuggingFaceModelManager.segment_match f with
          | Some (b', n, t, _) =>
              if String.eqb b' b
              then Some (HuggingFaceModelManager.SegmentFile f n t) else None
          | None => None
          end) names.

(** Ascending segment numbers. *)
Definition by_segment (x y : HuggingFaceModelManager.segment_file) : Prop :=
  (HuggingFaceModelManager.segment x <= HuggingFaceModelManager.segment y)%Z.

(** The items of a list up to and including the first one that is not
    [ok]: what a loop handles that stops at its first failure. *)
Fixpoint up_to_failure {A} (ok : A -> bool) (l : list A) : list A :=
  match l with
  | [] => []
  | x :: rest => x :: (if ok x then up_to_failure ok rest else [])
  end.

(** The hub delivers the file of this name. *)
Definition delivered (e : HuggingFaceModelManager.env)
  (repo_id branch filename : string) : bool :=
  bool_decide
    (is_Some (HuggingFaceModelManager.hub_download e repo_id filename branch)).



(** Where [download_model] stores a file it downloads on its own: under
    the directory of the file, by the last segment of its name. *)
Definition destination (cfg : FolderPaths.table)
  (model_dir repo_id filename : string) : result string :=
  d ← HuggingFaceModelManager.get_file_destination_directory cfg filename
        model_dir repo_id;
  Ok (Os.path_join d (Os.basename filename)).


(** The directory categories a Hugging Face repository can be filed
    under. *)
Definition hub_categories : list string :=
  ["checkpoints"; "loras"; "vae"; "controlnet"; "embeddings";
   "upscale_models"; "hypernetworks"].

(** The words that make a repository a checkpoint. *)
Definition checkpoint_words : list string :=
  ["stable-diffusion"; "sd-"; "diffusion"; "checkpoint"; "model"].

(** The words that mark a file as a component with a directory of its
    own. *)
Definition component_words : list string :=
  ["vae"; "autoencoder"; "lora"; "text_encoder"; "unet";
   "diffusion_pytorch_model"].

(** The URL [prefix]civitai.com/api/download/models/[vid]. *)
Definition download_url (prefix vid : string) : string :=
  prefix +:+ "civitai.com/api/download/models/" +:+ vid.



(** A segment of a path: at least one character, none of them a slash or
    a blank. *)
Definition is_segment (s : string) : bool :=
  PyStr.all_chars (fun c => Re.none_of "/" c && negb (PyStr.isspace c)) s
  && negb (String.eqb s "").

(** A place in a repository: the page kind (blob or else tree), the branch
    and, when a file is meant, the folders and the name of the file. *)
Definition place : Type := bool * string * option (string * string).

(** The URL [prefix]huggingface.co/[namespace]/[name], followed for a
    place by /tree/[branch] or /blob/[branch] and by /[folders][file]. *)
Definition hub_url (prefix namespace name : string) (at_place : option place)
  : string :=
  prefix +:+ "huggingface.co/" +:+ namespace +:+ "/" +:+ name
    +:+ match at_place with
        | Some (blob, branch, file) =>
            (if blob : bool then "/blob/" else "/tree/") +:+ branch
              +:+ match file with
                  | Some (folders, name) => "/" +:+ folders +:+ name
                  | None => ""
                  end
        | None => ""
        end.

(** Every item of a list is handled with success, each from the state
    the one before it left. *)
Fixpoint all_succeed {W A} (step : W -> A -> result (W * bool))
  (items : list A) (w : W) : Prop :=
  match items with
  | [] => True
  | x :: rest =>
      exists w', step w x = Ok (w', true) /\ all_succeed step rest w'
  end.

(** The state after the items of a list were handled one after the other,
    with success or not; [None] when handling one of them raised. *)
Fixpoint state_after {W A} (step : W -> A -> result (W * bool))
  (items : list A) (w : W) : option W :=
  match items with
  | [] => Some w
  | x :: rest =>
      match step w x with
      | Ok (w', _) => state_after step rest w'
      | Raise _ => None
      end
  end.

(** A file name with one of the extensions of the advanced downloader. *)
Definition has_model_extension (f : string) : bool :=
  existsb (fun ext => PyStr.endswith ext f)
    [".ckpt"; ".pt"; ".pt2"; ".bin"; ".pth"; ".safetensors"; ".pkl"; ".sft";
     ".yaml"].

(** The files the advanced downloader asks the hub for: none when the
    repository lists no file with a model extension; otherwise the named
    file alone, if it is listed, or, when no file is named, every listed
    file with a model extension. *)
Definition hub_request (repo_files : list string) (filename : option string)
  : list string :=
  if forallb (fun f => negb (has_model_extension f)) repo_files then []
  else
    match filename with
    | None | Some "" => List.filter has_model_extension repo_files
    | Some name => if bool_decide (name ∈ repo_files) then [name] else []
    end.

End Spec.

(** ** A JSON text codec

    A printer in the layout of [json.dump(_, indent=2, ensure_ascii=False)]
    and a parser of JSON text, to run the library parameters [json_dump] and
    [json_load] in the examples.  A number with a fraction is written with
    all its decimal digits. *)

Module JsonText.

Definition quote : ascii := "034"%char.
Definition backslash : ascii := "092"%char.
Definition tab : ascii := "009"%char.
Definition cr : ascii := "013"%char.

Fixpoint digits (fuel : nat) (n : N) (acc : string) : string :=
  match fuel with
  | O => acc
  | S fuel' =>
      let acc' := String (ascii_of_N (48 + n mod 10)) acc in
      if (n / 10 =? 0)%N then acc' else digits fuel' (n / 10) acc'
  end.

Definition nat_text (n : N) : string :=
  digits (S (N.to_nat (N.log2 n))) n EmptyString.

Definition int_text (z : Z) : string :=
  if (z <? 0)%Z then "-" +:+ nat_text (Z.abs_N z) else nat_text (Z.abs_N z).

Fixpoint zeros (n : nat) : string :=
  match n with
  | O => EmptyString
  | S n' => String "0" (zeros n')
  end.

(** The exact decimal expansion of [m * 2^e]. *)
Definition finite_text (m : positive) (e : Z) : string :=
  if (0 <=? e)%Z then nat_text (Npos m * 2 ^ Z.to_N e) +:+ ".0"
  else
    let k := Z.to_N (- e) in
    let n := (Npos m * 5 ^ k)%N in
    let frac := nat_text (n mod 10 ^ k) in
    let all := zeros (N.to_nat k - String.length frac) +:+ frac in
    nat_text (n / 10 ^ k) +:+ "." +:+
    match PyStr.rstrip_by (Ascii.eqb "0") all with
    | EmptyString => "0"
    | kept => kept
    end.

Definition float_text (x : float) : string :=
  match FloatOps.Prim2SF x with
  | SpecFloat.S754_nan => "NaN"
  | SpecFloat.S754_infinity s => if s then "-Infinity" else "Infinity"
  | SpecFloat.S754_zero s => if s then "-0.0" else "0.0"
  | SpecFloat.S754_finite s m e => (if s then "-" else "") +:+ finite_text m e
  end.

Definition escape_char (c : ascii) : string :=
  if Ascii.eqb c quote then String backslash (String quote EmptyString)
  else if Ascii.eqb c backslash then String backslash (String backslash EmptyString)
  else if Ascii.eqb c Re.newline then String backslash "n"
  else if Ascii.eqb c cr then String backslash "r"
  else if Ascii.eqb c tab then String backslash "t"
  else if (N_of_ascii c <? 32)%N then String backslash ("u00" +:+ Hashlib.hex_byte c)
  else String c EmptyString.

Fixpoint escape (s : string) : string :=
  match s with
  | EmptyString => EmptyString
  | String c s' => escape_char c +:+ escape s'
  end.

Definition string_text (s : string) : string :=
  String quote (escape s +:+ String quote EmptyString).

Definition indent (level : nat) : string :=
  String Re.newline (zeros 0) +:+ PyDict.repeat_string level "  ".

Fixpoint dump (level : nat) (v : json) : string :=
  match v with
  | JNull => "null"
  | JBool b => if b then "true" else "false"
  | JInt n => int_text n
  | JFloat x => float_text x
  | JStr s => string_text s
  | JList [] => "[]"
  | JList (x :: l) =>
      "[" +:+ indent (S level) +:+ dump (S level) x +:+
      (fix items (l : list json) : string :=
         match l with
         | [] => EmptyString
         | y :: l' => "," +:+ indent (S level) +:+ dump (S level) y +:+ items l'
         end) l +:+
      indent level +:+ "]"
  | JObj [] => "{}"
  | JObj ((k, x) :: l) =>
      "{" +:+ indent (S level) +:+ string_text k +:+ ": " +:+ dump (S level) x +:+
      (fix items (l : list (string * json)) : string :=
         match l with
         | [] => EmptyString
         | (k', y) :: l' =>
             "," +:+ indent (S level) +:+ string_text k' +:+ ": " +:+
             dump (S level) y +:+ items l'
         end) l +:+
      indent level +:+ "}"
  end.

Definition dumps (v : json) : string := dump 0 v.


(** *** Parsing *)

Definition is_ws (c : ascii) : bool :=
  Ascii.eqb c " " || Ascii.eqb c tab || Ascii.eqb c Re.newline || Ascii.eqb c cr.

Definition skip_ws (s : string) : string := PyStr.lstrip_by is_ws s.

Definition hex_value (c : ascii) : option N :=
  let n := N_of_ascii c in
  if PyStr.is_digit c then Some (n - 48)%N
  else if ((97 <=? n) && (n <=? 102))%N then Some (n - 87)%N
  else if ((65 <=? n) && (n <=? 70))%N then Some (n - 55)%N
  else None.

(** The text of a string after its opening quote, and what follows the
    closing quote. *)
Fixpoint parse_string (s : string) : option (string * string) :=
  match s with
  | EmptyString => None
  | String c s' =>
      if Ascii.eqb c quote then Some (EmptyString, s')
      else if Ascii.eqb c backslash then
        match s' with
        | String "u" (String a (String b (String h (String l s'')))) =>
            match hex_value a, hex_value b, hex_value h, hex_value l with
            | Some 0%N, Some 0%N, Some h, Some l =>
                '(text, rest) ← parse_string s'';
                Some (String (ascii_of_N (16 * h + l)) text, rest)
            | _, _, _, _ => None
            end
        | String e s'' =>
            let unescaped :=
              if Ascii.eqb e "n" then Some Re.newline
              else if Ascii.eqb e "r" then Some cr
              else if Ascii.eqb e "t" then Some tab
              else if Ascii.eqb e quote || Ascii.eqb e backslash || Ascii.eqb e "/"
              then Some e
              else None in
            u ← unescaped;
            '(text, rest) ← parse_string s'';
            Some (String u text, rest)
        | EmptyString => None
        end
      else
        '(text, rest) ← parse_string s';
        Some (String c text, rest)
  end.

(** The longest run of digits at the start of [s], and the rest. *)
Fixpoint span_digits (s : string) : string * string :=
  match s with
  | String c s' =>
      if PyStr.is_digit c then
        let '(ds, rest) := span_digits s' in (String c ds, rest)
      else (EmptyString, s)
  | EmptyString => (EmptyString, EmptyString)
  end.

Fixpoint strip_twos (fuel : nat) (n : N) (e : Z) : N * Z :=
  match fuel with
  | O => (n, e)
  | S fuel' =>
      if (n mod 2 =? 0)%N && negb (n =? 0)%N
      then strip_twos fuel' (n / 2) (e + 1) else (n, e)
  end.

(** The float of the decimal [n / 10^k]: by one correctly rounded division
    when both are small, or exactly when the quotient is a binary fraction
    of at most 53 bits. *)
Definition decimal_float (negative : bool) (n k : N) : option float :=
  let sign x := if negative then (- x)%float else x in
  if (n =? 0)%N then Some (sign 0%float)
  else if ((n <? 2 ^ 53) && (k <=? 22))%N then
    Some (sign (of_uint63 (Uint63Axioms.of_Z (Z.of_N n))
                / of_uint63 (Uint63Axioms.of_Z (Z.of_N (10 ^ k))))%float)
  else if (n mod 5 ^ k =? 0)%N then
    let '(m, e) := strip_twos (N.to_nat (N.log2 n) + 1) (n / 5 ^ k) (- Z.of_N k) in
    match m with
    | Npos p => if (m <? 2 ^ 53)%N then Some (FloatOps.SF2Prim (SpecFloat.S754_finite negative p e))
                else None
    | N0 => None
    end
  else None.

Definition parse_number (negative : bool) (s : string) : option (json * string) :=
  let '(whole, rest) := span_digits s in
  match whole with
  | EmptyString => None
  | _ =>
      match rest with
      | String "." rest' =>
          let '(frac, rest'') := span_digits rest' in
          match frac with
          | EmptyString => None
          | _ =>
              x ← decimal_float negative (Z.to_N (PyStr.int (whole +:+ frac)))
                     (N.of_nat (String.length frac));
              Some (JFloat x, rest'')
          end
      | _ => Some (JInt (if negative then - PyStr.int whole else PyStr.int whole), rest)
      end
  end.

Fixpoint parse_value (fuel : nat) (s : string) : option (json * string) :=
  match fuel with
  | O => None
  | S fuel' =>
      match skip_ws s with
      | String "[" rest =>
          match skip_ws rest with
          | String "]" rest' => Some (JList [], rest')
          | _ => '(l, rest') ← parse_elements fuel' rest; Some (JList l, rest')
          end
      | String "{" rest =>
          match skip_ws rest with
          | String "}" rest' => Some (JObj [], rest')
          | _ => '(l, rest') ← parse_members fuel' rest; Some (JObj l, rest')
          end
      | String "-" rest =>
          match Re.eat "Infinity" rest with
          | Some rest' => Some (JFloat neg_infinity, rest')
          | None => parse_number true rest
          end
      | String c rest as text =>
          if Ascii.eqb c quote then
            '(str, rest') ← parse_string rest; Some (JStr str, rest')
          else if PyStr.is_digit c then parse_number false text
          else
            match Re.eat "null" text, Re.eat "true" text, Re.eat "false" text,
                  Re.eat "NaN" text, Re.eat "Infinity" text with
            | Some r, _, _, _, _ => Some (JNull, r)
            | _, Some r, _, _, _ => Some (JBool true, r)
            | _, _, Some r, _, _ => Some (JBool false, r)
            | _, _, _, Some r, _ => Some (JFloat nan, r)
            | _, _, _, _, Some r => Some (JFloat infinity, r)
            | _, _, _, _, _ => None
            end
      | EmptyString => None
      end
  end
with parse_elements (fuel : nat) (s : string) : option (list json * string) :=
  match fuel with
  | O => None
  | S fuel' =>
      '(v, rest) ← parse_value fuel' s;
      match skip_ws rest with
      | String "," rest' =>
          '(l, rest'') ← parse_elements fuel' rest'; Some (v :: l, rest'')
      | String "]" rest' => Some ([v], rest')
      | _ => None
      end
  end
with parse_members (fuel : nat) (s : string)
  : option (list (string * json) * string) :=
  match fuel with
  | O => None
  | S fuel' =>
      match skip_ws s with
      | String c rest =>
          if Ascii.eqb c quote then
            '(k, rest) ← parse_string rest;
            match skip_ws rest with
            | String ":" rest =>
                '(v, rest) ← parse_value fuel' rest;
                match skip_ws rest with
                | String "," rest' =>
                    '(l, rest'') ← parse_members fuel' rest';
                    Some ((k, v) :: l, rest'')
                | String "}" rest' => Some ([(k, v)], rest')
                | _ => None
                end
            | _ => None
            end
          else None
      | EmptyString => None
      end
  end.

(** [json.load] on the text of a file. *)
Definition loads (text : string) : result json :=
  match parse_value (2 * String.length text + 2) text with
  | Some (v, rest) =>
      match skip_ws rest with
      | EmptyString => Ok v
      | _ => Raise (ValueError "Extra data")
      end
  | None => Raise (ValueError "Expecting value")
  end.

End JsonText.

(** ** Concrete data for the examples *)

Module Sample.

(** A directory table that knows ["checkpoints"] and ["vae"] only. *)
Definition two_categories : FolderPaths.table :=
  <["checkpoints" := (["/models/checkpoints"], [".safetensors"])]>
    (<["vae" := (["/models/vae"], [".safetensors"])]> ∅).

(** A file system with one downloaded file, and the SHA-256 digest of its
    content as a caller may write it. *)
Definition one_file : Os.files :=
  <["/models/vae/model.safetensors" := "abc"]> ∅.

Definition expected_hash : string :=
  "BA7816BF8F01CFEA414140DE5DAE2223b00361a396177a9cb410ff61f20015ad".



(** A repository of three files, one of them no model file; the hub cannot
    deliver the first one. *)
Definition plain_names : list string :=
  ["unet/weights.safetensors"; "README.md"; "vae/weights.safetensors"].

Definition plain_hub : HuggingFaceModelManager.env :=
  HuggingFaceModelManager.Env two_categories
    (fun _ => Some (HuggingFaceModelManager.RepoInfo
                      ["diffusers"] None "2024-01-01" 10 2))
    (fun _ _ => plain_names)
    (fun _ filename _ =>
       if String.eqb filename "unet/weights.safetensors"
       then None else Some ("bytes of " +:+ filename))
    JsonText.dumps
    (fun _ => "1700000000.0").

(** What the Civitai API says about a downloaded LoRA file. *)
Definition model_info : json :=
  JObj [("id", JInt 12345); ("name", JStr "Ink style"); ("type", JStr "LORA");
        ("description", JStr "Line art, in ink.");
        ("tags", JList [JStr "style"; JStr "ink"]);
        ("creator", JObj [("username", JStr "alice")]);
        ("nsfw", JBool false)].

Definition version_info : json :=
  JObj [("id", JInt 67890); ("name", JStr "v1.0")].

Definition file_info : json :=
  JObj [("name", JStr "ink.safetensors"); ("sizeKB", JFloat 2.5)].


Definition mtime (path : string) : string := "1700000000.5".


(** A repository of two segmented models and a text file; the hub cannot
    deliver the first segment of the first model. *)
Definition two_group_names : list string :=
  ["unet-00001-of-00002.safetensors"; "notes.txt";
   "unet-00002-of-00002.safetensors"; "clip-00001-of-00001.safetensors"].

Definition two_group_hub : HuggingFaceModelManager.env :=
  HuggingFaceModelManager.Env two_categories
    (fun _ => Some (HuggingFaceModelManager.RepoInfo
                      ["diffusers"] None "2024-01-01" 10 2))
    (fun _ _ => two_group_names)
    (fun _ filename _ =>
       if String.eqb filename "unet-00001-of-00002.safetensors"
       then None else Some ("bytes of " +:+ filename))
    JsonText.dumps
    (fun _ => "1700000000.0").

(** A repository all of whose files the hub delivers: two files of the
    same name in two directories, a text file and a VAE. *)
Definition full_names : list string :=
  ["a/model.safetensors"; "README.md"; "b/model.safetensors";
   "vae/weights.safetensors"].

Definition full_hub : HuggingFaceModelManager.env :=
  HuggingFaceModelManager.Env two_categories
    (fun _ => Some (HuggingFaceModelManager.RepoInfo
                      ["diffusers"] None "2024-01-01" 10 2))
    (fun _ _ => full_names)
    (fun _ filename _ => Some ("bytes of " +:+ filename))
    JsonText.dumps
    (fun _ => "1700000000.0").

(** A Civitai model with one version of two files, as the API describes
    them, and a site that serves the API and the files. *)
Definition lora_version : json :=
  JObj [("id", JInt 67890); ("name", JStr "v1.0"); ("modelId", JInt 12345);
        ("files",
         JList [JObj [("name", JStr "ink.safetensors"); ("sizeKB", JInt 4);
                      ("downloadUrl",
                       JStr "https://civitai.com/api/download/models/67890")];
                JObj [("name", JStr "ink.yaml"); ("sizeKB", JInt 1);
                      ("downloadUrl",
                       JStr "https://civitai.com/api/download/models/67890?type=Config")]])].

Definition lora_model : json :=
  JObj [("id", JInt 12345); ("name", JStr "Ink style"); ("type", JStr "LORA");
        ("creator", JObj [("username", JStr "alice")]);
        ("modelVersions", JList [lora_version])].

Definition civitai_tables : FolderPaths.table :=
  <["loras" := (["/models/loras"], [".safetensors"])]> two_categories.

Definition civitai_site (key : option string) : CivitaiModelManager.env :=
  CivitaiModelManager.Env civitai_tables key
    (fun req =>
       if String.eqb (CivitaiAPI.url req)
            "https://civitai.com/api/v1/models/12345"
       then Ok lora_model
       else if String.eqb (CivitaiAPI.url req)
                 "https://civitai.com/api/v1/model-versions/67890"
       then Ok lora_version
       else Raise OSError)
    (fun url =>
       match url with
       | JStr u => Fetched ("bytes of " +:+ u)
       | _ => Refused
       end)
    JsonText.dumps
    JsonText.dumps
    mtime.

Definition civitai_fresh : CivitaiModelManager.world :=
  CivitaiModelManager.World ∅ [].

(** A batch of three downloads, the second of a model type that is not
    configured, run on a machine that records the downloads it is asked
    for and grants them all. *)
Definition batch_items : list json :=
  [JObj [("name", JStr "first"); ("source", JStr "huggingface");
         ("repo_id", JStr "org/a")];
   JObj [("name", JStr "second"); ("source", JStr "url");
         ("model_type", JStr "nowhere");
         ("url", JStr "https://example.org/b.safetensors")];
   JObj [("name", JStr "third"); ("source", JStr "huggingface");
         ("repo_id", JStr "org/c")]].

Definition batch_file : json := JObj [("downloads", JList batch_items)].

Definition recording_hub (w : list json) (repo_id model_type filename : json)
  : list json * bool :=
  (w ++ [repo_id], true).

Definition recording_url (w : list json) (url : json) (destination : string)
  (expected_hash : json) : list json * bool :=
  (w ++ [url], true).

(** A hub that stores every file under the directory it is given, except
    the first file of [plain_names], which it cannot deliver. *)
Definition local_hub (repo_id filename local_dir : string)
  : option (string * string) :=
  if String.eqb filename "unet/weights.safetensors" then None
  else Some (local_dir +:+ "/" +:+ filename, "bytes of " +:+ filename).

(** Nothing on disk, nothing requested yet. *)
Definition fresh : HuggingFaceModelManager.world :=
  HuggingFaceModelManager.World ∅ [].

End Sample.

(** * Properties *)

(** ** Classification of a Civitai file *)

Section Classification.

Import CivitaiModelManager.

Lemma mapping_values (t c : string) :
  MODEL_TYPE_MAPPING !! t = Some c -> In c Spec.categories.
Proof.
  intros H. apply elem_of_list_to_map_2 in H.
  repeat (apply elem_of_cons in H as [H | H];
          [ injection H as _ ->; cbn; tauto | ]).
  inversion H.
Qed.

Lemma fallback_first_match (t filename : string) :
  MODEL_TYPE_MAPPING !! t = None ->
  determine_model_type t filename
  = Spec.first_match_category (PyStr.lower filename).
Proof.
  intros H. unfold determine_model_type. rewrite H.
  unfold Spec.first_match_category, Spec.keyword_groups. cbn [List.find fst snd].
  repeat (destruct (PyStr.any_in _ _); [reflexivity | ]).
  reflexivity.
Qed.

Lemma first_match_in_categories (name : string) :
  In (Spec.first_match_category name) Spec.categories.
Proof.
  unfold Spec.first_match_category, Spec.keyword_groups. cbn [List.find fst snd].
  repeat (destruct (PyStr.any_in _ _); [cbn; tauto | ]).
  cbn; tauto.
Qed.

(** C1. [determine_model_type] is a total function of the type tag and the
    filename: whatever the two strings are, the empty ones included, its
    value is one of the directory categories (no operation of it can raise);
    and when the type tag is a key of [MODEL_TYPE_MAPPING], the value is the
    entry of the table, whatever the filename. *)
Theorem determine_model_type_total_and_tag_wins (type_tag filename : string) :
  In (determine_model_type type_tag filename) Spec.categories
  /\ (forall category,
        MODEL_TYPE_MAPPING !! type_tag = Some category ->
        determine_model_type type_tag filename = category).
Proof.
  split.
  - destruct (MODEL_TYPE_MAPPING !! type_tag) as [c|] eqn:E.
    + unfold determine_model_type. rewrite E. eapply mapping_values, E.
    + rewrite (fallback_first_match _ _ E). apply first_match_in_categories.
  - intros c E. unfold determine_model_type. now rewrite E.
Qed.

Lemma determine_model_type_vae_example :
  determine_model_type "VAE" "my-checkpoint.safetensors" = "vae".
Proof.
  apply (determine_model_type_total_and_tag_wins "VAE" "my-checkpoint.safetensors").
  reflexivity.
Defined.

(** C3, as the claim states it, fails: an unknown type tag and a filename
    that holds both a vae keyword and a lora keyword is filed under
    ["loras"], not under ["vae"]; and ["autoencoder"] is no keyword. *)
Lemma fallback_order_counterexample :
  MODEL_TYPE_MAPPING !! "" = None
  /\ PyStr.contains "vae" (PyStr.lower "vae-lora.safetensors") = true
  /\ PyStr.contains "lora" (PyStr.lower "vae-lora.safetensors") = true
  /\ determine_model_type "" "vae-lora.safetensors" = "loras"
  /\ determine_model_type "" "vae-lora.safetensors" <> "vae"
  /\ determine_model_type "" "autoencoder.safetensors" = "checkpoints".
Proof. repeat split; try reflexivity. vm_compute. discriminate. Qed.

(** C3, amended. When the type tag is not a key of the table, the lowercased
    filename is tested against the keyword groups in the order lora/lycoris,
    vae, controlnet/control, upscaler/upscale/esrgan, embedding/textual,
    hypernetwork; the first group with a keyword in the name gives the
    category and no match gives ["checkpoints"].  So a name with a lora
    keyword is filed under ["loras"] also when it holds a vae keyword. *)
Theorem fallback_keyword_order (type_tag filename : string) :
  MODEL_TYPE_MAPPING !! type_tag = None ->
  determine_model_type type_tag filename
  = Spec.first_match_category (PyStr.lower filename)
  /\ (PyStr.any_in ["lora"; "lycoris"] (PyStr.lower filename) = true ->
      determine_model_type type_tag filename = "loras").
Proof.
  intros H. split; [now apply fallback_first_match | ].
  intros L. rewrite (fallback_first_match _ _ H).
  unfold Spec.first_match_category, Spec.keyword_groups. cbn [List.find fst snd].
  now rewrite L.
Qed.

Lemma fallback_keyword_order_witness :
  determine_model_type "" "vae-lora.safetensors"
  = Spec.first_match_category (PyStr.lower "vae-lora.safetensors")
  /\ (PyStr.any_in ["lora"; "lycoris"] (PyStr.lower "vae-lora.safetensors") = true ->
      determine_model_type "" "vae-lora.safetensors" = "loras").
Proof. apply (fallback_keyword_order "" "vae-lora.safetensors"). reflexivity. Defined.

End Classification.

(** ** The directory of a category *)

Section Directories.

(** C7, as the claim states it, fails for the Hugging Face manager: for a
    category the table does not know, its [get_model_directory] returns the
    directory of ["checkpoints"] and raises nothing. *)
Lemma unknown_category_counterexample :
  Sample.two_categories !! "motion_modules" = None
  /\ HuggingFaceModelManager.get_model_directory Sample.two_categories "motion_modules"
     = Ok "/models/checkpoints"
  /\ HuggingFaceModelManager.get_model_directory Sample.two_categories "checkpoints"
     = Ok "/models/checkpoints".
Proof. repeat split; vm_compute; reflexivity. Qed.

(** C7, amended. For a category name the directory table does not know,
    [CivitaiModelManager.get_model_directory] raises [ValueError] and returns
    no path; [HuggingFaceModelManager.get_model_directory] logs a warning and
    answers as it does for ["checkpoints"]: with the first directory of
    ["checkpoints"], or with the error of that second lookup. *)
Theorem get_model_directory_unknown_category
  (cfg : FolderPaths.table) (model_type : string) :
  cfg !! model_type = None ->
  CivitaiModelManager.get_model_directory cfg model_type
  = Raise (ValueError ("Unknown model type: " +:+ model_type))
  /\ HuggingFaceModelManager.get_model_directory cfg model_type
     = HuggingFaceModelManager.first_directory cfg "checkpoints".
Proof.
  intros H. split.
  - unfold CivitaiModelManager.get_model_directory.
    rewrite bool_decide_eq_true_2; [reflexivity | exact H].
  - unfold HuggingFaceModelManager.get_model_directory.
    unfold HuggingFaceModelManager.first_directory at 1. now rewrite H.
Qed.

Lemma get_model_directory_unknown_category_witness :
  CivitaiModelManager.get_model_directory Sample.two_categories "motion_modules"
  = Raise (ValueError ("Unknown model type: " +:+ "motion_modules"))
  /\ HuggingFaceModelManager.get_model_directory Sample.two_categories "motion_modules"
     = HuggingFaceModelManager.first_directory Sample.two_categories "checkpoints".
Proof.
  apply (get_model_directory_unknown_category Sample.two_categories "motion_modules").
  vm_compute. reflexivity.
Defined.

End Directories.

(** ** The limit of a search *)

Section Search.

Import CivitaiAPI.



End Search.

(** ** Verification of a hash *)

Section HashVerification.

Lemma N_of_lower_char (c : ascii) :
  N_of_ascii (PyStr.lower_char c)
  = if PyStr.is_ascii_upper c then (N_of_ascii c + 32)%N else N_of_ascii c.
Proof.
  unfold PyStr.lower_char. destruct (PyStr.is_ascii_upper c) eqn:U; [ | reflexivity].
  apply N_ascii_embedding. unfold PyStr.is_ascii_upper in U.
  apply andb_true_iff in U as [_ U]. apply N.leb_le in U. lia.
Qed.

Lemma same_letter_lower (a b : ascii) :
  Spec.same_letter a b = Ascii.eqb (PyStr.lower_char a) (PyStr.lower_char b).
Proof.
  assert (forall x y : ascii, Ascii.eqb x y = (N_of_ascii x =? N_of_ascii y)%N) as E.
  { intros x y. destruct (Ascii.eqb_spec x y) as [-> | Hne].
    - symmetry. apply N.eqb_refl.
    - symmetry. apply N.eqb_neq. intros Heq. apply Hne.
      rewrite <- (ascii_N_embedding x), <- (ascii_N_embedding y). now f_equal. }
  unfold Spec.same_letter. rewrite !E, !N_of_lower_char.
  unfold PyStr.is_ascii_upper.
  generalize (N_of_ascii a) (N_of_ascii b). intros n m.
  repeat match goal with
         | |- context [(?x <=? ?y)%N] => destruct (N.leb_spec x y)
         end; cbn [andb orb];
  repeat match goal with
         | |- context [(?x =? ?y)%N] => destruct (N.eqb_spec x y)
         end; cbn [andb orb]; try reflexivity; lia.
Qed.

Lemma equal_up_to_case_lower (s t : string) :
  Spec.equal_up_to_case s t = String.eqb (PyStr.lower s) (PyStr.lower t).
Proof.
  revert t. induction s as [ | a s IH]; intros [ | b t]; cbn; try reflexivity.
  now rewrite same_letter_lower, IH.
Qed.

Lemma lower_app (s t : string) :
  PyStr.lower (s +:+ t) = PyStr.lower s +:+ PyStr.lower t.
Proof. induction s as [ | a s IH]; simpl; [reflexivity | now rewrite IH]. Qed.

Lemma lower_hex_byte (b : ascii) :
  PyStr.lower (Hashlib.hex_byte b) = Hashlib.hex_byte b.
Proof. destruct b as [[] [] [] [] [] [] [] []]; reflexivity. Qed.

Lemma lower_hexdigest (digest : list ascii) :
  PyStr.lower (Hashlib.hexdigest digest) = Hashlib.hexdigest digest.
Proof.
  induction digest as [ | b d IH]; cbn; [reflexivity | ].
  now rewrite lower_app, lower_hex_byte, IH.
Qed.

(** C10. For a file that can be read, [verify_file_hash] of both downloaders
    lowercases the hexadecimal digest of the content and the expected string
    and compares them: it accepts exactly when the two are equal up to letter
    case, that is, exactly when the lowercase form of the expected string is
    the digest. *)
Theorem verify_file_hash_case_insensitive
  (sha256 : string -> list ascii) (fs : Os.files)
  (file_path expected_hash data : string) :
  fs !! file_path = Some data ->
  ModelDownloader.verify_file_hash sha256 fs file_path expected_hash
  = Spec.equal_up_to_case (Hashlib.hexdigest (sha256 data)) expected_hash
  /\ (ModelDownloader.verify_file_hash sha256 fs file_path expected_hash = true
      <-> PyStr.lower expected_hash = Hashlib.hexdigest (sha256 data))
  /\ AdvancedModelDownloader.verify_file_hash sha256 fs file_path expected_hash
     = ModelDownloader.verify_file_hash sha256 fs file_path expected_hash.
Proof.
  intros H.
  unfold ModelDownloader.verify_file_hash, AdvancedModelDownloader.verify_file_hash.
  rewrite H. split; [ | split].
  - now rewrite equal_up_to_case_lower.
  - rewrite lower_hexdigest, String.eqb_eq. split; congruence.
  - reflexivity.
Qed.

Lemma verify_file_hash_case_insensitive_witness :
  ModelDownloader.verify_file_hash Sha256.sha256 Sample.one_file
    "/models/vae/model.safetensors" Sample.expected_hash
  = Spec.equal_up_to_case
      (Hashlib.hexdigest (Sha256.sha256 "abc")) Sample.expected_hash
  /\ (ModelDownloader.verify_file_hash Sha256.sha256 Sample.one_file
        "/models/vae/model.safetensors" Sample.expected_hash = true
      <-> PyStr.lower Sample.expected_hash
          = Hashlib.hexdigest (Sha256.sha256 "abc"))
  /\ AdvancedModelDownloader.verify_file_hash Sha256.sha256
       Sample.one_file "/models/vae/model.safetensors" Sample.expected_hash
     = ModelDownloader.verify_file_hash Sha256.sha256 Sample.one_file
         "/models/vae/model.safetensors" Sample.expected_hash.
Proof.
  apply (verify_file_hash_case_insensitive Sha256.sha256 Sample.one_file
           "/models/vae/model.safetensors" Sample.expected_hash "abc").
  reflexivity.
Defined.

(** The digest of the three bytes abc is accepted in mixed case; a digest
    that differs in one digit is rejected, and so is any digest for a file
    that cannot be read. *)
Example verify_file_hash_runs :
  Hashlib.hexdigest (Sha256.sha256 "abc")
  = "ba7816bf8f01cfea414140de5dae2223b00361a396177a9cb410ff61f20015ad"
  /\ ModelDownloader.verify_file_hash Sha256.sha256 Sample.one_file
       "/models/vae/model.safetensors" Sample.expected_hash = true
  /\ ModelDownloader.verify_file_hash Sha256.sha256 Sample.one_file
       "/models/vae/model.safetensors"
       "ba7816bf8f01cfea414140de5dae2223b00361a396177a9cb410ff61f20015ae"
     = false
  /\ ModelDownloader.verify_file_hash Sha256.sha256 Sample.one_file
       "/models/vae/missing.safetensors" Sample.expected_hash = false.
Proof. repeat split; vm_compute; reflexivity. Qed.

End HashVerification.

(** ** Matching with the backtracking matcher *)

Section Matching.

Import Re.

Lemma eat_app (l s : string) : eat l (l +:+ s) = Some s.
Proof.
  induction l as [ | a l IH]; simpl; [now destruct s | ].
  now rewrite Ascii.eqb_refl.
Qed.

Lemma eat_startswith (l s : string) :
  PyStr.startswith l s = false -> eat l s = None.
Proof.
  revert s. induction l as [ | a l IH]; intros [ | b s]; simpl;
    try discriminate; try reflexivity.
  destruct (Ascii.eqb a b); simpl; [apply IH | reflexivity].
Qed.

Lemma star_run {A} (p : ascii -> bool) (run rest : string)
  (k : string -> option A) (r : A) :
  PyStr.all_chars p run = true ->
  stops_at p rest = true ->
  k rest = Some r ->
  star p (run +:+ rest) k = Some r.
Proof.
  intros Hrun Hstop Hk. induction run as [ | c run IH]; simpl.
  - destruct rest as [ | c rest]; simpl; [exact Hk | ].
    simpl in Hstop. apply negb_true_iff in Hstop. now rewrite Hstop.
  - simpl in Hrun. apply andb_true_iff in Hrun as [Hc Hrun].
    rewrite Hc, (IH Hrun). reflexivity.
Qed.

Lemma plus_run {A} (p : ascii -> bool) (run rest : string)
  (k : string -> option A) (r : A) :
  PyStr.all_chars p run = true ->
  run <> EmptyString ->
  stops_at p rest = true ->
  k rest = Some r ->
  plus p (run +:+ rest) k = Some r.
Proof.
  intros Hrun Hne Hstop Hk. destruct run as [ | c run]; [congruence | ].
  simpl in *. apply andb_true_iff in Hrun as [Hc Hrun].
  rewrite Hc. now apply star_run.
Qed.

Lemma string_length_app (s t : string) :
  String.length (s +:+ t) = String.length s + String.length t.
Proof. induction s as [ | a s IH]; simpl; [reflexivity | now rewrite IH]. Qed.

Lemma string_take_app (s t : string) : take (String.length s) (s +:+ t) = s.
Proof. induction s as [ | a s IH]; simpl; [now destruct t | now rewrite IH]. Qed.

Lemma consumed_app (run rest : string) : consumed (run +:+ rest) rest = run.
Proof.
  unfold consumed. rewrite string_length_app.
  replace (String.length run + String.length rest - String.length rest)
    with (String.length run) by lia.
  apply string_take_app.
Qed.

(** A capturing group over [p+] takes a whole run of [p] when the rest of
    the pattern accepts what follows the run. *)
Lemma exec_group_plus_run (i : nat) (p : ascii -> bool) (run rest : string)
  (g : groups) (k : string -> groups -> option groups) (r : groups) :
  PyStr.all_chars p run = true ->
  run <> EmptyString ->
  stops_at p rest = true ->
  k rest (<[i := run]> g) = Some r ->
  exec (Group i (Plus p)) (run +:+ rest) g k = Some r.
Proof.
  intros Hrun Hne Hstop Hk. cbn [exec].
  apply plus_run; try assumption. now rewrite consumed_app.
Qed.


Lemma exec_lit (l rest : string) (g : groups)
  (k : string -> groups -> option groups) :
  exec (Lit l) (l +:+ rest) g k = k rest g.
Proof. cbn [exec]. now rewrite eat_app. Qed.



End Matching.

(** ** Parsing a Civitai URL *)

Section UrlParsing.

Import Re CivitaiURLParser.

Lemma lstrip_app (p : ascii -> bool) (prefix s : string) :
  stops_at p s = true ->
  PyStr.lstrip_by p (prefix +:+ s) = PyStr.lstrip_by p prefix +:+ s.
Proof.
  intros Hs. induction prefix as [ | c prefix IH]; simpl.
  - destruct s as [ | c s]; [reflexivity | ]. simpl in *.
    apply negb_true_iff in Hs. now rewrite Hs.
  - destruct (p c); [exact IH | reflexivity].
Qed.

Lemma rstrip_run (p : ascii -> bool) (s : string) :
  PyStr.all_chars (fun c => negb (p c)) s = true ->
  s <> EmptyString ->
  PyStr.rstrip_by p s = s.
Proof.
  induction s as [ | c s IH]; intros Hall Hne; [congruence | ].
  simpl in *. apply andb_true_iff in Hall as [Hc Hall].
  destruct s as [ | d s].
  - simpl. apply negb_true_iff in Hc. now rewrite Hc.
  - rewrite IH by (assumption || discriminate). reflexivity.
Qed.

Lemma rstrip_app (p : ascii -> bool) (s t : string) :
  PyStr.rstrip_by p t = t ->
  t <> EmptyString ->
  PyStr.rstrip_by p (s +:+ t) = s +:+ t.
Proof.
  intros Ht Hne. induction s as [ | c s IH]; [exact Ht | ].
  change (String c s +:+ t) with (String c (s +:+ t)).
  cbn [PyStr.rstrip_by]. rewrite IH.
  destruct (s +:+ t) eqn:E; [ | reflexivity].
  destruct s; [exfalso; exact (Hne E) | discriminate E].
Qed.

Lemma all_chars_impl (p q : ascii -> bool) (s : string) :
  (forall c, p c = true -> q c = true) ->
  PyStr.all_chars p s = true -> PyStr.all_chars q s = true.
Proof.
  intros Hpq. induction s as [ | c s IH]; simpl; [reflexivity | ].
  intros H. apply andb_true_iff in H as [Hc Hs].
  now rewrite (Hpq _ Hc), IH.
Qed.




Lemma is_slug_inv (s : string) :
  Spec.is_slug s = true ->
  PyStr.all_chars (none_of "/") s = true /\ s <> EmptyString.
Proof.
  unfold Spec.is_slug. intros H. apply andb_true_iff in H as [Hd Hne]. split.
  - revert Hd. apply all_chars_impl. intros c Hc.
    destruct c as [[] [] [] [] [] [] [] []]; vm_compute in *; congruence.
  - intros ->. discriminate.
Qed.

Lemma rstrip_keeps (p : ascii -> bool) (s t : string) :
  PyStr.rstrip_by p t = t /\ t <> EmptyString ->
  PyStr.rstrip_by p (s +:+ t) = s +:+ t /\ s +:+ t <> EmptyString.
Proof.
  intros [Ht Hne]. split; [now apply rstrip_app | ].
  destruct s; [exact Hne | discriminate].
Qed.


Lemma find_cons_inv (l : string) (c : ascii) (t : string) (n : nat) :
  PyStr.find l (String c t) = Some (S n) ->
  PyStr.startswith l (String c t) = false /\ PyStr.find l t = Some n.
Proof.
  cbn [PyStr.find].
  destruct (PyStr.startswith l (String c t)); [discriminate | ].
  destruct (PyStr.find l t) as [m | ]; [ | discriminate].
  cbn. intros [= ->]. split; reflexivity.
Qed.

Lemma find_lstrip (l prefix s : string) :
  PyStr.find l (prefix +:+ s) = Some (String.length prefix) ->
  PyStr.find l (PyStr.lstrip_by PyStr.isspace prefix +:+ s)
  = Some (String.length (PyStr.lstrip_by PyStr.isspace prefix)).
Proof.
  induction prefix as [ | c prefix IH]; intros H; [exact H | ].
  cbn [PyStr.lstrip_by]. destruct (PyStr.isspace c); [ | exact H].
  apply IH. now apply (find_cons_inv l c).
Qed.

Lemma exec_cat (r1 r2 : regex) (s : string) (g : groups)
  (k : string -> groups -> option groups) :
  exec (Cat r1 r2) s g k = exec r1 s g (fun s' g' => exec r2 s' g' k).
Proof. reflexivity. Qed.

Lemma string_app_nil (s : string) : s +:+ "" = s.
Proof.
  induction s as [ | c s IH]; [reflexivity | ].
  change (String c (s +:+ "") = String c s). now rewrite IH.
Qed.




(** The same URL matches the model-only pattern as well, which then sees
    no version: the order of the two attempts decides the result. *)
Example model_pattern_on_version_url :
  Spec.version_url "https://" "12345" "model-name" "67890"
  = "https://civitai.com/models/12345/model-name/versions/67890"
  /\ search model_pattern (Spec.version_url "https://" "12345" "model-name" "67890")
     = Some (<[1 := "12345"]> ∅)
  /\ parse_civitai_url "https://civitai.com/models/12345/model-name"
     = Some (UrlInfo (Some 12345%Z) None "model").
Proof. repeat split; vm_compute; reflexivity. Qed.

End UrlParsing.

(** ** Detection of segment groups *)

Section Segments.

Import HuggingFaceModelManager.

Lemma dict_get_set_eq {V} (k : string) (v : V) (d : list (string * V)) :
  OrderedDict.get k (OrderedDict.set k v d) = Some v.
Proof.
  induction d as [ | [k' w] d IH]; cbn.
  - now rewrite String.eqb_refl.
  - destruct (String.eqb k' k) eqn:E; cbn; rewrite E; [reflexivity | exact IH].
Qed.

Lemma dict_get_set_ne {V} (k k' : string) (v : V) (d : list (string * V)) :
  k <> k' ->
  OrderedDict.get k' (OrderedDict.set k v d) = OrderedDict.get k' d.
Proof.
  intros Hne. induction d as [ | [k0 w] d IH]; cbn.
  - destruct (String.eqb_spec k k'); [contradiction | reflexivity].
  - destruct (String.eqb_spec k0 k) as [-> | Hk]; cbn.
    + destruct (String.eqb_spec k k'); [contradiction | reflexivity].
    + destruct (String.eqb k0 k'); [reflexivity | exact IH].
Qed.

Lemma dict_in_set {V} (k k' : string) (v v' : V) (d : list (string * V)) :
  In (k', v') (OrderedDict.set k v d) ->
  (k' = k /\ v' = v) \/ In (k', v') d.
Proof.
  induction d as [ | [k0 w] d IH]; cbn.
  - intros [[= <- <-] | []]. now left.
  - destruct (String.eqb_spec k0 k) as [-> | Hk]; cbn.
    + intros [[= <- <-] | H]; [now left | right; now right].
    + intros [H | H]; [right; now left | ].
      destruct (IH H) as [? | ?]; [now left | right; now right].
Qed.

Lemma dict_get_in {V} (k : string) (v : V) (d : list (string * V)) :
  OrderedDict.get k d = Some v -> In (k, v) d.
Proof.
  induction d as [ | [k0 w] d IH]; cbn; [discriminate | ].
  destruct (String.eqb_spec k0 k) as [-> | Hk].
  - intros [= ->]. now left.
  - intros H. right. now apply IH.
Qed.

Lemma dict_keys_set {V} (k : string) (v : V) (d : list (string * V)) :
  NoDup (map fst d) -> NoDup (map fst (OrderedDict.set k v d)).
Proof.
  induction d as [ | [k0 w] d IH]; cbn; intros Hnd.
  - apply NoDup_singleton.
  - apply NoDup_cons in Hnd as [Hk0 Hd].
    destruct (String.eqb_spec k0 k) as [-> | Hk]; cbn.
    + apply NoDup_cons. now split.
    + apply NoDup_cons. split; [ | now apply IH].
      intros H. apply list_elem_of_In, in_map_iff in H as [[k1 v1] [E H]].
      cbn in E. subst k1.
      apply dict_in_set in H as [[-> _] | H]; [congruence | ].
      apply Hk0, list_elem_of_In, in_map_iff. now exists (k0, v1).
Qed.

Lemma dict_get_map {V W} (f : V -> W) (k : string) (d : list (string * V)) :
  OrderedDict.get k (map (fun kv => (fst kv, f (snd kv))) d)
  = f <$> OrderedDict.get k d.
Proof.
  induction d as [ | [k0 w] d IH]; cbn; [reflexivity | ].
  destruct (String.eqb k0 k); [reflexivity | exact IH].
Qed.

Lemma in_insert_by_segment (x y : segment_file) (l : list segment_file) :
  In y (insert_by_segment x l) <-> y = x \/ In y l.
Proof.
  induction l as [ | z l IH]; cbn; [intuition | ].
  destruct (segment x <=? segment z)%Z; cbn; [intuition | ].
  rewrite IH. intuition.
Qed.

Lemma in_sort_by_segment (y : segment_file) (l : list segment_file) :
  In y (sort_by_segment l) <-> In y l.
Proof.
  induction l as [ | x l IH]; cbn; [reflexivity | ].
  rewrite in_insert_by_segment, IH. intuition.
Qed.

(** Every member of every group is an input file whose base name, under the
    segment pattern, is the key of the group. *)
Local Abbreviation members_match all d :=
  (forall b info m,
     In (b, info) d -> In m (files info) ->
     In (file m) all
     /\ exists ext, segment_match (file m) = Some (b, segment m, total m, ext)).

(** [x] is a member of the group stored under [b]. *)
Local Abbreviation member_of x b d :=
  (exists info, OrderedDict.get b d = Some info /\ In x (files info)).

Lemma add_file_members_match (all : list string)
  (d : list (string * segments_info)) (f : string) :
  In f all -> members_match all d -> members_match all (add_file d f).
Proof.
  intros Hf Hd b info m Hin Hm. unfold add_file in Hin.
  destruct (segment_match f) as [[[[b0 n] t] ext] | ] eqn:E;
    [ | eapply Hd; eassumption].
  apply dict_in_set in Hin as [[-> ->] | Hin]; [ | eapply Hd; eassumption].
  cbn [files] in Hm. apply in_app_iff in Hm as [Hm | [<- | []]].
  - destruct (OrderedDict.get b0 d) as [e | ] eqn:G; [ | destruct Hm].
    eapply Hd; [eapply dict_get_in, G | exact Hm].
  - cbn. split; [exact Hf | now exists ext].
Qed.

Lemma fold_add_file_members_match (all names : list string)
  (d : list (string * segments_info)) :
  (forall f, In f names -> In f all) ->
  members_match all d -> members_match all (fold_left add_file names d).
Proof.
  revert d. induction names as [ | f names IH]; intros d Hall Hd; [exact Hd | ].
  cbn [fold_left]. apply IH.
  - intros g Hg. apply Hall. now right.
  - apply add_file_members_match; [apply Hall; now left | exact Hd].
Qed.

Lemma add_file_keeps_member (d : list (string * segments_info))
  (f b : string) (x : segment_file) :
  member_of x b d -> member_of x b (add_file d f).
Proof.
  intros (info & G & Hx). unfold add_file.
  destruct (segment_match f) as [[[[b0 n] t] ext] | ]; [ | now exists info].
  destruct (String.eqb_spec b0 b) as [-> | Hne].
  - rewrite G. eexists. split; [apply dict_get_set_eq | ].
    cbn [files]. apply in_app_iff. now left.
  - exists info. split; [ | exact Hx]. now rewrite dict_get_set_ne.
Qed.

Lemma add_file_adds_member (d : list (string * segments_info))
  (f b ext : string) (n t : Z) :
  segment_match f = Some (b, n, t, ext) ->
  member_of (SegmentFile f n t) b (add_file d f).
Proof.
  intros E. unfold add_file. rewrite E.
  eexists. split; [apply dict_get_set_eq | ].
  cbn [files]. apply in_app_iff. right. now left.
Qed.

Lemma fold_add_file_keeps_member (names : list string)
  (d : list (string * segments_info)) (b : string) (x : segment_file) :
  member_of x b d -> member_of x b (fold_left add_file names d).
Proof.
  revert d. induction names as [ | f names IH]; intros d H; [exact H | ].
  cbn [fold_left]. now apply IH, add_file_keeps_member.
Qed.

Lemma fold_add_file_adds_member (names : list string)
  (d : list (string * segments_info)) (f b ext : string) (n t : Z) :
  In f names ->
  segment_match f = Some (b, n, t, ext) ->
  member_of (SegmentFile f n t) b (fold_left add_file names d).
Proof.
  revert d. induction names as [ | g names IH]; intros d Hin E; [destruct Hin | ].
  cbn [fold_left]. destruct Hin as [-> | Hin].
  - eapply fold_add_file_keeps_member, add_file_adds_member, E.
  - now apply IH.
Qed.

Lemma fold_add_file_keys (names : list string)
  (d : list (string * segments_info)) :
  NoDup (map fst d) -> NoDup (map fst (fold_left add_file names d)).
Proof.
  revert d. induction names as [ | f names IH]; intros d H; [exact H | ].
  cbn [fold_left]. apply IH. unfold add_file.
  destruct (segment_match f) as [[[[b n] t] ext] | ]; [ | exact H].
  now apply dict_keys_set.
Qed.

(** The extension and the total a group records are those of the file
    that created it. *)
Local Abbreviation header_of b ext t d :=
  (exists info, OrderedDict.get b d = Some info
                /\ extension info = ext /\ total_segments info = t).

Lemma add_file_other_base (d : list (string * segments_info)) (g b : string) :
  (forall n t ext, segment_match g <> Some (b, n, t, ext)) ->
  OrderedDict.get b (add_file d g) = OrderedDict.get b d.
Proof.
  intros Hg. unfold add_file.
  destruct (segment_match g) as [[[[b0 n] t] ext] | ]; [ | reflexivity].
  apply dict_get_set_ne. intros ->. now apply (Hg n t ext).
Qed.

Lemma add_file_keeps_header (d : list (string * segments_info))
  (g b ext : string) (t : Z) :
  header_of b ext t d -> header_of b ext t (add_file d g).
Proof.
  intros (info & G & He & Ht). unfold add_file.
  destruct (segment_match g) as [[[[b0 n0] t0] ext0] | ];
    [ | now exists info].
  destruct (String.eqb_spec b0 b) as [-> | Hne].
  - rewrite G. eexists. split; [apply dict_get_set_eq | now split].
  - exists info. split; [now rewrite dict_get_set_ne | now split].
Qed.

Lemma add_file_creates_header (d : list (string * segments_info))
  (f b ext : string) (n t : Z) :
  OrderedDict.get b d = None ->
  segment_match f = Some (b, n, t, ext) ->
  header_of b ext t (add_file d f).
Proof.
  intros G E. unfold add_file. rewrite E, G.
  eexists. split; [apply dict_get_set_eq | now split].
Qed.

Lemma fold_add_file_keeps_header (names : list string)
  (d : list (string * segments_info)) (b ext : string) (t : Z) :
  header_of b ext t d -> header_of b ext t (fold_left add_file names d).
Proof.
  revert d. induction names as [ | g names IH]; intros d H; [exact H | ].
  cbn [fold_left]. now apply IH, add_file_keeps_header.
Qed.

Lemma fold_add_file_first_header (pre post : list string)
  (d : list (string * segments_info)) (f b ext : string) (n t : Z) :
  OrderedDict.get b d = None ->
  (forall g n' t' ext', In g pre -> segment_match g <> Some (b, n', t', ext')) ->
  segment_match f = Some (b, n, t, ext) ->
  header_of b ext t (fold_left add_file (pre ++ f :: post) d).
Proof.
  revert d. induction pre as [ | g pre IH]; intros d G Hpre E.
  - cbn [app fold_left].
    eapply fold_add_file_keeps_header, add_file_creates_header; eassumption.
  - cbn [app fold_left]. apply IH; [ | | exact E].
    + rewrite add_file_other_base; [exact G | ].
      intros n' t' ext'. apply Hpre. now left.
    + intros g' n' t' ext' Hg'. apply Hpre. now right.
Qed.

(** C6, as the claim states it, fails: two files that match the segment
    pattern with the same base name and different extensions are members of
    one group, which records the extension of the first of them. *)
Lemma mixed_extension_counterexample :
  segment_match "m-00001-of-00002.safetensors"
  = Some ("m", 1%Z, 2%Z, "safetensors")
  /\ segment_match "m-00002-of-00002.bin" = Some ("m", 2%Z, 2%Z, "bin")
  /\ detect_segmented_models
       ["m-00001-of-00002.safetensors"; "m-00002-of-00002.bin"]
     = [("m", SegmentsInfo 2 "safetensors"
                [SegmentFile "m-00001-of-00002.safetensors" 1 2;
                 SegmentFile "m-00002-of-00002.bin" 2 2])].
Proof. repeat split; vm_compute; reflexivity. Qed.

(** C6, amended. The groups of [detect_segmented_models] are formed by base
    name alone.  Every member of a group is an input file that matches the
    segment pattern with the key of the group as its base name; every input
    file that matches the pattern is a member of the group stored under its
    base name, whatever its extension; no base name has two groups; and the
    extension and the total a group records are those of the first input
    file with its base name. *)
Theorem detect_segmented_models_by_base_name (names : list string) :
  (forall b info m,
     In (b, info) (detect_segmented_models names) ->
     In m (files info) ->
     In (file m) names
     /\ exists ext, segment_match (file m) = Some (b, segment m, total m, ext))
  /\ (forall f b n t ext,
        In f names ->
        segment_match f = Some (b, n, t, ext) ->
        exists info,
          OrderedDict.get b (detect_segmented_models names) = Some info
          /\ In (SegmentFile f n t) (files info))
  /\ NoDup (map fst (detect_segmented_models names))
  /\ (forall pre f post b n t ext,
        names = pre ++ f :: post ->
        (forall g n' t' ext',
           In g pre -> segment_match g <> Some (b, n', t', ext')) ->
        segment_match f = Some (b, n, t, ext) ->
        exists info,
          OrderedDict.get b (detect_segmented_models names) = Some info
          /\ extension info = ext /\ total_segments info = t).
Proof.
  unfold detect_segmented_models. split; [ | split; [ | split]].
  - intros b info m Hin Hm.
    apply in_map_iff in Hin as [[b0 info0] [[= <- <-] Hin]].
    cbn [files snd] in Hm. rewrite in_sort_by_segment in Hm.
    assert (members_match names (fold_left add_file names [])) as H.
    { apply fold_add_file_members_match; [auto | intros ? ? ? []]. }
    exact (H _ _ _ Hin Hm).
  - intros f b n t ext Hin E.
    destruct (fold_add_file_adds_member names [] f b ext n t Hin E)
      as (info & G & Hx).
    eexists. split.
    + rewrite (dict_get_map
                 (fun i => SegmentsInfo (total_segments i) (extension i)
                             (sort_by_segment (files i)))), G.
      reflexivity.
    + cbn [files]. now apply in_sort_by_segment.
  - rewrite map_map. cbn [fst].
    apply (fold_add_file_keys names []). constructor.
  - intros pre f post b n t ext -> Hpre E.
    destruct (fold_add_file_first_header pre post [] f b ext n t
                eq_refl Hpre E) as (info & G & He & Ht).
    eexists. split.
    + rewrite (dict_get_map
                 (fun i => SegmentsInfo (total_segments i) (extension i)
                             (sort_by_segment (files i)))), G.
      reflexivity.
    + now split.
Qed.

Lemma detect_segmented_models_by_base_name_witness :
  exists info,
    OrderedDict.get "m"
      (detect_segmented_models
         ["m-00001-of-00002.safetensors"; "m-00002-of-00002.bin"])
    = Some info
    /\ In (SegmentFile "m-00002-of-00002.bin" 2 2) (files info).
Proof.
  apply (proj1 (proj2 (detect_segmented_models_by_base_name
                         ["m-00001-of-00002.safetensors"; "m-00002-of-00002.bin"]))
           "m-00002-of-00002.bin" "m" 2%Z 2%Z "bin").
  - right. now left.
  - vm_compute. reflexivity.
Defined.

End Segments.

(** ** Downloading a segment group *)

Section SegmentedDownload.

Import HuggingFaceModelManager.

Variable e : env.
Variables repo_id dir branch : string.

Local Abbreviation succeeds m :=
  (is_Some (hub_download e repo_id (file m) branch)).

Local Abbreviation run members w acc :=
  (download_segments e repo_id dir branch members w acc).

Lemma download_file_attempts (w : world) (filename destination : string) :
  attempts (fst (download_file e w repo_id filename destination branch))
  = attempts w ++ [filename].
Proof. unfold download_file. now destruct (hub_download _ _ _ _). Qed.


Lemma download_file_result (w : world) (filename destination : string) :
  snd (download_file e w repo_id filename destination branch)
  = bool_decide (is_Some (hub_download e repo_id filename branch)).
Proof.
  unfold download_file. destruct (hub_download _ _ _ _); reflexivity.
Qed.






End SegmentedDownload.

Section SegmentGroupFailure.

Import HuggingFaceModelManager.



End SegmentGroupFailure.

(** ** Downloading the files of a request one by one *)

Section DirectDownload.

Import HuggingFaceModelManager.








(** The first file fails, the other model file is still requested and
    stored, and the request as a whole reports failure. *)
Example direct_download_run :
  let r := download_model Sample.plain_hub Sample.fresh "org/repo" "main" None
  in
  attempts (fst r) = ["unet/weights.safetensors"; "vae/weights.safetensors"]
  /\ fs (fst r) !! "/models/vae/repo/weights.safetensors"
     = Some "bytes of vae/weights.safetensors"
  /\ snd r = false.
Proof. repeat split; vm_compute; reflexivity. Qed.

End DirectDownload.

(** ** The provenance sidecar *)

Section Provenance.

Import CivitaiModelManager.

(** The two library calls and the clock of the file system. *)
Variable json_dump : json -> string.
Variable json_load : string -> result json.
Variable clock : string -> string.


End Provenance.


(** A record that could not be built leaves no sidecar: here the artifact
    itself is missing, so [stat] raises and nothing is written. *)
Example metadata_not_written :
  CivitaiModelManager._save_metadata JsonText.dumps Sample.mtime
    ∅ "/models/loras/ink.safetensors"
    Sample.model_info Sample.version_info Sample.file_info = ∅
  /\ CivitaiModelManager.get_model_metadata JsonText.loads ∅
       "/models/loras/ink.safetensors" = None.
Proof. split; vm_compute; reflexivity. Qed.

(** * Further properties *)

(** ** Segment groups: order and content *)

Section SegmentOrder.

Import HuggingFaceModelManager.

Lemma dict_in_get {V} (k : string) (v : V) (d : list (string * V)) :
  NoDup (map fst d) -> In (k, v) d -> OrderedDict.get k d = Some v.
Proof.
  induction d as [ | [k0 w] d IH]; cbn; intros Hnd Hin; [destruct Hin | ].
  apply NoDup_cons in Hnd as [Hk0 Hd].
  destruct Hin as [[= -> ->] | Hin]; [now rewrite String.eqb_refl | ].
  destruct (String.eqb_spec k0 k) as [-> | Hne]; [ | now apply IH].
  exfalso. apply Hk0, list_elem_of_In, in_map_iff. now exists (k, v).
Qed.

(** The members a dictionary holds for a base name, none without a group. *)
Local Abbreviation files_of b d :=
  (match OrderedDict.get b d with Some info => files info | None => [] end).

Lemma members_in_order_cons (b f : string) (names : list string) :
  Spec.members_in_order b (f :: names)
  = match segment_match f with
    | Some (b', n, t, _) =>
        if String.eqb b' b then [SegmentFile f n t] else []
    | None => []
    end ++ Spec.members_in_order b names.
Proof.
  unfold Spec.members_in_order. cbn [omap list_omap].
  destruct (segment_match f) as [[[[b0 n] t] ext] | ];
    [destruct (String.eqb b0 b) | ]; reflexivity.
Qed.

Lemma add_file_appends (d : list (string * segments_info)) (f b : string) :
  files_of b (add_file d f)
  = files_of b d
    ++ match segment_match f with
       | Some (b', n, t, _) =>
           if String.eqb b' b then [SegmentFile f n t] else []
       | None => []
       end.
Proof.
  unfold add_file.
  destruct (segment_match f) as [[[[b0 n] t] ext] | ];
    [ | now rewrite app_nil_r].
  destruct (String.eqb_spec b0 b) as [-> | Hne].
  - rewrite dict_get_set_eq. cbn [files]. now destruct (OrderedDict.get b d).
  - rewrite dict_get_set_ne by exact Hne. now rewrite app_nil_r.
Qed.

Lemma fold_add_file_appends (names : list string)
  (d : list (string * segments_info)) (b : string) :
  files_of b (fold_left add_file names d)
  = files_of b d ++ Spec.members_in_order b names.
Proof.
  revert d. induction names as [ | f names IH]; intros d; cbn [fold_left].
  - unfold Spec.members_in_order. cbn. now rewrite app_nil_r.
  - now rewrite IH, add_file_appends, members_in_order_cons, <- app_assoc.
Qed.

Lemma insert_by_segment_perm (x : segment_file) (l : list segment_file) :
  Permutation (insert_by_segment x l) (x :: l).
Proof.
  induction l as [ | y l IH]; cbn; [reflexivity | ].
  destruct (segment x <=? segment y)%Z; [reflexivity | ].
  rewrite IH. apply perm_swap.
Qed.

Lemma sort_by_segment_perm (l : list segment_file) :
  Permutation (sort_by_segment l) l.
Proof.
  induction l as [ | x l IH]; cbn; [reflexivity | ].
  rewrite insert_by_segment_perm. now constructor.
Qed.

Lemma insert_by_segment_sorted (x : segment_file) (l : list segment_file) :
  Sorted Spec.by_segment l -> Sorted Spec.by_segment (insert_by_segment x l).
Proof.
  induction l as [ | y l IH]; cbn; intros Hs.
  - repeat constructor.
  - destruct (Z.leb_spec (segment x) (segment y)) as [Hle | Hgt].
    + constructor; [exact Hs | now constructor].
    + inversion Hs as [ | ? ? Hl Hhd]; subst.
      constructor; [now apply IH | ].
      destruct l as [ | z l]; cbn.
      * constructor. unfold Spec.by_segment. lia.
      * destruct (Z.leb_spec (segment x) (segment z)).
        -- constructor. unfold Spec.by_segment. lia.
        -- constructor. now inversion Hhd.
Qed.

Lemma sort_by_segment_sorted (l : list segment_file) :
  Sorted Spec.by_segment (sort_by_segment l).
Proof.
  induction l as [ | x l IH]; cbn; [constructor | ].
  now apply insert_by_segment_sorted.
Qed.

(** X1. The members of every group [detect_segmented_models] returns are in
    ascending order of segment number, and they are, up to that order,
    exactly the input names that match the segment pattern with the base
    name of the group, a name listed twice being a member twice. *)
Theorem detect_segmented_models_sorted_members
  (names : list string) (b : string) (info : segments_info) :
  In (b, info) (detect_segmented_models names) ->
  Sorted Spec.by_segment (files info)
  /\ Permutation (files info) (Spec.members_in_order b names).
Proof.
  unfold detect_segmented_models. intros Hin.
  apply in_map_iff in Hin as [[b0 info0] [[= <- <-] Hin]]. cbn [files snd fst].
  split; [apply sort_by_segment_sorted | ].
  rewrite sort_by_segment_perm.
  apply dict_in_get in Hin.
  - pose proof (fold_add_file_appends names [] b0) as H.
    rewrite Hin in H. cbn in H. now rewrite H.
  - apply (fold_add_file_keys names []). constructor.
Qed.

Lemma detect_segmented_models_sorted_members_witness :
  Sorted Spec.by_segment
    [SegmentFile "m-00001-of-00002.safetensors" 1 2;
     SegmentFile "m-00002-of-00002.bin" 2 2]
  /\ Permutation
       [SegmentFile "m-00001-of-00002.safetensors" 1 2;
        SegmentFile "m-00002-of-00002.bin" 2 2]
       (Spec.members_in_order "m"
          ["m-00002-of-00002.bin"; "n-00001-of-00001.pt";
           "m-00001-of-00002.safetensors"]).
Proof.
  apply (detect_segmented_models_sorted_members
           ["m-00002-of-00002.bin"; "n-00001-of-00001.pt";
            "m-00001-of-00002.safetensors"]
           "m"
           (SegmentsInfo 2 "bin"
              [SegmentFile "m-00001-of-00002.safetensors" 1 2;
               SegmentFile "m-00002-of-00002.bin" 2 2])).
  vm_compute. left. reflexivity.
Defined.

(** X2. [detect_segmented_models] returns no group exactly when no input
    name matches the segment pattern; in particular the empty list of names
    gives no group. *)
Theorem detect_segmented_models_empty (names : list string) :
  detect_segmented_models names = []
  <-> forall f, In f names -> segment_match f = None.
Proof.
  unfold detect_segmented_models. split.
  - intros H f Hf. destruct (segment_match f) as [[[[b n] t] ext] | ] eqn:E;
      [ | reflexivity].
    destruct (fold_add_file_adds_member names [] f b ext n t Hf E)
      as (info & G & _).
    apply map_eq_nil in H. rewrite H in G. discriminate.
  - intros H.
    assert (fold_left add_file names [] = []) as ->; [ | reflexivity].
    induction names as [ | f names IH]; [reflexivity | ].
    cbn [fold_left]. unfold add_file at 2.
    rewrite (H f) by now left. apply IH. intros g Hg. apply H. now right.
Qed.

End SegmentOrder.

(** ** Downloads from the hub: what is requested and written *)

Section HubEffects.

Import HuggingFaceModelManager.

Variable e : env.
Variables repo_id branch : string.

Local Abbreviation ok :=
  (fun m : segment_file => Spec.delivered e repo_id branch (file m)).

(** Writing a list of files, in order. *)
Local Abbreviation write_all writes m :=
  (foldl (fun (m' : Os.files) (kv : string * string) => <[kv.1 := kv.2]> m')
     m writes).

(** The loop over the members of a group requests the members up to the
    first one the hub cannot deliver, and completes exactly when it can
    deliver them all. *)
Lemma download_segments_run (dir : string) (members : list segment_file)
  (w : world) (acc : list string) :
  let r := download_segments e repo_id dir branch members w acc in
  attempts (fst r) = attempts w ++ map file (Spec.up_to_failure ok members)
  /\ (is_Some (snd r) <-> forallb ok members = true)
  /\ (forall l, snd r = Some l -> length l = length acc + length members)%nat.
Proof.
  revert w acc. induction members as [ | m rest IH]; intros w acc; cbn zeta.
  - cbn. rewrite app_nil_r. repeat split; eauto. intros l [= <-]. lia.
  - cbn [download_segments Spec.up_to_failure forallb map].
    unfold Spec.delivered at 1 3.
    pose proof (download_file_result e repo_id branch w (file m)
                  (Os.path_join dir (file m))) as R.
    pose proof (download_file_attempts e repo_id branch w (file m)
                  (Os.path_join dir (file m))) as A.
    destruct (download_file e w repo_id (file m) _ branch) as [w' b].
    cbn [fst snd] in R, A. rewrite <- R. destruct b.
    + destruct (IH w' (acc ++ [Os.path_join dir (file m)])) as (IHa & IHr & IHl).
      cbn zeta in *. rewrite IHa, A, <- app_assoc. cbn [andb].
      repeat split; try apply IHr.
      intros l Hl. rewrite (IHl l Hl), length_app. cbn. lia.
    + cbn [fst snd andb map]. rewrite A. repeat split.
      * now intros [? ?].
      * discriminate.
      * discriminate.
Qed.

Lemma up_to_failure_all {A} (f : A -> bool) (l : list A) :
  forallb f l = true -> Spec.up_to_failure f l = l.
Proof.
  induction l as [ | x l IH]; cbn; [reflexivity | ].
  intros H. apply andb_true_iff in H as [-> H]. now rewrite IH.
Qed.

Lemma up_to_failure_incl {A} (f : A -> bool) (l : list A) (x : A) :
  In x (Spec.up_to_failure f l) -> In x l.
Proof.
  induction l as [ | y l IH]; cbn; [trivial | ].
  intros [-> | H]; [now left | right].
  destruct (f y); [now apply IH | destruct H].
Qed.

Lemma all_delivered (members : list segment_file) :
  forallb ok members = true
  <-> forall m, In m members ->
                is_Some (hub_download e repo_id (file m) branch).
Proof.
  rewrite forallb_forall. unfold Spec.delivered.
  split; intros H m Hm; specialize (H m Hm).
  - now apply bool_decide_eq_true in H.
  - now apply bool_decide_eq_true.
Qed.


End HubEffects.


(** ** A repository with segment groups *)

Section GroupsOfARepository.

Import HuggingFaceModelManager.

Variable e : env.
Variables repo_id branch : string.

Local Abbreviation ok :=
  (fun m : segment_file => Spec.delivered e repo_id branch (file m)).

Local Abbreviation requested_of groups :=
  (concat (map (fun g : string * segments_info =>
                  map file (Spec.up_to_failure ok (files (snd g)))) groups)).




End GroupsOfARepository.


(** ** What a request asks the hub for *)

Section RequestedFiles.

Import HuggingFaceModelManager.

Variable e : env.
Variables repo_id branch : string.

Local Abbreviation succeeds f := (is_Some (hub_download e repo_id f branch)).

(** The requests of a run: [l] was requested, all of it was wanted, and a
    run that reports success requested all that was wanted and got it. *)
Local Abbreviation requests_of w r success wanted :=
  (exists l : list string,
     attempts (fst r) = attempts w ++ l
     /\ (forall f, In f l -> In f wanted)
     /\ (snd r = true ->
         success = true /\ l = wanted%list /\ forall f, In f l -> succeeds f)).

Lemma download_segmented_model_requests (w : world) (base_name : string)
  (info : segments_info) (destination_dir : string) :
  let r :=
    download_segmented_model e w repo_id base_name info destination_dir branch
  in
  requests_of w r true (map file (files info)).
Proof.
  cbn zeta. unfold download_segmented_model.
  destruct (get_file_destination_directory _ _ _ _) as [dir | ?].
  - pose proof (download_segments_run e repo_id branch dir (files info) w [])
      as (A & R & _).
    cbn zeta in *.
    destruct (download_segments e repo_id dir branch (files info) w [])
      as [w' res]; cbn [fst snd] in *.
    exists (map file
              (Spec.up_to_failure
                 (fun m => Spec.delivered e repo_id branch (file m))
                 (files info))).
    split; [now destruct res | ]. split.
    + intros f Hf. apply in_map_iff in Hf as (m & <- & Hm).
      apply in_map, (up_to_failure_incl _ _ _ Hm).
    + intros Htrue. destruct res as [l | ]; [ | discriminate].
      assert (forallb (fun m => Spec.delivered e repo_id branch (file m))
                (files info) = true) as Hall by (apply R; eauto).
      rewrite (up_to_failure_all _ _ Hall). repeat split.
      intros f Hf. apply in_map_iff in Hf as (m & <- & Hm).
      now apply (all_delivered e repo_id branch (files info)).
  - exists []. cbn. rewrite app_nil_r. repeat split; try easy.
Qed.

Lemma download_groups_requests (model_dir : string)
  (groups : list (string * segments_info)) (w : world) (success : bool) :
  let r := download_groups e repo_id model_dir branch groups w success in
  requests_of w r success
    (concat (map (fun g => map file (files (snd g))) groups)).
Proof.
  revert w success.
  induction groups as [ | [b info] groups IH]; intros w success; cbn zeta.
  - exists []. cbn. rewrite app_nil_r. repeat split; try easy.
  - cbn [download_groups map concat snd].
    destruct (download_segmented_model_requests w b info model_dir)
      as (l1 & A1 & I1 & T1).
    destruct (download_segmented_model e w repo_id b info model_dir branch)
      as [w' ok']. cbn [fst snd] in *.
    destruct (IH w' (if ok' then success else false)) as (l2 & A2 & I2 & T2).
    exists (l1 ++ l2). split; [now rewrite A2, A1, <- app_assoc | ]. split.
    + intros f Hf. apply in_app_iff. apply in_app_iff in Hf as [Hf | Hf]; eauto.
    + intros Htrue. destruct (T2 Htrue) as (S2 & -> & D2).
      destruct ok'; [ | discriminate].
      destruct (T1 eq_refl) as (_ & -> & D1).
      repeat split; [exact S2 | ].
      intros f Hf. apply in_app_iff in Hf as [Hf | Hf]; eauto.
Qed.

Lemma download_files_requests (info : repo_info) (model_dir : string)
  (model_files : list string) (w : world) (success main : bool) :
  let r := download_files e repo_id info model_dir branch model_files w
             success main in
  requests_of w r success model_files.
Proof.
  revert w success main.
  induction model_files as [ | f rest IH]; intros w success main; cbn zeta.
  - exists []. cbn. rewrite app_nil_r. repeat split; try easy.
  - cbn [download_files].
    destruct (get_file_destination_directory _ _ _ _) as [d | ?].
    2: { exists []. cbn. rewrite app_nil_r. repeat split; easy. }
    pose proof (download_file_result e repo_id branch w f
                  (Os.path_join d (Os.basename f))) as R.
    pose proof (download_file_attempts e repo_id branch w f
                  (Os.path_join d (Os.basename f))) as A.
    destruct (download_file e w repo_id f _ branch) as [w' ok].
    cbn [fst snd] in R, A.
    assert (forall w1 s m,
              attempts w1 = attempts w' ->
              (s = true -> success = true /\ ok = true) ->
              requests_of w
                (download_files e repo_id info model_dir branch rest w1 s m)
                success (f :: rest)) as Step.
    { intros w1 s m Hw1 Hs. destruct (IH w1 s m) as (l2 & A2 & I2 & T2).
      exists (f :: l2). split; [ | split].
      - rewrite A2, Hw1, A, <- app_assoc. reflexivity.
      - intros g [<- | Hg]; [now left | right; eauto].
      - intros Htrue. destruct (T2 Htrue) as (S2 & -> & D2).
        destruct (Hs S2) as [-> ->]. repeat split.
        intros g [<- | Hg]; [ | eauto].
        symmetry in R. now apply bool_decide_eq_true in R. }
    destruct ok.
    + destruct (negb main && is_main_model_file f); apply Step; easy.
    + apply Step; easy.
Qed.

Lemma segment_file_gives_group (names : list string) (g : string) :
  In g names -> is_Some (segment_match g) ->
  detect_segmented_models names <> [].
Proof.
  intros Hg [[[[b n] t] ext] E] H. unfold detect_segmented_models in H.
  destruct (fold_add_file_adds_member names [] g b ext n t Hg E)
    as (info & G & _).
  apply map_eq_nil in H. rewrite H in G. discriminate.
Qed.

Lemma group_members_listed (names : list string) (f : string) :
  In f (concat (map (fun g => map file (files (snd g)))
                  (detect_segmented_models names))) ->
  In f names /\ is_Some (segment_match f).
Proof.
  intros Hf. apply in_concat in Hf as (l & Hl & Hf).
  apply in_map_iff in Hl as ([b info] & <- & Hin).
  apply in_map_iff in Hf as (m & <- & Hm).
  unfold detect_segmented_models in Hin.
  apply in_map_iff in Hin as ([b0 info0] & [= <- <-] & Hin).
  cbn [snd files] in Hm. rewrite in_sort_by_segment in Hm.
  assert (forall b info m,
            In (b, info) (@nil (string * segments_info)) ->
            In m (files info) ->
            In (file m) names
            /\ exists ext,
                 segment_match (file m) = Some (b, segment m, total m, ext))
    as Hnil by (intros ? ? ? []).
  destruct (fold_add_file_members_match names names [] (fun _ H => H) Hnil
              b0 info0 m Hin Hm) as (Hlisted & ext & E).
  split; [exact Hlisted | ]. rewrite E. eauto.
Qed.

(** X5. In a repository one of whose listed files is a segment,
    [download_model] asks the hub for segments only: every name it requests
    is a listed name that matches the segment pattern.  The other files of
    such a repository are not downloaded. *)
Theorem segmented_repository_requests_segments_only
  (w : world) (custom_dir : option string) (g : string) :
  In g (hub_list_files e repo_id branch) ->
  is_Some (segment_match g) ->
  let r := download_model e w repo_id branch custom_dir in
  exists l,
    attempts (fst r) = attempts w ++ l
    /\ forall f, In f l ->
         In f (hub_list_files e repo_id branch) /\ is_Some (segment_match f).
Proof.
  intros Hg Hseg. cbn zeta.
  pose proof (segment_file_gives_group _ g Hg Hseg) as Hgroups.
  assert (exists l, attempts w = attempts w ++ l
            /\ forall f, In f l ->
                 In f (hub_list_files e repo_id branch)
                 /\ is_Some (segment_match f)) as Nothing.
  { exists []. rewrite app_nil_r. split; [reflexivity | intros f []]. }
  unfold download_model.
  destruct (hub_repo_info e repo_id) as [info | ]; [ | exact Nothing].
  destruct (match custom_dir with
            | Some (String c d) => Ok (String c d)
            | _ => get_model_directory (cfg e)
                     (detect_model_type repo_id (Some info))
            end) as [model_dir | ?]; [ | exact Nothing].
  destruct (hub_list_files e repo_id branch) as [ | f0 files0] eqn:L;
    [exact Nothing | ].
  destruct (detect_segmented_models (f0 :: files0)) as [ | g0 groups] eqn:G;
    [now destruct Hgroups | ].
  destruct (download_groups_requests model_dir (g0 :: groups) w true)
    as (l & A & I & _).
  exists l. split; [exact A | ].
  intros f Hf. apply group_members_listed. rewrite G. now apply I.
Qed.

Lemma no_segment_no_group (names : list string) :
  (forall f, In f names -> segment_match f = None) ->
  detect_segmented_models names = [].
Proof.
  intros H. unfold detect_segmented_models.
  assert (fold_left add_file names [] = []) as ->; [ | reflexivity].
  induction names as [ | f names IH]; [reflexivity | ].
  cbn [fold_left]. unfold add_file at 2.
  rewrite (H f) by now left. apply IH. intros g Hg. apply H. now right.
Qed.

Lemma listed_segment_in_group (names : list string) (f : string) :
  In f names -> is_Some (segment_match f) ->
  In f (concat (map (fun g => map file (files (snd g)))
                  (detect_segmented_models names))).
Proof.
  intros Hf [[[[b n] t] ext] E].
  destruct (fold_add_file_adds_member names [] f b ext n t Hf E)
    as (info & G & Hx).
  apply dict_get_in in G. apply in_concat.
  exists (map file (sort_by_segment (files info))). split.
  - apply in_map_iff.
    exists (b, SegmentsInfo (total_segments info) (extension info)
                 (sort_by_segment (files info))).
    split; [reflexivity | ].
    unfold detect_segmented_models. apply in_map_iff. now exists (b, info).
  - apply in_map_iff. exists (SegmentFile f n t).
    split; [reflexivity | now apply in_sort_by_segment].
Qed.

(** X6. [download_model] returns [True] only after a download: it has then
    requested at least one file, every file it requested is a listed file
    that the hub delivered, every listed segment is among them and, in a
    repository without segments, they are the listed files with a supported
    extension, in order. *)
Theorem download_model_true_means_delivered
  (w : world) (custom_dir : option string) :
  let listing := hub_list_files e repo_id branch in
  let r := download_model e w repo_id branch custom_dir in
  snd r = true ->
  exists l,
    l <> []
    /\ attempts (fst r) = attempts w ++ l
    /\ (forall f, In f l -> In f listing /\ succeeds f)
    /\ (forall f, In f listing -> is_Some (segment_match f) -> In f l)
    /\ ((forall f, In f listing -> segment_match f = None) ->
        l = model_files_of listing).
Proof.
  cbn zeta. unfold download_model.
  destruct (hub_repo_info e repo_id) as [info | ]; [ | discriminate].
  destruct (match custom_dir with
            | Some (String c d) => Ok (String c d)
            | _ => get_model_directory (cfg e)
                     (detect_model_type repo_id (Some info))
            end) as [model_dir | ?]; [ | discriminate].
  destruct (hub_list_files e repo_id branch) as [ | f0 files0] eqn:L;
    [discriminate | ].
  destruct (detect_segmented_models (f0 :: files0)) as [ | g0 groups] eqn:G.
  - destruct (model_files_of (f0 :: files0)) as [ | m0 model_files] eqn:M;
      [discriminate | ].
    intros Htrue.
    destruct (download_files_requests info model_dir (m0 :: model_files) w
                true false) as (l & A & I & T).
    destruct (T Htrue) as (_ & -> & D).
    exists (m0 :: model_files). split; [discriminate | ].
    split; [exact A | ]. repeat split.
    + rewrite <- M in H. unfold model_files_of in H.
      now apply filter_In in H as [H _].
    + now apply D.
    + intros f Hf Hseg. exfalso.
      now apply (segment_file_gives_group (f0 :: files0) f Hf Hseg).
  - intros Htrue.
    destruct (download_groups_requests model_dir (g0 :: groups) w true)
      as (l & A & I & T).
    destruct (T Htrue) as (_ & El & D).
    assert (forall f, In f (f0 :: files0) -> is_Some (segment_match f) ->
                      In f l) as Hall.
    { intros f Hf Hseg. rewrite El, <- G.
      now apply listed_segment_in_group. }
    exists l. split; [ | split; [exact A | repeat split]].
    + intros Hnil.
      assert (forall f, In f (f0 :: files0) -> segment_match f = None) as Hnone.
      { intros f Hf. destruct (segment_match f) as [x | ] eqn:E; [ | easy].
        exfalso. rewrite Hnil in Hall. apply (Hall f Hf). rewrite E. eauto. }
      apply no_segment_no_group in Hnone. rewrite G in Hnone. discriminate.
    + apply group_members_listed. rewrite G, <- El. exact H.
    + now apply D.
    + exact Hall.
    + intros Hnone. exfalso.
      apply no_segment_no_group in Hnone. rewrite G in Hnone. discriminate.
Qed.

End RequestedFiles.

Lemma segmented_repository_requests_segments_only_witness :
  let r :=
    HuggingFaceModelManager.download_model Sample.two_group_hub Sample.fresh
      "org/repo" "main" None in
  exists l,
    HuggingFaceModelManager.attempts (fst r)
    = HuggingFaceModelManager.attempts Sample.fresh ++ l
    /\ forall f, In f l ->
         In f Sample.two_group_names
         /\ is_Some (HuggingFaceModelManager.segment_match f).
Proof.
  apply (segmented_repository_requests_segments_only Sample.two_group_hub
           "org/repo" "main" Sample.fresh None
           "unet-00002-of-00002.safetensors").
  - cbn. tauto.
  - vm_compute. eauto.
Defined.

Lemma download_model_true_means_delivered_witness :
  exists l,
    l <> []
    /\ HuggingFaceModelManager.attempts
         (fst (HuggingFaceModelManager.download_model Sample.full_hub
                 Sample.fresh "org/repo" "main" None))
       = HuggingFaceModelManager.attempts Sample.fresh ++ l
    /\ (forall f, In f l ->
          In f Sample.full_names
          /\ is_Some (HuggingFaceModelManager.hub_download Sample.full_hub
                        "org/repo" f "main"))
    /\ (forall f, In f Sample.full_names ->
          is_Some (HuggingFaceModelManager.segment_match f) -> In f l)
    /\ ((forall f, In f Sample.full_names ->
           HuggingFaceModelManager.segment_match f = None) ->
        l = HuggingFaceModelManager.model_files_of Sample.full_names).
Proof.
  apply (download_model_true_means_delivered Sample.full_hub "org/repo" "main"
           Sample.fresh None).
  vm_compute. reflexivity.
Defined.

(** ** Where the files of a repository without segments end up *)

Section StoredFiles.

Import HuggingFaceModelManager.

Variable e : env.
Variables repo_id branch model_dir : string.
Variable info : repo_info.

Local Abbreviation succeeds f := (is_Some (hub_download e repo_id f branch)).

Local Abbreviation destination f :=
  (Spec.destination (cfg e) model_dir repo_id f).

Local Abbreviation sidecar p := (p +:+ ".huggingface.json").

Local Abbreviation run model_files w success main :=
  (download_files e repo_id info model_dir branch model_files w success main).








End StoredFiles.

Section StoredByDownloadModel.

Import HuggingFaceModelManager.

Variable e : env.
Variables repo_id branch : string.

Local Abbreviation listing := (hub_list_files e repo_id branch).
Local Abbreviation succeeds f := (is_Some (hub_download e repo_id f branch)).





End StoredByDownloadModel.




(** ** The category of a repository and the directory of a file *)

Section HubClassification.

Import HuggingFaceModelManager.

Lemma first_pattern_category (text t : string) :
  first_pattern text = Some t -> In t Spec.hub_categories.
Proof.
  unfold first_pattern, MODEL_TYPE_PATTERNS. cbn [List.find fst snd].
  repeat match goal with
         | |- context [if ?c then _ else _] => destruct c
         end;
    intros [= <-]; cbn; tauto.
Qed.

Lemma first_tag_pattern_category (tags : list string) (t : string) :
  first_tag_pattern tags = Some t -> In t Spec.hub_categories.
Proof.
  induction tags as [ | tag rest IH]; cbn [first_tag_pattern]; [discriminate | ].
  destruct (first_pattern (PyStr.lower tag)) as [t' | ] eqn:E; [ | exact IH].
  intros [= <-]. now apply first_pattern_category in E.
Qed.

(** X10. [detect_model_type] files every repository under one of seven
    categories, whatever its name, tags and card say. *)
Theorem detect_model_type_category
  (repo_id : string) (info : option repo_info) :
  In (detect_model_type repo_id info) Spec.hub_categories.
Proof.
  unfold detect_model_type.
  destruct (first_pattern _) as [t | ] eqn:E1;
    [now apply first_pattern_category in E1 | ].
  destruct info as [info | ]; [ | now left].
  destruct (first_tag_pattern _) as [t | ] eqn:E2;
    [now apply first_tag_pattern_category in E2 | ].
  destruct (cardData info) as [c | ]; [ | cbn; now left].
  cbn [mbind option_bind].
  destruct (first_pattern (PyStr.lower c)) as [t | ] eqn:E3;
    [now apply first_pattern_category in E3 | now left].
Qed.

(** X11. A repository whose name (the text after the last slash, in lower
    case) contains one of the words stable-diffusion, sd-, diffusion,
    checkpoint or model is a checkpoint, also when the name, the tags or the
    card say lora, vae, controlnet and the like: these words of the name are
    tried first, and the name is tried before tags and card. *)
Theorem detect_model_type_checkpoint_words_first
  (repo_id : string) (info : option repo_info) :
  PyStr.any_in Spec.checkpoint_words
    (PyStr.lower (PyStr.last_segment repo_id)) = true ->
  detect_model_type repo_id info = "checkpoints".
Proof.
  unfold detect_model_type, first_pattern, MODEL_TYPE_PATTERNS,
    Spec.checkpoint_words, PyStr.any_in.
  cbn [List.find fst snd existsb].
  generalize (PyStr.lower (PyStr.last_segment repo_id)). intros name H.
  repeat match goal with
         | |- context [if PyStr.contains ?k name then _ else _] =>
             destruct (PyStr.contains k name); [reflexivity | ]
         end.
  discriminate.
Qed.

Lemma detect_model_type_checkpoint_words_first_witness :
  detect_model_type "someone/sdxl-vae-model"
    (Some (RepoInfo ["lora"] (Some "a controlnet") "2024-01-01" 0 0))
  = "checkpoints".
Proof.
  apply detect_model_type_checkpoint_words_first.
  vm_compute. reflexivity.
Defined.

Lemma startswith_shorter (p q s : string) :
  PyStr.startswith (p +:+ q) s = true -> PyStr.startswith p s = true.
Proof.
  revert s. induction p as [ | a p IH]; intros s; [reflexivity | ].
  change (String a p +:+ q) with (String a (p +:+ q)).
  destruct s as [ | b s]; cbn [PyStr.startswith]; [trivial | ].
  intros H. apply andb_true_iff in H as [-> H]. now apply IH.
Qed.

Lemma contains_shorter (p q s : string) :
  PyStr.contains (p +:+ q) s = true -> PyStr.contains p s = true.
Proof.
  induction s as [ | b s IH]; cbn [PyStr.contains]; intros H;
    apply orb_true_iff in H as [H | H]; apply orb_true_iff.
  - left. now apply startswith_shorter in H.
  - discriminate.
  - left. now apply startswith_shorter in H.
  - right. now apply IH.
Qed.

Lemma contains_later (a : ascii) (p s : string) :
  PyStr.contains (String a p) s = true -> PyStr.contains p s = true.
Proof.
  induction s as [ | b s IH]; cbn [PyStr.contains PyStr.startswith]; intros H.
  - discriminate.
  - apply orb_true_iff. right.
    apply orb_true_iff in H as [H | H]; [ | now apply IH].
    apply andb_true_iff in H as [_ H].
    destruct s; cbn [PyStr.contains]; now rewrite H.
Qed.

Lemma contains_false_longer (p q s : string) :
  PyStr.contains p s = false -> PyStr.contains (p +:+ q) s = false.
Proof.
  intros H. destruct (PyStr.contains (p +:+ q) s) eqn:E; [ | reflexivity].
  apply contains_shorter in E. congruence.
Qed.

Lemma contains_false_earlier (a : ascii) (p s : string) :
  PyStr.contains p s = false -> PyStr.contains (String a p) s = false.
Proof.
  intros H. destruct (PyStr.contains (String a p) s) eqn:E; [ | reflexivity].
  apply contains_later in E. congruence.
Qed.

(** X12. [get_file_destination_directory] uses the base directory it is
    given, which is the caller's [custom_dir] when there is one, for the
    files whose lower-case name contains none of the words vae,
    autoencoder, lora, text_encoder, unet and diffusion_pytorch_model, and
    for these it never fails; the directory of any other file is that of
    its own category, whatever the base directory is. *)
Theorem get_file_destination_directory_base
  (cfg : FolderPaths.table) (filename base_model_dir repo_id : string) :
  (PyStr.any_in Spec.component_words (PyStr.lower filename) = false ->
   get_file_destination_directory cfg filename base_model_dir repo_id
   = Ok (Os.path_join base_model_dir (PyStr.last_segment repo_id)))
  /\ (PyStr.any_in Spec.component_words (PyStr.lower filename) = true ->
      forall other_dir,
        get_file_destination_directory cfg filename other_dir repo_id
        = get_file_destination_directory cfg filename base_model_dir repo_id).
Proof.
  unfold get_file_destination_directory, Spec.component_words, PyStr.any_in.
  cbn [existsb].
  generalize (PyStr.lower filename). intros name.
  destruct (PyStr.contains "vae" name) eqn:V; cbn [orb].
  { split; [discriminate | reflexivity]. }
  destruct (PyStr.contains "autoencoder" name) eqn:A; cbn [orb].
  { split; [discriminate | reflexivity]. }
  rewrite (contains_false_earlier "/" "vae/" name
             (contains_false_longer "vae" "/" name V)).
  destruct (PyStr.contains "lora" name) eqn:L; cbn [orb].
  { split; [discriminate | reflexivity]. }
  assert (PyStr.contains "loras" name = false) as ->
    by exact (contains_false_longer "lora" "s" name L).
  rewrite (contains_false_earlier "/" "lora/" name
             (contains_false_longer "lora" "/" name L)).
  destruct (PyStr.contains "text_encoder" name) eqn:T; cbn [orb].
  { split; [discriminate | reflexivity]. }
  assert (PyStr.contains "text_encoders" name = false) as ->
    by exact (contains_false_longer "text_encoder" "s" name T).
  rewrite (contains_false_earlier "/" "text_encoder" name T).
  destruct (PyStr.contains "unet" name) eqn:U; cbn [orb].
  { split; [discriminate | reflexivity]. }
  destruct (PyStr.contains "diffusion_pytorch_model" name) eqn:D; cbn [orb].
  { split; [discriminate | reflexivity]. }
  rewrite (contains_false_earlier "/" "unet/" name
             (contains_false_longer "unet" "/" name U)).
  split; [intros _ | discriminate].
  now destruct (_ || _).
Qed.

End HubClassification.

(** ** Downloads from a plain URL *)

Section PlainDownloads.

Variable sha256 : string -> list ascii.

(** The expected hash, when there is one to verify, is the digest of the
    content up to letter case. *)
Local Abbreviation hash_fits content expected_hash :=
  (match expected_hash with
   | Some (String c h) =>
       Spec.equal_up_to_case (Hashlib.hexdigest (sha256 content)) (String c h)
       = true
   | _ => True
   end).

Lemma verify_stored_file (fs : Os.files) (destination content expected : string) :
  ModelDownloader.verify_file_hash sha256 (<[destination := content]> fs)
    destination expected
  = Spec.equal_up_to_case (Hashlib.hexdigest (sha256 content)) expected.
Proof.
  unfold ModelDownloader.verify_file_hash.
  now rewrite lookup_insert_eq, equal_up_to_case_lower.
Qed.

(** X13. [ModelDownloader.download_file] returns [True] exactly when the
    transfer completed and the expected hash, if one was given and is not
    empty, is the SHA-256 digest of the content up to letter case.  A
    completed transfer is at the destination in either case: a file that
    fails the verification is reported but not removed.  No other path is
    touched, and a transfer refused before the file was opened changes
    nothing. *)
Theorem download_file_outcome (fetch : string -> fetch_result)
  (fs : Os.files) (url destination : string) (expected_hash : option string) :
  let r :=
    ModelDownloader.download_file sha256 fetch fs url destination expected_hash
  in
  (snd r = true
   <-> exists content,
         fetch url = Fetched content /\ hash_fits content expected_hash)
  /\ (forall content,
        fetch url = Fetched content -> fst r !! destination = Some content)
  /\ (forall p, p <> destination -> fst r !! p = fs !! p)
  /\ (fetch url = Refused -> fst r = fs).
Proof.
  cbn zeta. unfold ModelDownloader.download_file.
  destruct (fetch url) as [content | partial | ].
  - assert (forall fs' : Os.files, forall b : bool,
              (if negb b then (fs', false) else (fs', true)) = (fs', b)) as E
      by (intros ? []; reflexivity).
    destruct expected_hash as [[ | c h] | ]; rewrite ?E, ?verify_stored_file;
      cbn [fst snd]; (split; [ | split; [ | split]]);
      try (intros ? [= <-]; apply lookup_insert_eq);
      try (intros p Hp; now apply lookup_insert_ne);
      try discriminate.
    + split; [intros _; now exists content | reflexivity].
    + split; [intros H; now exists content | now intros (? & [= <-] & H)].
    + split; [intros _; now exists content | reflexivity].
  - cbn [fst snd]. repeat split; try discriminate.
    + now intros (? & ? & _).
    + intros p Hp. now apply lookup_insert_ne.
  - cbn [fst snd]. repeat split; try discriminate.
    now intros (? & ? & _).
Qed.

(** X14. [AdvancedModelDownloader.download_file_with_progress] consults the
    configuration before it verifies: when the value of [verify_hashes] is
    a false one, every completed transfer is reported as a success,
    whatever hash was expected; when it is a true one or is not set, the
    function does what [ModelDownloader.download_file] does with the same
    transfer. *)
Theorem download_file_with_progress_verification
  (requests_available : bool) (get : json -> string -> fetch_result)
  (retrieve : string -> fetch_result) (config : list (string * json))
  (fs : Os.files) (url destination : string) (expected_hash : option string) :
  let verify :=
    PyDict.truthy (default (JBool true) (PyDict.lookup "verify_hashes" config))
  in
  let transfer :=
    if requests_available
    then get (default (JInt 300) (PyDict.lookup "download_timeout" config))
    else retrieve in
  let r :=
    AdvancedModelDownloader.download_file_with_progress sha256
      requests_available get retrieve config fs url destination expected_hash
  in
  (verify = false ->
   (snd r = true <-> exists content, transfer url = Fetched content))
  /\ (verify = true ->
      r = ModelDownloader.download_file sha256 transfer fs url destination
            expected_hash).
Proof.
  cbn zeta.
  unfold AdvancedModelDownloader.download_file_with_progress,
    AdvancedModelDownloader._download_with_requests,
    AdvancedModelDownloader._download_with_urllib,
    AdvancedModelDownloader.verified, ModelDownloader.download_file.
  change (AdvancedModelDownloader.verify_file_hash sha256)
    with (ModelDownloader.verify_file_hash sha256).
  split; intros ->.
  - destruct requests_available;
      match goal with
      | |- context [match ?t with Fetched _ => _ | _ => _ end] => destruct t
      end; cbn [snd];
      try (split; [discriminate | now intros [? ?]]);
      (split; [eauto | intros _; now destruct expected_hash as [[ | ? ?] | ]]).
  - destruct requests_available;
      match goal with
      | |- context [match ?t with Fetched _ => _ | _ => _ end] => destruct t
      end; try reflexivity;
      destruct expected_hash as [[ | ? ?] | ]; try reflexivity;
      now destruct (negb _).
Qed.

End PlainDownloads.

(** A file whose digest is not the expected one is reported as failed and
    stays where it was stored. *)
Example download_file_keeps_unverified_file :
  ModelDownloader.download_file Sha256.sha256 (fun _ => Fetched "abc") ∅
    "https://example.org/model.safetensors" "/models/vae/model.safetensors"
    (Some "00")
  = ({["/models/vae/model.safetensors" := "abc"]}, false).
Proof. vm_compute. reflexivity. Qed.

(** ** Downloads from Civitai *)

Section CivitaiDownloads.

Import CivitaiModelManager.

Variable e : env.

Local Abbreviation model_requests model_id :=
  (fst (CivitaiAPI.get_model_info (send e) (repr e) model_id)).

Local Abbreviation version_requests v :=
  (fst (CivitaiAPI.get_model_version_info (send e) (repr e) (JInt v))).

Lemma metadata_path_other (destination : string) :
  metadata_path destination <> destination.
Proof.
  unfold metadata_path. intros H. apply (f_equal String.length) in H.
  rewrite string_length_app in H. cbn in H. lia.
Qed.

Lemma _save_metadata_other (fs0 : Os.files)
  (destination p : string) (model_info version_info file_info : json) :
  p <> metadata_path destination ->
  _save_metadata (json_dump e) (clock e) fs0 destination
    model_info version_info file_info !! p
  = fs0 !! p.
Proof.
  intros Hne. unfold _save_metadata.
  destruct (metadata _ _ _ _ _ _); [ | reflexivity].
  now rewrite lookup_insert_ne.
Qed.

Lemma select_version_requests (model_info : json) (version_id : option Z) :
  fst (select_version e model_info version_id) = []
  \/ exists v, version_id = Some v /\ v <> 0%Z
               /\ fst (select_version e model_info version_id)
                  = version_requests v.
Proof.
  destruct version_id as [[ | v | v] | ]; cbn; eauto;
    right; eexists; repeat split; easy.
Qed.

(** X15. Whatever the API answers, [CivitaiModelManager.download_model]
    first asks the API for the model and, only when a version other than 0
    was named, for that version; then it transfers at most one file, with
    the URL, the destination and the file entry it has settled on.  It
    returns [True] exactly when this transfer was made and completed, and
    the file is then at the destination.  Without a transfer, and with one
    refused before the file was opened, the file system is as before; a
    transfer that broke leaves the part it wrote at the destination.  No
    path other than the destination and its sidecar is ever touched. *)
Theorem civitai_download_model_outcome
  (w : world) (model_id : json) (version_id : option Z)
  (filename custom_dir : option string) :
  let r := download_model e w model_id version_id filename custom_dir in
  exists api : list CivitaiAPI.request,
    (api = model_requests model_id
     \/ exists v, version_id = Some v /\ v <> 0%Z
                  /\ api = model_requests model_id ++ version_requests v)
    /\ ((snd r = false
         /\ calls (fst r) = calls w ++ (ApiGet <$> api)
         /\ fs (fst r) = fs w)
        \/ exists model_info version_info url destination target_file,
             prepare e model_info version_info filename custom_dir
             = Ok (Some (url, destination, target_file))
             /\ calls (fst r) = calls w ++ (ApiGet <$> api) ++ [Download url]
             /\ match fetch e url with
                | Fetched content =>
                    snd r = true
                    /\ fs (fst r) !! destination = Some content
                    /\ forall p, p <> destination ->
                                 p <> metadata_path destination ->
                                 fs (fst r) !! p = fs w !! p
                | Broken partial =>
                    snd r = false
                    /\ fs (fst r) = <[destination := partial]> (fs w)
                | Refused => snd r = false /\ fs (fst r) = fs w
                end).
Proof.
  cbn zeta. unfold download_model.
  cbn [CivitaiAPI.get_model_info].
  set (model_info := match send e _ with Ok v => v | Raise _ => JNull end).
  set (first := CivitaiAPI.Request _ ∅).
  destruct (PyDict.truthy model_info); cbn [negb].
  2: { exists [first]. split; [now left | left]. now repeat split. }
  pose proof (select_version_requests model_info version_id) as Hreqs.
  destruct (select_version e model_info version_id) as [reqs version] eqn:S.
  cbn [fst] in Hreqs. cbn [fs calls].
  exists ([first] ++ reqs). split.
  { destruct Hreqs as [-> | (v & -> & Hv & ->)]; [left | right].
    - now rewrite app_nil_r.
    - exists v. now repeat split. }
  assert ((ApiGet <$> [first] ++ reqs)
          = (ApiGet <$> [first]) ++ (ApiGet <$> reqs)) as Hmap
    by apply fmap_app.
  rewrite Hmap, <- app_assoc. clear Hmap Hreqs S.
  destruct version as [[version_info | ] | ?];
    try (left; now repeat split).
  destruct (PyDict.truthy version_info); cbn [negb];
    [ | left; now repeat split].
  destruct (prepare e model_info version_info filename custom_dir)
    as [[[[url destination] target_file] | ] | ?] eqn:P;
    try (left; now repeat split).
  right. exists model_info, version_info, url, destination, target_file.
  split; [exact P | ]. unfold _download_file.
  destruct (fetch e url) as [content | partial | ]; cbn [fst snd fs calls];
    rewrite <- !app_assoc; (split; [reflexivity | ]).
  - split; [reflexivity | ]. split.
    + rewrite _save_metadata_other by (symmetry; apply metadata_path_other).
      apply lookup_insert_eq.
    + intros p Hp Hside. rewrite _save_metadata_other by exact Hside.
      now apply lookup_insert_ne.
  - now split.
  - now split.
Qed.

Lemma determine_model_type_known (t filename : string) :
  In (determine_model_type t filename) Spec.categories.
Proof.
  destruct (MODEL_TYPE_MAPPING !! t) as [c | ] eqn:E.
  - unfold determine_model_type. rewrite E. eapply mapping_values, E.
  - rewrite (fallback_first_match _ _ E). apply first_match_in_categories.
Qed.

Lemma determine_model_type_of_known (civitai_type filename : json)
  (category : string) :
  determine_model_type_of civitai_type filename = Ok category ->
  In category Spec.categories.
Proof.
  unfold determine_model_type_of.
  destruct civitai_type as [ | b | n | x | t | l | fields]; try discriminate;
    destruct filename as [ | b' | n' | x' | f | l' | fields'];
    try discriminate;
    try (intros [= <-]; apply determine_model_type_known).
  all: destruct (MODEL_TYPE_MAPPING !! t) as [c | ] eqn:E; [ | discriminate].
  all: intros [= <-]; eapply mapping_values, E.
Qed.

Lemma get_model_directory_configured (cfg0 : FolderPaths.table)
  (category dir : string) :
  get_model_directory cfg0 category = Ok dir ->
  exists rest exts, cfg0 !! category = Some (dir :: rest, exts).
Proof.
  unfold get_model_directory, FolderPaths.get_folder_paths.
  destruct (cfg0 !! category) as [[[ | d rest] exts] | ] eqn:E.
  - rewrite bool_decide_eq_false_2 by discriminate. discriminate.
  - rewrite bool_decide_eq_false_2 by discriminate. cbn.
    intros [= <-]. eauto.
  - rewrite bool_decide_eq_true_2 by reflexivity. discriminate.
Qed.

(** X16. The destination [download_model] settles on is a directory joined
    with the name of the file entry, a string.  The directory is the
    caller's [custom_dir] when that is not empty, whatever the directory
    table says; otherwise it is the first directory the table lists for one
    of the nine Civitai categories, so a file whose category the table does
    not know is not transferred at all.  The URL is never an empty value. *)
Theorem civitai_destination
  (model_info version_info : json) (filename custom_dir : option string)
  (url : json) (destination : string) (target_file : json) :
  prepare e model_info version_info filename custom_dir
  = Ok (Some (url, destination, target_file)) ->
  PyDict.truthy url = true
  /\ exists name,
       PyDict.getitem target_file "name" = Ok (JStr name)
       /\ match custom_dir with
          | Some (String c d) => destination = Os.path_join (String c d) name
          | _ =>
              exists category dir rest exts,
                In category Spec.categories
                /\ cfg e !! category = Some (dir :: rest, exts)
                /\ destination = Os.path_join dir name
          end.
Proof.
  unfold prepare. intros H.
  destruct (PyDict.get model_info "type" _) as [civitai_type | ?];
    [ | discriminate].
  destruct (PyDict.get version_info "files" _) as [files | ?];
    [ | discriminate].
  cbn [mbind result_bind] in H.
  destruct (PyDict.truthy files); [ | discriminate]. cbn [negb] in H.
  match type of H with
  | (?t ≫= _) = _ => destruct t as [[target | ] | ?]; try discriminate
  end.
  cbn [mbind result_bind] in H.
  destruct (PyDict.truthy target); [ | discriminate]. cbn [negb] in H.
  match type of H with
  | (?t ≫= _) = _ => destruct t as [model_dir | ?] eqn:D; [ | discriminate]
  end.
  cbn [mbind result_bind] in H.
  destruct (PyDict.get target "downloadUrl" JNull) as [download_url | ?];
    [ | discriminate].
  cbn [mbind result_bind] in H.
  destruct (PyDict.truthy download_url) eqn:T; [ | discriminate].
  cbn [negb] in H.
  match type of H with
  | (?t ≫= _) = _ => destruct t as [url' | ?] eqn:U; [ | discriminate]
  end.
  cbn [mbind result_bind] in H.
  destruct (PyDict.getitem target "name") as [[ | | | | name | | ] | ?] eqn:N;
    try discriminate.
  cbn [mbind result_bind] in H. injection H as <- <- <-.
  split.
  - destruct (api_key e) as [[ | c k] | ]; try (injection U as <-; exact T).
    destruct (PyDict.contains "?" download_url) as [has | ?]; [ | discriminate].
    cbn [mbind result_bind] in U. injection U as <-. cbn.
    destruct (PyDict.str (repr e) download_url); [ | reflexivity].
    now destruct has.
  - exists name. split; [exact N | ].
    assert ((name0 ← Ok (JStr name);
             comfyui_type ← determine_model_type_of civitai_type name0;
             get_model_directory (cfg e) comfyui_type) = Ok model_dir ->
            exists category dir rest exts,
                In category Spec.categories
                /\ cfg e !! category = Some (dir :: rest, exts)
                /\ Os.path_join model_dir name = Os.path_join dir name)
      as Hcfg.
    { cbn [mbind result_bind].
      destruct (determine_model_type_of civitai_type (JStr name))
        as [category | ?] eqn:C; [ | discriminate].
      intros G. apply determine_model_type_of_known in C.
      apply get_model_directory_configured in G as (rest & exts & G).
      now exists category, model_dir, rest, exts. }
    destruct custom_dir as [[ | c d] | ].
    + now apply Hcfg.
    + now injection D as <-.
    + now apply Hcfg.
Qed.

End CivitaiDownloads.

Lemma civitai_destination_witness :
  PyDict.truthy (JStr "https://civitai.com/api/download/models/67890") = true
  /\ exists name,
       PyDict.getitem
         (JObj [("name", JStr "ink.safetensors"); ("sizeKB", JInt 4);
                ("downloadUrl",
                 JStr "https://civitai.com/api/download/models/67890")])
         "name" = Ok (JStr name)
       /\ exists category dir rest exts,
            In category Spec.categories
            /\ CivitaiModelManager.cfg (Sample.civitai_site None) !! category
               = Some (dir :: rest, exts)
            /\ "/models/loras/ink.safetensors" = Os.path_join dir name.
Proof.
  apply (civitai_destination (Sample.civitai_site None)
           Sample.lora_model Sample.lora_version None None
           (JStr "https://civitai.com/api/download/models/67890")
           "/models/loras/ink.safetensors"
           (JObj [("name", JStr "ink.safetensors"); ("sizeKB", JInt 4);
                  ("downloadUrl",
                   JStr "https://civitai.com/api/download/models/67890")])).
  vm_compute. reflexivity.
Defined.

(** A model of the sample site is fetched with its first version and its
    first file, filed under the category of its type, and described in a
    sidecar; the version is not asked from the API. *)
Example civitai_download_run :
  let r :=
    CivitaiModelManager.download_model (Sample.civitai_site None)
      Sample.civitai_fresh (JInt 12345) None None None in
  snd r = true
  /\ CivitaiModelManager.calls (fst r)
     = [CivitaiModelManager.ApiGet
          (CivitaiAPI.Request "https://civitai.com/api/v1/models/12345" ∅);
        CivitaiModelManager.Download
          (JStr "https://civitai.com/api/download/models/67890")]
  /\ CivitaiModelManager.fs (fst r) !! "/models/loras/ink.safetensors"
     = Some "bytes of https://civitai.com/api/download/models/67890"
  /\ is_Some (CivitaiModelManager.fs (fst r)
              !! "/models/loras/ink.safetensors.civitai.json").
Proof. vm_compute. repeat split; eauto. Qed.

(** ** From a Civitai URL to a download *)

Section CivitaiUrls.

Import Re CivitaiURLParser CivitaiModelManager.



Lemma contains_after (l pre s : string) :
  PyStr.contains l s = true -> PyStr.contains l (pre +:+ s) = true.
Proof.
  intros H. induction pre as [ | c pre IH]; [exact H | ].
  change (String c pre +:+ s) with (String c (pre +:+ s)).
  cbn [PyStr.contains]. rewrite IH. apply orb_true_r.
Qed.

Lemma lstrip_is_suffix (p : ascii -> bool) (s : string) :
  exists pre, s = pre +:+ PyStr.lstrip_by p s.
Proof.
  induction s as [ | c s [pre IH]]; [now exists "" | ].
  cbn [PyStr.lstrip_by]. destruct (p c); [ | now exists ""].
  exists (String c pre).
  change (String c pre +:+ PyStr.lstrip_by p s)
    with (String c (pre +:+ PyStr.lstrip_by p s)).
  now rewrite <- IH.
Qed.

Lemma string_app_assoc (a b c : string) : (a +:+ b) +:+ c = a +:+ b +:+ c.
Proof.
  induction a as [ | x a IH]; [reflexivity | exact (f_equal (String x) IH)].
Qed.








End CivitaiUrls.




(** ** A file asked for by name *)

Section NamedFile.

Import CivitaiModelManager.

Variable e : env.

Lemma find_download_url_none (filename : string) (items : list json) :
  find_target_file filename items = Ok None ->
  CivitaiAPI.find_download_url filename items = Ok None.
Proof.
  induction items as [ | x items IH]; [reflexivity | ].
  cbn [find_target_file CivitaiAPI.find_download_url].
  destruct (PyDict.get x "name" JNull) as [name | ?]; [ | discriminate].
  cbn [mbind result_bind].
  destruct (PyDict.eq_str name filename); [discriminate | exact IH].
Qed.

(** X20. When a version lists files and none of them has the name that was
    asked for, the two ways to a file disagree:
    [CivitaiModelManager.download_model] transfers nothing and returns
    [False], while [CivitaiAPI.get_download_url] falls through to the
    first file of the version and returns its URL. *)
Theorem named_file_missing
  (w : world) (model_id : json) (v : Z) (filename : string)
  (custom_dir : option string) (version_info : json)
  (first : list (string * json)) (others : list json) (url : json) :
  v <> 0%Z ->
  filename <> EmptyString ->
  snd (CivitaiAPI.get_model_version_info (send e) (repr e) (JInt v))
  = version_info ->
  PyDict.get version_info "files" (JList [])
  = Ok (JList (JObj first :: others)) ->
  find_target_file filename (JObj first :: others) = Ok None ->
  PyDict.lookup "downloadUrl" first = Some url ->
  let r :=
    download_model e w model_id (Some v) (Some filename) custom_dir in
  (snd r = false
   /\ fs (fst r) = fs w
   /\ exists api, calls (fst r) = calls w ++ (ApiGet <$> api))
  /\ snd (CivitaiAPI.get_download_url (send e) (repr e) (JInt v)
            (Some filename))
     = url.
Proof.
  intros Hv Hname Hversion Hfiles Hnone Hurl. cbn zeta.
  destruct filename as [ | c f]; [now destruct Hname | ].
  assert (PyDict.truthy version_info = true) as Htruthy.
  { destruct version_info as [ | | | | | | fields]; try discriminate.
    cbn in Hfiles. injection Hfiles as Hfiles.
    destruct fields; [discriminate | reflexivity]. }
  split.
  - unfold download_model. cbn [CivitaiAPI.get_model_info].
    match goal with
    | |- context [PyDict.truthy ?m] => destruct (PyDict.truthy m)
    end; cbn [negb];
      [ | cbn; repeat split; eexists [_]; reflexivity].
    assert (forall model_info,
              select_version e model_info (Some v)
              = (fst (CivitaiAPI.get_model_version_info (send e) (repr e)
                        (JInt v)),
                 Ok (Some version_info))) as ->.
    { intros model_info. rewrite <- Hversion.
      destruct v; [now destruct Hv | reflexivity | reflexivity]. }
    cbn [fs calls]. rewrite Htruthy. cbn [negb].
    unfold prepare. rewrite Hfiles.
    destruct (PyDict.get _ "type" _) as [civitai_type | ?];
      cbn [mbind result_bind PyDict.truthy negb PyDict.iterate];
      [rewrite Hnone | ]; cbn [mbind result_bind fst snd fs calls];
      rewrite <- app_assoc, <- fmap_app; repeat split; eauto.
  - unfold CivitaiAPI.get_download_url.
    destruct (CivitaiAPI.get_model_version_info (send e) (repr e) (JInt v))
      as [reqs vi]. cbn [snd] in *. subst vi.
    rewrite Htruthy, Hfiles.
    cbn [negb mbind result_bind PyDict.truthy PyDict.iterate].
    rewrite (find_download_url_none _ _ Hnone).
    cbn [mbind result_bind PyDict.getitem0 PyDict.get]. now rewrite Hurl.
Qed.

End NamedFile.

Lemma named_file_missing_witness :
  let r :=
    CivitaiModelManager.download_model (Sample.civitai_site None)
      Sample.civitai_fresh (JInt 12345) (Some 67890%Z) (Some "ink.ckpt") None
  in
  (snd r = false
   /\ CivitaiModelManager.fs (fst r)
      = CivitaiModelManager.fs Sample.civitai_fresh
   /\ exists api,
        CivitaiModelManager.calls (fst r)
        = CivitaiModelManager.calls Sample.civitai_fresh
          ++ (CivitaiModelManager.ApiGet <$> api))
  /\ snd (CivitaiAPI.get_download_url
            (CivitaiModelManager.send (Sample.civitai_site None))
            (CivitaiModelManager.repr (Sample.civitai_site None))
            (JInt 67890) (Some "ink.ckpt"))
     = JStr "https://civitai.com/api/download/models/67890".
Proof.
  apply (named_file_missing (Sample.civitai_site None) Sample.civitai_fresh
           (JInt 12345) 67890%Z "ink.ckpt" None Sample.lora_version
           [("name", JStr "ink.safetensors"); ("sizeKB", JInt 4);
            ("downloadUrl",
             JStr "https://civitai.com/api/download/models/67890")]
           [JObj [("name", JStr "ink.yaml"); ("sizeKB", JInt 1);
                  ("downloadUrl",
                   JStr "https://civitai.com/api/download/models/67890?type=Config")]]);
    try reflexivity; discriminate.
Defined.

(** ** What a match tells about the text *)

Section MatchedText.

Import Re CivitaiURLParser.

Lemma eat_split (l s s' : string) : eat l s = Some s' -> s = l +:+ s'.
Proof.
  revert s. induction l as [ | a l IH]; intros s; cbn [eat].
  - now intros [= ->].
  - destruct s as [ | b s]; [discriminate | ].
    destruct (Ascii.eqb_spec a b) as [<- | ?]; [ | discriminate].
    intros H. apply IH in H. now rewrite H.
Qed.

(** A continuation that succeeds was called on a rest of the subject. *)
Lemma star_calls {A} (p : ascii -> bool) (s : string)
  (k : string -> option A) (r : A) :
  star p s k = Some r -> exists pre s', s = pre +:+ s' /\ k s' = Some r.
Proof.
  induction s as [ | c s IH]; cbn [star]; intros H.
  - now exists "", "".
  - destruct (p c); [ | now exists "", (String c s)].
    destruct (star p s k) as [r' | ] eqn:E.
    + injection H as ->. destruct (IH eq_refl) as (pre & s' & -> & Hk).
      now exists (String c pre), s'.
    + now exists "", (String c s).
Qed.

Lemma plus_calls {A} (p : ascii -> bool) (s : string)
  (k : string -> option A) (r : A) :
  plus p s k = Some r -> exists pre s', s = pre +:+ s' /\ k s' = Some r.
Proof.
  destruct s as [ | c s]; cbn [plus]; [discriminate | ].
  destruct (p c); [ | discriminate]. intros H.
  apply star_calls in H as (pre & s' & -> & Hk).
  now exists (String c pre), s'.
Qed.

Lemma count_calls {A} (n : nat) (p : ascii -> bool) (s : string)
  (k : string -> option A) (r : A) :
  count n p s k = Some r -> exists pre s', s = pre +:+ s' /\ k s' = Some r.
Proof.
  revert s. induction n as [ | n IH]; intros s; cbn [count]; intros H.
  - now exists "", s.
  - destruct s as [ | c s]; [discriminate | ].
    destruct (p c); [ | discriminate].
    apply IH in H as (pre & s' & -> & Hk). now exists (String c pre), s'.
Qed.

Lemma exec_calls (r : regex) (s : string) (g : groups)
  (k : string -> groups -> option groups) (m : groups) :
  exec r s g k = Some m ->
  exists pre s' g', s = pre +:+ s' /\ k s' g' = Some m.
Proof.
  revert s g k.
  induction r as [l | p | p | n p | r1 IH1 r2 IH2 | r IH | i r IH | ];
    intros s g k; cbn [exec]; intros H.
  - destruct (eat l s) as [s' | ] eqn:E; [ | discriminate].
    apply eat_split in E. now exists l, s', g.
  - apply star_calls in H as (pre & s' & -> & Hk). now exists pre, s', g.
  - apply plus_calls in H as (pre & s' & -> & Hk). now exists pre, s', g.
  - apply count_calls in H as (pre & s' & -> & Hk). now exists pre, s', g.
  - apply IH1 in H as (pre1 & s1 & g1 & -> & H).
    apply IH2 in H as (pre2 & s2 & g2 & -> & H).
    exists (pre1 +:+ pre2), s2, g2. split; [ | exact H].
    now rewrite string_app_assoc.
  - destruct (exec r s g k) as [m' | ] eqn:E.
    + injection H as ->. now apply IH in E.
    + now exists "", s, g.
  - apply IH in H as (pre & s' & g' & -> & H). eauto.
  - destruct s as [ | c [ | ? ?]]; try discriminate.
    + now exists "", "", g.
    + destruct (Ascii.eqb c newline); [ | discriminate].
      now exists "", (String c ""), g.
Qed.

Lemma search_calls (r : regex) (s : string) (m : groups) :
  search r s = Some m ->
  exists pre s', s = pre +:+ s' /\ re_match r s' = Some m.
Proof.
  induction s as [ | c s IH]; cbn [search]; intros H.
  - destruct (exec r "" ∅ accept) eqn:E; [ | discriminate].
    injection H as ->. now exists "", "".
  - destruct (exec r (String c s) ∅ accept) eqn:E.
    + injection H as ->. now exists "", (String c s).
    + apply IH in H as (pre & s' & -> & H). now exists (String c pre), s'.
Qed.

Lemma startswith_app (l s : string) : PyStr.startswith l (l +:+ s) = true.
Proof.
  induction l as [ | a l IH]; [reflexivity | ].
  change (String a l +:+ s) with (String a (l +:+ s)).
  cbn [PyStr.startswith]. now rewrite Ascii.eqb_refl.
Qed.

Lemma contains_app (l s : string) : PyStr.contains l (l +:+ s) = true.
Proof.
  destruct (l +:+ s) eqn:E; cbn [PyStr.contains]; rewrite <- E;
    now rewrite startswith_app.
Qed.

(** A pattern that starts with a literal only matches in a text that
    contains the literal. *)
Lemma search_literal (l : string) (r : regex) (s : string) (m : groups) :
  search (Cat (Lit l) r) s = Some m -> PyStr.contains l s = true.
Proof.
  intros H. apply search_calls in H as (pre & s' & -> & H).
  unfold re_match in H. cbn [exec] in H.
  destruct (eat l s') as [rest | ] eqn:E; [ | discriminate].
  apply eat_split in E. subst s'. apply contains_after, contains_app.
Qed.

Lemma startswith_before (l s t : string) :
  PyStr.startswith l s = true -> PyStr.startswith l (s +:+ t) = true.
Proof.
  revert s. induction l as [ | a l IH]; intros s; [reflexivity | ].
  destruct s as [ | b s]; [discriminate | ].
  change (String b s +:+ t) with (String b (s +:+ t)).
  cbn [PyStr.startswith]. intros H. apply andb_true_iff in H as [-> H].
  now apply IH.
Qed.

Lemma contains_before (l s t : string) :
  PyStr.contains l s = true -> PyStr.contains l (s +:+ t) = true.
Proof.
  induction s as [ | b s IH]; cbn [PyStr.contains]; intros H.
  - rewrite orb_false_r in H. destruct l; [ | discriminate].
    destruct ("" +:+ t); reflexivity.
  - change (String b s +:+ t) with (String b (s +:+ t)).
    cbn [PyStr.contains]. apply orb_true_iff in H as [H | H].
    + pose proof (startswith_before _ _ t H) as K.
      change (String b s +:+ t) with (String b (s +:+ t)) in K.
      now rewrite K.
    + rewrite (IH H). apply orb_true_r.
Qed.

Lemma rstrip_is_prefix (p : ascii -> bool) (s : string) :
  exists post, s = PyStr.rstrip_by p s +:+ post.
Proof.
  induction s as [ | c s [post IH]]; [now exists "" | ].
  cbn [PyStr.rstrip_by]. destruct (PyStr.rstrip_by p s) as [ | d r] eqn:E.
  - destruct (p c); [now exists (String c s) | ].
    exists s. reflexivity.
  - exists post.
    change (String c (String d r) +:+ post)
      with (String c (String d r +:+ post)).
    now rewrite <- IH.
Qed.

Lemma lower_char_lower (c : ascii) :
  PyStr.lower_char (PyStr.lower_char c) = PyStr.lower_char c.
Proof. destruct c as [[] [] [] [] [] [] [] []]; reflexivity. Qed.

Lemma startswith_lower (l s : string) :
  PyStr.startswith l s = true ->
  PyStr.startswith (PyStr.lower l) (PyStr.lower s) = true.
Proof.
  revert s. induction l as [ | a l IH]; intros s; [reflexivity | ].
  destruct s as [ | b s]; [discriminate | ].
  cbn [PyStr.startswith PyStr.lower]. intros H.
  apply andb_true_iff in H as [Hab H].
  apply Ascii.eqb_eq in Hab as ->. rewrite Ascii.eqb_refl. now apply IH.
Qed.

Lemma contains_lower (l s : string) :
  PyStr.contains l s = true ->
  PyStr.contains (PyStr.lower l) (PyStr.lower s) = true.
Proof.
  induction s as [ | b s IH]; cbn [PyStr.contains PyStr.lower]; intros H;
    apply orb_true_iff in H as [H | H]; apply orb_true_iff.
  - left. exact (startswith_lower _ _ H).
  - discriminate.
  - left. exact (startswith_lower _ _ H).
  - right. exact (IH H).
Qed.

(** X21. Every URL that [parse_civitai_url] can parse is one that
    [is_civitai_url] recognises: a result means that the text contains
    civitai.com, in lower case.  The converse fails, as the recogniser
    ignores the case of the letters and the parser does not. *)
Theorem parsed_url_is_civitai_url (url : string) :
  is_Some (parse_civitai_url url) -> is_civitai_url url = true.
Proof.
  intros [info H]. unfold is_civitai_url.
  assert (PyStr.contains "civitai.com"
            (PyStr.rstrip_slash (PyStr.strip url)) = true) as Hin.
  { unfold parse_civitai_url in H.
    destruct (search version_pattern _) as [m | ] eqn:V.
    { apply search_literal in V.
      now apply (contains_shorter "civitai.com" "/models/") in V. }
    destruct (search model_pattern _) as [m | ] eqn:M.
    { apply search_literal in M.
      now apply (contains_shorter "civitai.com" "/models/") in M. }
    destruct (search download_pattern _) as [m | ] eqn:D; [ | discriminate].
    apply search_literal in D.
    now apply (contains_shorter "civitai.com" "/api/download/models/") in D. }
  unfold PyStr.rstrip_slash, PyStr.strip in Hin.
  destruct (rstrip_is_prefix (Ascii.eqb "/")
              (PyStr.rstrip_by PyStr.isspace
                 (PyStr.lstrip_by PyStr.isspace url))) as [post1 E1].
  destruct (rstrip_is_prefix PyStr.isspace
              (PyStr.lstrip_by PyStr.isspace url)) as [post2 E2].
  destruct (lstrip_is_suffix PyStr.isspace url) as [pre E3].
  apply (contains_before _ _ post1) in Hin. rewrite <- E1 in Hin.
  apply (contains_before _ _ post2) in Hin. rewrite <- E2 in Hin.
  apply (contains_after _ pre) in Hin. rewrite <- E3 in Hin.
  now apply contains_lower in Hin.
Qed.

End MatchedText.

Lemma parsed_url_is_civitai_url_witness :
  CivitaiURLParser.is_civitai_url
    " https://civitai.com/models/12345/ink-style/ " = true.
Proof.
  apply parsed_url_is_civitai_url. vm_compute. eauto.
Defined.

(** A URL with the host in capitals is recognised and cannot be parsed. *)
Example recognised_url_not_parsed :
  CivitaiURLParser.is_civitai_url "https://CIVITAI.COM/models/12345" = true
  /\ CivitaiURLParser.parse_civitai_url "https://CIVITAI.COM/models/12345"
     = None.
Proof. split; vm_compute; reflexivity. Qed.

(** ** Model URLs *)

Section ModelUrls.

Import Re CivitaiURLParser.






(** A text that ends in characters that are neither blanks nor slashes
    loses only the blanks in front of it. *)
Lemma strip_keeps (prefix body last : string) :
  PyStr.all_chars
    (fun c => negb (PyStr.isspace c) && negb (Ascii.eqb "/" c)) last = true ->
  last <> "" ->
  stops_at PyStr.isspace (body +:+ last) = true ->
  PyStr.rstrip_slash (PyStr.strip (prefix +:+ body +:+ last))
  = PyStr.lstrip_by PyStr.isspace prefix +:+ body +:+ last.
Proof.
  intros Hlast Hne Hbody.
  unfold PyStr.strip, PyStr.rstrip_slash.
  rewrite lstrip_app by exact Hbody.
  set (p := PyStr.lstrip_by PyStr.isspace prefix).
  assert (forall q,
            (forall c, negb (PyStr.isspace c) && negb (Ascii.eqb "/" c) = true
                       -> negb (q c) = true) ->
            PyStr.rstrip_by q (p +:+ body +:+ last) = p +:+ body +:+ last)
    as Hr.
  { intros q Hq. eapply proj1. do 2 apply rstrip_keeps.
    split; [ | exact Hne]. apply rstrip_run; [ | exact Hne].
    revert Hlast. apply all_chars_impl, Hq. }
  rewrite (Hr PyStr.isspace) by (intros c H; now apply andb_true_iff in H).
  apply Hr. intros c H. now apply andb_true_iff in H.
Qed.









End ModelUrls.



(** ** Hugging Face URLs *)

Section HubUrls.

Import Re HuggingFaceURLParser.

Lemma is_segment_inv (s : string) :
  Spec.is_segment s = true ->
  PyStr.all_chars (none_of "/") s = true
  /\ PyStr.all_chars
       (fun c => negb (PyStr.isspace c) && negb (Ascii.eqb "/" c)) s = true
  /\ PyStr.all_chars dot s = true
  /\ s <> "".
Proof.
  unfold Spec.is_segment. intros H. apply andb_true_iff in H as [H Hne].
  repeat split.
  - revert H. apply all_chars_impl. intros c Hc.
    now apply andb_true_iff in Hc.
  - revert H. apply all_chars_impl. intros c Hc.
    apply andb_true_iff in Hc as [Hc ->]. cbn [andb].
    unfold none_of in Hc. cbn [PyStr.contains PyStr.startswith] in Hc.
    destruct (Ascii.eqb_spec "/" c) as [<- | ?]; [discriminate | reflexivity].
  - revert H. apply all_chars_impl. intros c Hc.
    apply andb_true_iff in Hc as [_ Hc]. unfold dot.
    destruct (Ascii.eqb_spec c newline) as [-> | ?]; [discriminate | reflexivity].
  - intros ->. discriminate.
Qed.

Lemma all_chars_both (p : ascii -> bool) (s t : string) :
  PyStr.all_chars p s = true -> PyStr.all_chars p t = true ->
  PyStr.all_chars p (s +:+ t) = true.
Proof.
  intros Hs Ht. induction s as [ | c s IH]; [exact Ht | ].
  change (String c s +:+ t) with (String c (s +:+ t)).
  cbn [PyStr.all_chars] in *. apply andb_true_iff in Hs as [-> Hs].
  now apply IH.
Qed.

Lemma hf_search_first_occurrence (prefix s : string) :
  PyStr.find "huggingface.co/" (prefix +:+ s) = Some (String.length prefix) ->
  hf_search (prefix +:+ s) = hf_search s.
Proof.
  induction prefix as [ | c prefix IH]; intros Hfind; [reflexivity | ].
  change (String c prefix +:+ s) with (String c (prefix +:+ s)) in *.
  cbn [PyStr.find] in Hfind.
  destruct (PyStr.startswith "huggingface.co/" (String c (prefix +:+ s)))
    eqn:Hs; [discriminate | ].
  cbn [hf_search]. unfold hf_exec at 1, repo_part. cbn [exec].
  rewrite (eat_startswith _ _ Hs).
  apply IH. destruct (PyStr.find _ (prefix +:+ s)) as [n | ]; [ | discriminate].
  cbn in Hfind. now injection Hfind as ->.
Qed.

Lemma hf_search_here (s : string) (m : groups) :
  hf_exec s ∅ accept = Some m -> hf_search s = Some m.
Proof. intros H. destruct s; cbn [hf_search]; now rewrite H. Qed.

(** The groups of the match for a URL of a repository or of a place:
    namespace, name, branch and file. *)
Local Abbreviation found namespace name at_place :=
  (match at_place : option Spec.place with
   | Some (_, branch, Some (folders, file)) =>
       <[4 := folders +:+ file]>
         (<[3 := branch]> (<[2 := name]> (<[1 := namespace]> ∅)))
   | Some (_, branch, None) =>
       <[3 := branch]> (<[2 := name]> (<[1 := namespace]> ∅))
   | None => <[2 := name]> (<[1 := namespace]> ∅)
   end : groups).

Local Abbreviation well_formed namespace name at_place :=
  (Spec.is_slug namespace = true
   /\ Spec.is_segment name = true
   /\ match at_place : option Spec.place with
      | Some (_, branch, file) =>
          Spec.is_segment branch = true
          /\ match file with
             | Some (folders, file) =>
                 PyStr.all_chars dot folders = true
                 /\ Spec.is_segment file = true
             | None => True
             end
      | None => True
      end).

Lemma hf_pattern_matches (namespace name : string)
  (at_place : option Spec.place) :
  well_formed namespace name at_place ->
  hf_exec (Spec.hub_url "" namespace name at_place) ∅ accept
  = Some (found namespace name at_place).
Proof.
  intros (Hns & Hname & Hplace).
  apply is_slug_inv in Hns as [Hns Hns'].
  apply is_segment_inv in Hname as (Hname & _ & _ & Hname').
  unfold hf_exec, repo_part, Spec.hub_url.
  change ("" +:+ "huggingface.co/" +:+ ?t) with ("huggingface.co/" +:+ t).
  rewrite exec_cat, exec_lit, exec_cat.
  apply exec_group_plus_run; [assumption | assumption | reflexivity | ].
  rewrite exec_cat, exec_lit.
  destruct at_place as [[[blob branch] file] | ].
  - destruct Hplace as [Hbranch Hfile].
    apply is_segment_inv in Hbranch as (Hbranch & _ & _ & Hbranch').
    apply exec_group_plus_run;
      [assumption | assumption | now destruct blob | ].
    (* The part after the branch. *)
    assert (exec (Opt (Lit "/" ⋅ Group 4 (Plus dot)))%re
              match file with
              | Some (folders, file0) => "/" +:+ folders +:+ file0
              | None => ""
              end
              (<[3 := branch]> (<[2 := name]> (<[1 := namespace]> ∅)))
              accept
            = Some (found namespace name (Some (blob, branch, file))))
      as Hfile_part.
    { destruct file as [[folders file] | ]; [ | reflexivity].
      destruct Hfile as [Hfolders Hfile].
      apply is_segment_inv in Hfile as (_ & _ & Hfile & Hfile').
      assert (exec (Lit "/" ⋅ Group 4 (Plus dot))%re
                ("/" +:+ folders +:+ file)
                (<[3 := branch]> (<[2 := name]> (<[1 := namespace]> ∅)))
                accept
              = Some (<[4 := folders +:+ file]>
                        (<[3 := branch]>
                           (<[2 := name]> (<[1 := namespace]> ∅)))))
        as Htaken.
      { rewrite exec_cat, exec_lit.
        rewrite <- (string_app_nil (folders +:+ file)) at 1.
        apply exec_group_plus_run;
          [now apply all_chars_both | | reflexivity | reflexivity].
        destruct folders; [exact Hfile' | discriminate]. }
      change (exec (Opt ?r) ?s ?g ?k)
        with (match exec r s g k with Some m => Some m | None => k s g end).
      now rewrite Htaken. }
    assert (forall t : string,
              exec branch_part ("/" +:+ branch +:+ t)
                (<[2 := name]> (<[1 := namespace]> ∅)) accept
              = exec (Group 3 (Plus (none_of "/"))) (branch +:+ t)
                  (<[2 := name]> (<[1 := namespace]> ∅))
                  (fun s' g' =>
                     exec (Opt (Lit "/" ⋅ Group 4 (Plus dot)))%re s' g' accept))
      as Hbranch_part
      by (intros t; unfold branch_part; now rewrite exec_cat, exec_lit, exec_cat).
    assert (exec branch_part
              ("/" +:+ branch
                 +:+ match file with
                     | Some (folders, file0) => "/" +:+ folders +:+ file0
                     | None => ""
                     end)
              (<[2 := name]> (<[1 := namespace]> ∅)) accept
            = Some (found namespace name (Some (blob, branch, file))))
      as Hafter.
    { rewrite Hbranch_part.
      apply exec_group_plus_run;
        [assumption | assumption | now destruct file as [[? ?] | ]
        | exact Hfile_part]. }
    unfold either. cbn [exec].
    destruct blob.
    + change (eat "/" ("/blob/" +:+ ?t)) with (Some ("blob/" +:+ t)).
      cbv beta iota.
      change (eat "tree" ("blob/" +:+ ?t)) with (@None string).
      cbv beta iota.
      change (eat "blob" ("blob/" +:+ ?t)) with (Some ("/" +:+ t)).
      cbv beta iota. cbn [exec] in Hafter. now rewrite Hafter.
    + change (eat "/" ("/tree/" +:+ ?t)) with (Some ("tree/" +:+ t)).
      cbv beta iota.
      change (eat "tree" ("tree/" +:+ ?t)) with (Some ("/" +:+ t)).
      cbv beta iota. cbn [exec] in Hafter. now rewrite Hafter.
  - apply exec_group_plus_run;
      [assumption | assumption | reflexivity | reflexivity].
Qed.

Lemma strip_hub_url (prefix namespace name : string)
  (at_place : option Spec.place) :
  well_formed namespace name at_place ->
  PyStr.rstrip_slash
    (PyStr.strip (Spec.hub_url prefix namespace name at_place))
  = Spec.hub_url (PyStr.lstrip_by PyStr.isspace prefix) namespace name
      at_place.
Proof.
  intros (Hns & Hname & Hplace).
  apply is_segment_inv in Hname as (_ & Hname & _ & Hname').
  assert (forall q last,
            PyStr.all_chars
              (fun c => negb (PyStr.isspace c) && negb (Ascii.eqb "/" c)) last
            = true ->
            last <> "" ->
            (q = PyStr.isspace \/ q = Ascii.eqb "/") ->
            PyStr.rstrip_by q last = last /\ last <> "") as Hlast.
  { intros q last Hl Hne Hq. split; [ | exact Hne].
    apply rstrip_run; [ | exact Hne]. revert Hl. apply all_chars_impl.
    intros c Hc. apply andb_true_iff in Hc as [H1 H2].
    now destruct Hq as [-> | ->]. }
  unfold Spec.hub_url, PyStr.strip, PyStr.rstrip_slash.
  rewrite lstrip_app by reflexivity.
  set (p := PyStr.lstrip_by PyStr.isspace prefix).
  destruct at_place as [[[blob branch] [[folders file] | ]] | ].
  - destruct Hplace as (_ & _ & Hfile).
    apply is_segment_inv in Hfile as (_ & Hfile & _ & Hfile').
    set (kind := if blob then "/blob/" else "/tree/").
    assert (forall q, q = PyStr.isspace \/ q = Ascii.eqb "/" ->
              PyStr.rstrip_by q
                (p +:+ "huggingface.co/" +:+ namespace +:+ "/" +:+ name
                   +:+ kind +:+ branch +:+ "/" +:+ folders +:+ file)
              = p +:+ "huggingface.co/" +:+ namespace +:+ "/" +:+ name
                  +:+ kind +:+ branch +:+ "/" +:+ folders +:+ file) as Hr.
    { intros q Hq. eapply proj1. do 9 apply rstrip_keeps.
      apply Hlast; [exact Hfile | exact Hfile' | exact Hq]. }
    rewrite (Hr PyStr.isspace) by now left. apply Hr. now right.
  - destruct Hplace as (Hbranch & _).
    apply is_segment_inv in Hbranch as (_ & Hbranch & _ & Hbranch').
    set (kind := if blob then "/blob/" else "/tree/").
    rewrite !string_app_nil.
    assert (forall q, q = PyStr.isspace \/ q = Ascii.eqb "/" ->
              PyStr.rstrip_by q
                (p +:+ "huggingface.co/" +:+ namespace +:+ "/" +:+ name
                   +:+ kind +:+ branch)
              = p +:+ "huggingface.co/" +:+ namespace +:+ "/" +:+ name
                  +:+ kind +:+ branch) as Hr.
    { intros q Hq. eapply proj1. do 6 apply rstrip_keeps.
      apply Hlast; [exact Hbranch | exact Hbranch' | exact Hq]. }
    rewrite (Hr PyStr.isspace) by now left. apply Hr. now right.
  - rewrite !string_app_nil.
    assert (forall q, q = PyStr.isspace \/ q = Ascii.eqb "/" ->
              PyStr.rstrip_by q
                (p +:+ "huggingface.co/" +:+ namespace +:+ "/" +:+ name)
              = p +:+ "huggingface.co/" +:+ namespace +:+ "/" +:+ name) as Hr.
    { intros q Hq. eapply proj1. do 4 apply rstrip_keeps.
      apply Hlast; [exact Hname | exact Hname' | exact Hq]. }
    rewrite (Hr PyStr.isspace) by now left. apply Hr. now right.
Qed.

(** What the pattern finds in the URL of a repository or of a place. *)
Lemma hub_url_search (prefix namespace name : string)
  (at_place : option Spec.place) :
  well_formed namespace name at_place ->
  PyStr.find "huggingface.co/" (Spec.hub_url prefix namespace name at_place)
  = Some (String.length prefix) ->
  hf_search
    (PyStr.rstrip_slash
       (PyStr.strip (Spec.hub_url prefix namespace name at_place)))
  = Some (found namespace name at_place).
Proof.
  intros Hok Hfirst. rewrite (strip_hub_url _ _ _ _ Hok).
  unfold Spec.hub_url in Hfirst |- *. apply find_lstrip in Hfirst.
  rewrite (hf_search_first_occurrence _ _ Hfirst).
  apply hf_search_here. exact (hf_pattern_matches namespace name at_place Hok).
Qed.

(** The branch and the file a URL names. *)
Local Abbreviation branch_of at_place :=
  (match at_place : option Spec.place with
   | Some (_, branch, _) => branch
   | None => "main"
   end).

Local Abbreviation file_of at_place :=
  (match at_place : option Spec.place with
   | Some (_, _, Some (folders, file)) => Some (folders +:+ file)
   | _ => None
   end).

Lemma hub_url_parsed (prefix namespace name : string)
  (at_place : option Spec.place) :
  well_formed namespace name at_place ->
  PyStr.find "huggingface.co/" (Spec.hub_url prefix namespace name at_place)
  = Some (String.length prefix) ->
  parse_hf_url (Spec.hub_url prefix namespace name at_place)
  = Some (UrlInfo (namespace +:+ "/" +:+ name) namespace name
            (branch_of at_place) (file_of at_place) "model").
Proof.
  intros Hok Hfirst. unfold parse_hf_url.
  rewrite (hub_url_search _ _ _ _ Hok Hfirst).
  destruct Hok as (_ & _ & Hplace).
  destruct at_place as [[[blob branch] [[folders file] | ]] | ];
    [destruct Hplace as (Hb & _) | destruct Hplace as (Hb & _) | reflexivity];
    apply is_segment_inv in Hb as (_ & _ & _ & Hb');
    (destruct branch; [now destruct Hb' | reflexivity]).
Qed.

(** X23. The URL of a repository, huggingface.co/[namespace]/[name], is
    parsed into the repository [namespace]/[name] on the branch main; the
    URL of a place in it, with /tree/[branch] or /blob/[branch] and
    perhaps the path of a file behind, into the repository on that branch,
    with the path of the file.  The text before it is free, as long as the
    URL proper is the first place where huggingface.co/ occurs. *)
Theorem parse_hub_url (prefix namespace name : string)
  (at_place : option Spec.place) :
  well_formed namespace name at_place ->
  PyStr.find "huggingface.co/" (Spec.hub_url prefix namespace name at_place)
  = Some (String.length prefix) ->
  exists info,
    parse_hf_url (Spec.hub_url prefix namespace name at_place) = Some info
    /\ repo_id info = namespace +:+ "/" +:+ name
    /\ HuggingFaceURLParser.namespace info = namespace
    /\ repo_name info = name
    /\ branch info = branch_of at_place
    /\ file_path info = file_of at_place
    /\ is_huggingface_url (Spec.hub_url prefix namespace name at_place) = true.
Proof.
  intros Hok Hfirst. eexists. split; [now apply hub_url_parsed | ].
  cbn [repo_id HuggingFaceURLParser.namespace repo_name branch file_path].
  repeat split.
  unfold is_huggingface_url, Spec.hub_url.
  apply (contains_lower "huggingface.co").
  apply contains_after.
  apply (contains_shorter "huggingface.co" "/").
  apply (contains_app "huggingface.co/").
Qed.

(** X24. [download_from_url] downloads the repository a Hugging Face URL
    names, on the branch it names or on main: it does what [download_model]
    does for them.  The path of a file in the URL plays no part, so the URL
    of one file of a repository downloads the whole repository. *)
Theorem download_from_hub_url (e : HuggingFaceModelManager.env)
  (w : HuggingFaceModelManager.world) (prefix namespace name : string)
  (at_place : option Spec.place) (custom_dir : option string) :
  well_formed namespace name at_place ->
  PyStr.find "huggingface.co/" (Spec.hub_url prefix namespace name at_place)
  = Some (String.length prefix) ->
  HuggingFaceModelManager.download_from_url e w
    (Spec.hub_url prefix namespace name at_place) custom_dir
  = HuggingFaceModelManager.download_model e w
      (namespace +:+ "/" +:+ name) (branch_of at_place) custom_dir.
Proof.
  intros Hok Hfirst. unfold HuggingFaceModelManager.download_from_url.
  now rewrite (hub_url_parsed _ _ _ _ Hok Hfirst).
Qed.

End HubUrls.

Lemma parse_hub_url_witness :
  exists info,
    HuggingFaceURLParser.parse_hf_url
      "https://huggingface.co/runwayml/stable-diffusion-v1-5/blob/main/unet/config.json"
    = Some info
    /\ HuggingFaceURLParser.repo_id info = "runwayml/stable-diffusion-v1-5"
    /\ HuggingFaceURLParser.namespace info = "runwayml"
    /\ HuggingFaceURLParser.repo_name info = "stable-diffusion-v1-5"
    /\ HuggingFaceURLParser.branch info = "main"
    /\ HuggingFaceURLParser.file_path info = Some "unet/config.json"
    /\ HuggingFaceURLParser.is_huggingface_url
         "https://huggingface.co/runwayml/stable-diffusion-v1-5/blob/main/unet/config.json"
       = true.
Proof.
  apply (parse_hub_url "https://" "runwayml" "stable-diffusion-v1-5"
           (Some (true, "main", Some ("unet/", "config.json")))).
  - vm_compute. tauto.
  - reflexivity.
Defined.

Lemma download_from_hub_url_witness :
  HuggingFaceModelManager.download_from_url Sample.full_hub Sample.fresh
    "https://huggingface.co/org/repo/blob/dev/a/model.safetensors" None
  = HuggingFaceModelManager.download_model Sample.full_hub Sample.fresh
      "org/repo" "dev" None.
Proof.
  apply (download_from_hub_url Sample.full_hub Sample.fresh "https://"
           "org" "repo" (Some (true, "dev", Some ("a/", "model.safetensors")))
           None).
  - vm_compute. tauto.
  - reflexivity.
Defined.

(** A URL with another page kind than tree or blob is read as the URL of
    the repository, so its branch is lost; and the first two segments after
    the host are taken for the repository, whatever they are. *)
Example other_hub_urls :
  HuggingFaceURLParser.branch
    <$> HuggingFaceURLParser.parse_hf_url
          "https://huggingface.co/org/repo/resolve/dev/model.safetensors"
  = Some "main"
  /\ HuggingFaceURLParser.repo_id
       <$> HuggingFaceURLParser.parse_hf_url
             "https://huggingface.co/datasets/org/repo"
     = Some "datasets/org".
Proof. split; vm_compute; reflexivity. Qed.

(** ** A batch of downloads *)

Section BatchDownloads.

Import AdvancedModelDownloader.

Context {W : Type}.
Variable via_hub : W -> json -> json -> json -> W * bool.
Variable via_url : W -> json -> string -> json -> W * bool.
Variable url_basename : json -> result string.
Variable cfg : FolderPaths.table.
Variable model_types : list string.
Variable repr : json -> string.
Variable config : list (string * json).

Local Abbreviation step :=
  (batch_entry via_hub via_url url_basename cfg model_types repr config).

Local Abbreviation loop :=
  (batch_loop via_hub via_url url_basename cfg model_types repr config).

Lemma batch_loop_counts (items : list json) (w w' : W) (n : nat) :
  Spec.state_after step items w = Some w' ->
  exists m,
    loop items w n = (w', Some m)
    /\ n <= m <= n + length items
    /\ (m = n + length items <-> Spec.all_succeed step items w).
Proof.
  revert w n. induction items as [ | d rest IH]; intros w n;
    cbn [Spec.state_after batch_loop Spec.all_succeed length].
  - intros [= <-]. exists n. repeat split; lia.
  - destruct (step w d) as [[w1 [ | ]] | ?]; [ | | discriminate]; intros H.
    + destruct (IH w1 (S n) H) as (m & -> & Hm & Hall). exists m.
      split; [reflexivity | ]. split; [lia | ]. split.
      * intros E. exists w1. split; [reflexivity | ]. apply Hall. lia.
      * intros (w2 & [= <-] & Hrest). apply Hall in Hrest. lia.
    + destruct (IH w1 n H) as (m & -> & Hm & Hall). exists m.
      split; [reflexivity | ]. split; [lia | ]. split.
      * intros E. lia.
      * intros (w2 & [=] & _).
Qed.

Lemma batch_loop_stops (pre post : list json) (d : json) (w w1 : W)
  (n : nat) (ex : exn) :
  Spec.state_after step pre w = Some w1 ->
  step w1 d = Raise ex ->
  loop (pre ++ d :: post) w n = (w1, None).
Proof.
  revert w n. induction pre as [ | x pre IH]; intros w n;
    cbn [Spec.state_after app batch_loop].
  - intros [= <-] ->. reflexivity.
  - destruct (step w x) as [[w2 [ | ]] | ?]; [ | | discriminate];
      intros H Hd; now apply IH.
Qed.

(** X25. For a configuration file that lists downloads, [batch_download]
    returns [True] exactly when every entry was handled with success, one
    after the other.  An entry that fails, or whose source is neither
    huggingface nor url, makes the result [False] but does not stop the
    batch: the entries behind it are handled all the same.  An entry that
    raises, as one of source url does when its model type is not
    configured, stops the batch: the entries behind it are not handled. *)
Theorem batch_download_all_or_nothing
  (read_config : result json) (w : W)
  (config_file downloads : json) (items : list json) :
  read_config = Ok config_file ->
  PyDict.get config_file "downloads" (JList []) = Ok downloads ->
  PyDict.truthy downloads = true ->
  PyDict.iterate downloads = Ok items ->
  let r :=
    batch_download via_hub via_url url_basename cfg model_types repr config
      read_config w in
  (snd r = true <-> Spec.all_succeed step items w)
  /\ (forall w', Spec.state_after step items w = Some w' -> fst r = w')
  /\ (forall pre d post w1 ex,
        items = pre ++ d :: post ->
        Spec.state_after step pre w = Some w1 ->
        step w1 d = Raise ex ->
        r = (w1, false)).
Proof.
  intros -> Hget Htruthy Hiter. cbn zeta. unfold batch_download.
  rewrite Hget, Htruthy, Hiter. cbn [negb].
  split; [ | split].
  - destruct (Spec.state_after step items w) as [w' | ] eqn:S.
    + destruct (batch_loop_counts items w w' 0 S) as (m & -> & Hm & Hall).
      cbn [snd]. rewrite bool_decide_eq_true. exact Hall.
    + assert (~ Spec.all_succeed step items w) as Hno.
      { clear Hiter. revert w S.
        induction items as [ | d rest IH]; intros w;
          cbn [Spec.state_after Spec.all_succeed]; [discriminate | ].
        destruct (step w d) as [[w1 b] | ?].
        - intros S (w2 & [= <- _] & Hrest). now apply (IH w1).
        - intros _ (w2 & [=] & _). }
      assert (forall n, snd (loop items w n) = None) as Hloop.
      { clear Hiter Hno. revert w S.
        induction items as [ | d rest IH]; intros w;
          cbn [Spec.state_after batch_loop]; [discriminate | ].
        destruct (step w d) as [[w1 [ | ]] | ?]; intros S n;
          [now apply IH | now apply IH | reflexivity]. }
      specialize (Hloop 0).
      destruct (loop items w 0) as [w' [m | ]]; [discriminate | ].
      cbn [snd]. split; [discriminate | intros H; now destruct Hno].
  - intros w' S.
    now destruct (batch_loop_counts items w w' 0 S) as (m & -> & _).
  - intros pre d post w1 ex -> Hpre Hd.
    now rewrite (batch_loop_stops pre post d w w1 0 ex Hpre Hd).
Qed.

End BatchDownloads.

Lemma batch_download_all_or_nothing_witness :
  let step :=
    AdvancedModelDownloader.batch_entry Sample.recording_hub
      Sample.recording_url (fun _ => Ok "b.safetensors") Sample.two_categories
      ["checkpoints"; "vae"] JsonText.dumps [] in
  let r :=
    AdvancedModelDownloader.batch_download Sample.recording_hub
      Sample.recording_url (fun _ => Ok "b.safetensors") Sample.two_categories
      ["checkpoints"; "vae"] JsonText.dumps [] (Ok Sample.batch_file) [] in
  (snd r = true <-> Spec.all_succeed step Sample.batch_items [])
  /\ (forall w', Spec.state_after step Sample.batch_items [] = Some w' ->
                 fst r = w')
  /\ (forall pre d post w1 ex,
        Sample.batch_items = pre ++ d :: post ->
        Spec.state_after step pre [] = Some w1 ->
        step w1 d = Raise ex ->
        r = (w1, false)).
Proof.
  apply (batch_download_all_or_nothing Sample.recording_hub
           Sample.recording_url (fun _ => Ok "b.safetensors")
           Sample.two_categories ["checkpoints"; "vae"] JsonText.dumps []
           (Ok Sample.batch_file) [] Sample.batch_file
           (JList Sample.batch_items) Sample.batch_items);
    reflexivity.
Defined.

(** The second entry of the sample batch raises, so the third is not
    handled; with a model type that is configured, all three are. *)
Example batch_download_stops :
  AdvancedModelDownloader.batch_download Sample.recording_hub
    Sample.recording_url (fun _ => Ok "b.safetensors") Sample.two_categories
    ["checkpoints"; "vae"] JsonText.dumps [] (Ok Sample.batch_file) []
  = ([JStr "org/a"], false)
  /\ AdvancedModelDownloader.batch_download Sample.recording_hub
       Sample.recording_url (fun _ => Ok "b.safetensors")
       (<["nowhere" := (["/models/nowhere"], [])]> Sample.two_categories)
       ["checkpoints"; "vae"] JsonText.dumps [] (Ok Sample.batch_file) []
     = ([JStr "org/a"; JStr "https://example.org/b.safetensors";
         JStr "org/c"], true).
Proof. split; vm_compute; reflexivity. Qed.

(** ** The provenance of a file that was downloaded *)

Section CivitaiProvenance.

Import CivitaiModelManager.

Variable e : env.
Variable json_load : string -> result json.

(** X26. A download from Civitai that completes leaves its provenance
    behind: when the API answered with a model and a version, a file was
    settled on and its transfer completed, [download_model] returns [True],
    the file is at the destination, and [get_model_metadata] for the
    destination returns the record of the model, the version and the file,
    provided the record could be built from the three answers and
    [json.load] reads back what [json.dump] wrote for it. *)
Theorem civitai_download_leaves_provenance
  (w : world) (model_id : json) (version_id : option Z)
  (filename custom_dir : option string)
  (model_info version_info url target_file record : json)
  (requests : list CivitaiAPI.request) (destination content : string) :
  snd (CivitaiAPI.get_model_info (send e) (repr e) model_id) = model_info ->
  PyDict.truthy model_info = true ->
  select_version e model_info version_id
  = (requests, Ok (Some version_info)) ->
  PyDict.truthy version_info = true ->
  prepare e model_info version_info filename custom_dir
  = Ok (Some (url, destination, target_file)) ->
  fetch e url = Fetched content ->
  metadata (clock e) (<[destination := content]> (fs w)) destination
    model_info version_info target_file = Ok record ->
  json_load (json_dump e record) = Ok record ->
  let r := download_model e w model_id version_id filename custom_dir in
  snd r = true
  /\ fs (fst r) !! destination = Some content
  /\ fs (fst r) !! metadata_path destination = Some (json_dump e record)
  /\ get_model_metadata json_load (fs (fst r)) destination = Some record.
Proof.
  intros Hmodel Hm Hversion Hv Hprepare Hfetch Hrecord Hload. cbn zeta.
  unfold download_model.
  destruct (CivitaiAPI.get_model_info (send e) (repr e) model_id)
    as [reqs mi]. cbn [snd] in Hmodel. subst mi.
  rewrite Hm. cbn [negb]. rewrite Hversion. cbn [fs calls].
  rewrite Hv. cbn [negb]. rewrite Hprepare.
  unfold _download_file. rewrite Hfetch. cbn [fst snd fs].
  unfold _save_metadata, get_model_metadata. rewrite Hrecord.
  rewrite lookup_insert_eq, Hload.
  rewrite lookup_insert_ne by apply metadata_path_other.
  rewrite lookup_insert_eq. now repeat split.
Qed.

End CivitaiProvenance.

Lemma civitai_download_leaves_provenance_witness :
  let e := Sample.civitai_site None in
  let r :=
    CivitaiModelManager.download_model e Sample.civitai_fresh (JInt 12345)
      None None None in
  let record :=
    JObj [("civitai_model_id", JInt 12345);
          ("civitai_version_id", JInt 67890);
          ("model_name", JStr "Ink style");
          ("model_type", JStr "LORA");
          ("version_name", JStr "v1.0");
          ("file_name", JStr "ink.safetensors");
          ("file_size", JInt 4096);
          ("download_date", JStr "1700000000.5");
          ("description", JStr "");
          ("tags", JList []);
          ("creator", JStr "alice");
          ("nsfw", JBool false)] in
  snd r = true
  /\ CivitaiModelManager.fs (fst r) !! "/models/loras/ink.safetensors"
     = Some "bytes of https://civitai.com/api/download/models/67890"
  /\ CivitaiModelManager.fs (fst r)
       !! CivitaiModelManager.metadata_path "/models/loras/ink.safetensors"
     = Some (CivitaiModelManager.json_dump e record)
  /\ CivitaiModelManager.get_model_metadata JsonText.loads
       (CivitaiModelManager.fs (fst r)) "/models/loras/ink.safetensors"
     = Some record.
Proof.
  apply (civitai_download_leaves_provenance (Sample.civitai_site None)
           JsonText.loads Sample.civitai_fresh (JInt 12345) None None None
           Sample.lora_model Sample.lora_version
           (JStr "https://civitai.com/api/download/models/67890")
           (JObj [("name", JStr "ink.safetensors"); ("sizeKB", JInt 4);
                  ("downloadUrl",
                   JStr "https://civitai.com/api/download/models/67890")])
           _ []
           "/models/loras/ink.safetensors"
           "bytes of https://civitai.com/api/download/models/67890");
    vm_compute; reflexivity.
Defined.

(** ** Downloads from the hub by the advanced downloader *)

Section AdvancedHub.

Import AdvancedModelDownloader.

Variable hf_available : bool.
Variable list_repo_files : string -> option (list string).
Variable hf_hub_download : string -> string -> string -> option (string * string).
Variable cfg : FolderPaths.table.
Variable model_types : list string.
Variable repr : json -> string.

Local Abbreviation hub_loop := (download_files hf_hub_download).

Lemma download_files_attempts (repo_id model_dir : string)
  (files : list string) :
  forall w success,
    HuggingFaceModelManager.attempts
      (fst (hub_loop repo_id model_dir files w success))
    = HuggingFaceModelManager.attempts w ++ files.
Proof.
  induction files as [ | f rest IH]; intros w success; cbn [download_files].
  - cbn. now rewrite app_nil_r.
  - destruct (hf_hub_download repo_id f model_dir) as [[p c] | ];
      rewrite IH; cbn; now rewrite <- app_assoc.
Qed.

Lemma download_files_success (repo_id model_dir : string)
  (files : list string) :
  forall w success,
    snd (hub_loop repo_id model_dir files w success) = true
    <-> success = true
        /\ Forall (fun f => is_Some (hf_hub_download repo_id f model_dir))
             files.
Proof.
  induction files as [ | f rest IH]; intros w success; cbn [download_files].
  - cbn. split; [now split | now intros [? _]].
  - destruct (hf_hub_download repo_id f model_dir) as [[p c] | ] eqn:Hf;
      rewrite IH; split.
    + intros [? ?]. split; [assumption | ]. constructor; [ | assumption].
      rewrite Hf. eauto.
    + intros [? H]. inversion H. now split.
    + now intros [? _].
    + intros [_ H]. inversion H as [ | ? ? [? Hn] ?]. now rewrite Hf in Hn.
Qed.

Lemma download_files_stored (repo_id model_dir : string)
  (files : list string) (p : string) :
  forall w success,
    let fs' :=
      HuggingFaceModelManager.fs
        (fst (hub_loop repo_id model_dir files w success)) in
    (fs' !! p = HuggingFaceModelManager.fs w !! p
     /\ forall f c, f ∈ files -> hf_hub_download repo_id f model_dir
                                 <> Some (p, c))
    \/ (exists f c, f ∈ files
                    /\ hf_hub_download repo_id f model_dir = Some (p, c)
                    /\ fs' !! p = Some c).
Proof.
  induction files as [ | f rest IH]; intros w success; cbn [download_files].
  - left. split; [reflexivity | ]. intros f c Hin. now apply elem_of_nil in Hin.
  - destruct (hf_hub_download repo_id f model_dir) as [[q c] | ] eqn:Hf.
    + match goal with
      | |- context [hub_loop _ _ rest ?w1 ?b] =>
          destruct (IH w1 b) as [[Hsame Hno] | (f' & c' & Hin & Hd & Hs)]
      end.
      * cbn [HuggingFaceModelManager.fs] in Hsame.
        destruct (decide (q = p)) as [-> | Hne].
        -- right. exists f, c. split; [left | ]. split; [assumption | ].
           cbv zeta. rewrite Hsame. apply lookup_insert_eq.
        -- left. split.
           ++ cbv zeta. rewrite Hsame. now apply lookup_insert_ne.
           ++ intros f' c' Hin. apply elem_of_cons in Hin as [-> | Hin].
              ** rewrite Hf. intros [= ? ?]. contradiction.
              ** now apply Hno.
      * right. exists f', c'. split; [now right | now split].
    + match goal with
      | |- context [hub_loop _ _ rest ?w1 ?b] =>
          destruct (IH w1 b) as [[Hsame Hno] | (f' & c' & Hin & Hd & Hs)]
      end.
      * left. split; [exact Hsame | ].
        intros f' c' Hin. apply elem_of_cons in Hin as [-> | Hin].
        -- now rewrite Hf.
        -- now apply Hno.
      * right. exists f', c'. split; [now right | now split].
Qed.

Lemma model_files_none (repo_files : list string) :
  List.filter
    (fun f => existsb (fun ext => PyStr.endswith ext f) supported_extensions)
    repo_files = []
  <-> forallb (fun f => negb (Spec.has_model_extension f)) repo_files = true.
Proof.
  induction repo_files as [ | f rest IH]; [easy | ].
  cbn [List.filter forallb]. unfold Spec.has_model_extension at 1.
  change [".ckpt"; ".pt"; ".pt2"; ".bin"; ".pth"; ".safetensors"; ".pkl";
          ".sft"; ".yaml"] with supported_extensions.
  destruct (existsb (fun ext => PyStr.endswith ext f) supported_extensions);
    cbn [negb andb]; [easy | exact IH].
Qed.

(** X28. What the advanced downloader asks the hub for, and what comes of
    it.  With the hub library present, the model type configured and the
    repository listed, [download_from_huggingface] asks for nothing when
    the repository lists no file with a model extension or the named file
    is not listed; otherwise it asks for the named file alone, whatever
    its extension, or, when no file is named, for every listed file with a
    model extension, once each and in the order of the listing, also after
    a file has failed.  It returns [True] exactly when it asked for a file
    and the hub delivered every file it asked for.  A path no requested
    file was stored at is as before, and a path a requested file was
    stored at holds what the hub stored there. *)
Theorem advanced_hub_download (w : HuggingFaceModelManager.world)
  (repo_id model_type model_dir : string) (filename : option string)
  (repo_files : list string) :
  hf_available = true ->
  get_model_directory cfg model_types repr (JStr model_type) = Ok model_dir ->
  list_repo_files repo_id = Some repo_files ->
  let r :=
    download_from_huggingface hf_available list_repo_files hf_hub_download
      cfg model_types repr w repo_id model_type filename in
  let wanted := Spec.hub_request repo_files filename in
  HuggingFaceModelManager.attempts (fst r)
  = HuggingFaceModelManager.attempts w ++ wanted
  /\ (snd r = true
      <-> wanted <> []
          /\ Forall (fun f => is_Some (hf_hub_download repo_id f model_dir))
               wanted)
  /\ (forall p,
        (forall f c, f ∈ wanted ->
                     hf_hub_download repo_id f model_dir <> Some (p, c)) ->
        HuggingFaceModelManager.fs (fst r) !! p
        = HuggingFaceModelManager.fs w !! p)
  /\ (forall f p c,
        f ∈ wanted -> hf_hub_download repo_id f model_dir = Some (p, c) ->
        exists f' c',
          f' ∈ wanted
          /\ hf_hub_download repo_id f' model_dir = Some (p, c')
          /\ HuggingFaceModelManager.fs (fst r) !! p = Some c').
Proof.
  intros Hlib Hdir Hlist r wanted.
  assert ((r = (w, false) /\ wanted = [])
          \/ (wanted <> []
              /\ r = hub_loop repo_id model_dir wanted w true)) as Hr.
  { subst r wanted. unfold download_from_huggingface, Spec.hub_request.
    rewrite Hlib, Hdir, Hlist. cbn [negb].
    destruct (forallb (fun f => negb (Spec.has_model_extension f)) repo_files)
      eqn:Hall.
    - left. apply model_files_none in Hall. now rewrite Hall.
    - assert (List.filter Spec.has_model_extension repo_files
              = List.filter
                  (fun f => existsb (fun ext => PyStr.endswith ext f)
                              supported_extensions) repo_files)
        as Hsame by reflexivity.
      rewrite Hsame.
      destruct (List.filter _ repo_files) as [ | f0 rest] eqn:Hfiles.
      { apply model_files_none in Hfiles. congruence. }
      destruct filename as [[ | c name] | ].
      + right. now split.
      + destruct (bool_decide (String c name ∈ repo_files)); cbn [negb].
        * right. now split.
        * now left.
      + right. now split. }
  destruct Hr as [[-> Hnil] | [Hsome ->]].
  - rewrite Hnil. cbn [fst snd]. rewrite app_nil_r.
    split; [reflexivity | ]. split; [ | split].
    + split; [discriminate | now intros [? _]].
    + reflexivity.
    + intros f p c Hin. now apply elem_of_nil in Hin.
  - split; [apply download_files_attempts | ]. split; [ | split].
    + rewrite download_files_success. split; [now intros [_ ?] | now intros [_ ?]].
    + intros p Hno.
      destruct (download_files_stored repo_id model_dir wanted p w true)
        as [[Hsame _] | (f' & c' & Hin & Hd & _)];
        [exact Hsame | now destruct (Hno f' c' Hin)].
    + intros f p c Hin Hd.
      destruct (download_files_stored repo_id model_dir wanted p w true)
        as [[_ Hno] | Hex]; [now destruct (Hno f c Hin) | exact Hex].
Qed.

End AdvancedHub.

Lemma advanced_hub_download_witness :
  let r :=
    AdvancedModelDownloader.download_from_huggingface true
      (fun _ => Some Sample.plain_names) Sample.local_hub
      Sample.two_categories ["checkpoints"; "vae"] JsonText.dumps
      Sample.fresh "org/plain" "vae" None in
  let wanted := Spec.hub_request Sample.plain_names None in
  HuggingFaceModelManager.attempts (fst r)
  = HuggingFaceModelManager.attempts Sample.fresh ++ wanted
  /\ (snd r = true
      <-> wanted <> []
          /\ Forall (fun f => is_Some (Sample.local_hub "org/plain" f
                                         "/models/vae"))
               wanted)
  /\ (forall p,
        (forall f c, f ∈ wanted ->
                     Sample.local_hub "org/plain" f "/models/vae"
                     <> Some (p, c)) ->
        HuggingFaceModelManager.fs (fst r) !! p
        = HuggingFaceModelManager.fs Sample.fresh !! p)
  /\ (forall f p c,
        f ∈ wanted ->
        Sample.local_hub "org/plain" f "/models/vae" = Some (p, c) ->
        exists f' c',
          f' ∈ wanted
          /\ Sample.local_hub "org/plain" f' "/models/vae" = Some (p, c')
          /\ HuggingFaceModelManager.fs (fst r) !! p = Some c').
Proof.
  apply (advanced_hub_download true (fun _ => Some Sample.plain_names)
           Sample.local_hub Sample.two_categories ["checkpoints"; "vae"]
           JsonText.dumps Sample.fresh "org/plain" "vae" "/models/vae" None
           Sample.plain_names);
    reflexivity.
Defined.

(** On the sample repository both model files are asked for although the
    first fails, the second is stored, and the result is [False]; the
    read-me file, asked for by name, is downloaded. *)
Example advanced_hub_download_run :
  AdvancedModelDownloader.download_from_huggingface true
    (fun _ => Some Sample.plain_names) Sample.local_hub
    Sample.two_categories ["checkpoints"; "vae"] JsonText.dumps
    Sample.fresh "org/plain" "vae" None
  = (HuggingFaceModelManager.World
       (<["/models/vae/vae/weights.safetensors"
          := "bytes of vae/weights.safetensors"]> ∅)
       ["unet/weights.safetensors"; "vae/weights.safetensors"],
     false)
  /\ AdvancedModelDownloader.download_from_huggingface true
       (fun _ => Some Sample.plain_names) Sample.local_hub
       Sample.two_categories ["checkpoints"; "vae"] JsonText.dumps
       Sample.fresh "org/plain" "vae" (Some "README.md")
     = (HuggingFaceModelManager.World
          (<["/models/vae/README.md" := "bytes of README.md"]> ∅)
          ["README.md"],
        true).
Proof. split; vm_compute; reflexivity. Qed.
